(** * CatBoost: GPU oblivious-tree structure search and target classification

    A shallow embedding of
    - [catboost/libs/model/target_classifier.h] ([TTargetClassifier]) and
    - [catboost/cuda/methods/oblivious_tree_structure_searcher.h]
      ([TTreeCtrDataSetVisitor], [TObliviousTreeStructureSearcher]),
    followed by the properties of these classes.

    Conventions.
    - [ui32], [ui64] and [int] values are integers of [Z]; where the source
      computes on them the wrap-around is written out with [Int.ui32],
      [Int.ui64] and [Int.int].
    - [float] and [double] values are IEEE 754 values, written as
      [spec_float]s in either format. A [float] compared with a [double] is
      promoted first, which keeps its value: [<] and [<=] are [Double.lt]
      and [Double.le], the order of the values, false as soon as one side
      is a NaN.
    - A call either returns, throws ([CB_ENSURE] raises an exception that
      nothing in these classes catches), or leaves the defined behaviour of
      C++ (an index outside a vector, a shift by the width of the type).
    - [Y_ASSERT] is compiled out of a release build; the behaviour modelled
      is the release one, and the asserted condition stays in the model as
      the first argument of [Y_ASSERT].
    - Device buffers are kept by their mapping (device, size); what the
      device computes (scores, compressed bits) enters as data of the run. *)

From Stdlib Require Import ZArith String Lia Bool.
From Stdlib Require Import Floats.SpecFloat.
From Stdlib Require QArith.
From stdpp Require Import base decidable option list.
From Equations Require Import Equations.

#[local] Open Scope Z_scope.

(** ** Machine integers *)

Module Int.

(** [static_cast<ui32>] and the arithmetic of [ui32]. *)
Definition ui32 (z : Z) : Z := z mod 2 ^ 32.

(** [static_cast<ui64>] and the arithmetic of [ui64]. *)
Definition ui64 (z : Z) : Z := z mod 2 ^ 64.

(** Conversion to [int] (two's complement, 32 bits). *)
Definition int (z : Z) : Z := (z + 2 ^ 31) mod 2 ^ 32 - 2 ^ 31.

End Int.

(** ** Floating-point values *)

Definition double := spec_float.
Definition float := spec_float.

(** [std::numeric_limits<double>::infinity()]. *)
Definition infinity : double := S754_infinity false.

(** [static_cast<float>(x)]: rounding to binary32, to nearest, ties to even. *)
Definition static_cast_float (x : double) : float :=
  match x with
  | S754_finite s m e => binary_round 24 128 s m e
  | _ => x
  end.

Module Double.

Import QArith_base.

(** The value a [float] or a [double] stands for: [m * 2^e] for a finite
    one, whatever the format it is written in. *)
Inductive TValue :=
| NaN
| MinusInfinity
| Finite (q : Q)
| PlusInfinity.

Definition value (x : spec_float) : TValue :=
  match x with
  | S754_nan => NaN
  | S754_infinity true => MinusInfinity
  | S754_infinity false => PlusInfinity
  | S754_zero _ => Finite (Qmake 0 1)
  | S754_finite s m e =>
      Finite (Qmult (inject_Z (if s then Z.neg m else Z.pos m)) (Qpower (Qmake 2 1) e))
  end.

(** [x < y] on [double]s, and on a [float] and a [double] after the
    promotion of the [float]. *)
Definition lt (x y : spec_float) : bool :=
  match value x, value y with
  | NaN, _ | _, NaN => false
  | _, MinusInfinity => false
  | MinusInfinity, _ => true
  | PlusInfinity, _ => false
  | Finite _, PlusInfinity => true
  | Finite a, Finite b => negb (Qle_bool b a)
  end.

(** [x <= y]. *)
Definition le (x y : spec_float) : bool :=
  match value x, value y with
  | NaN, _ | _, NaN => false
  | MinusInfinity, _ => true
  | _, MinusInfinity => false
  | _, PlusInfinity => true
  | PlusInfinity, _ => false
  | Finite a, Finite b => Qle_bool a b
  end.

End Double.

(** ** Results of calls *)

(** What has been streamed into a [TStringBuilder]. *)
Inductive TStreamed :=
| Str (s : string)
| Num (n : Z)
| Flt (x : double).

Definition TStringBuilder := list TStreamed.

Inductive TResult (A : Type) : Type :=
| Ok (a : A)
| Exception (what : TStringBuilder)
| Undefined.

Arguments Ok {A} a.
Arguments Exception {A} what.
Arguments Undefined {A}.

#[global] Instance TResult_ret : MRet TResult := fun _ a => Ok a.

#[global] Instance TResult_bind : MBind TResult := fun _ _ f m =>
  match m with
  | Ok a => f a
  | Exception what => Exception what
  | Undefined => Undefined
  end.

(** [CB_ENSURE(cond, message)]. *)
Definition CB_ENSURE (cond : bool) (message : TStringBuilder) : TResult unit :=
  if cond then Ok tt else Exception message.

(** [Y_ASSERT(cond)]: no effect in a release build. *)
Definition Y_ASSERT {A : Type} (cond : bool) (rest : A) : A := rest.

(** [v[i]] on a vector: outside the vector the behaviour is undefined. *)
Definition at_ {A : Type} (v : list A) (i : Z) : TResult A :=
  if bool_decide (0 <= i) then
    match v !! Z.to_nat i with
    | Some a => Ok a
    | None => Undefined
    end
  else Undefined.

(** [v[i] = a] on a vector. *)
Definition set_at {A : Type} (v : list A) (i : Z) (a : A) : TResult (list A) :=
  if bool_decide (0 <= i < Z.of_nat (length v)) then Ok (<[Z.to_nat i := a]> v)
  else Undefined.

(** ** [TTargetClassifier] *)

Module TTargetClassifier.

Record t := { Borders : list float }.

(** [Borders.ysize()]: the size of the vector converted to [int]. *)
Definition ysize (self : t) : Z := Int.int (Z.of_nat (length (Borders self))).

(** [Borders[i]]; the loop reads it only after the bound test. *)
Definition border (self : t) (i : Z) : float :=
  nth (Z.to_nat i) (Borders self) S754_nan.

(** The condition of the [while]:
    [resClass < Borders.ysize() && target > Borders[resClass]]. *)
Definition loop_condition (self : t) (target : double) (resClass : Z) : bool :=
  (resClass <? ysize self) && Double.lt (border self resClass) target.

(** The [while] loop of [GetTargetClass], from the current [resClass]. *)
Equations? GetTargetClass_loop (self : t) (target : double) (resClass : Z) : Z
  by wf (Z.to_nat (ysize self - resClass)) lt :=
GetTargetClass_loop self target resClass
  with sumbool_of_bool (loop_condition self target resClass) := {
  | left _ := GetTargetClass_loop self target (resClass + 1);
  | right _ := resClass }.
Proof.
  unfold loop_condition in *.
  apply andb_true_iff in e as [Hlt _]. lia.
Qed.

Definition GetTargetClass (self : t) (target : double) : Z :=
  GetTargetClass_loop self target 0.

(** [Borders.ysize() + 1], a sum of [int]s: above [INT_MAX] it is outside
    the defined behaviour. *)
Definition GetClassesCount (self : t) : TResult Z :=
  if bool_decide (ysize self + 1 < 2 ^ 31) then Ok (ysize self + 1) else Undefined.

(** The borders the loop can reach: those at the indices below the [int]
    size. They are all the borders of a vector of at most [INT_MAX]
    elements. *)
Definition visible (self : t) : list float :=
  take (Z.to_nat (ysize self)) (Borders self).

(** The specification of the loop: the longest prefix of the borders whose
    elements are each strictly less than the target. *)
Fixpoint longest_prefix_below (target : double) (borders : list float) : list float :=
  match borders with
  | [] => []
  | b :: rest => if Double.lt b target then b :: longest_prefix_below target rest else []
  end.

(** Borders in non-decreasing order: each border is at most the next one
    ([<=] of IEEE 754, so a NaN is in no such order with a neighbour). *)
Fixpoint nondecreasing (borders : list float) : bool :=
  match borders with
  | b :: rest =>
      match rest with
      | b' :: _ => Double.le b b' && nondecreasing rest
      | [] => true
      end
  | [] => true
  end.

End TTargetClassifier.

(** ** Splits, tensors and CTRs *)

Inductive EBinSplitType := TakeBin | TakeGreater.

#[global] Instance EBinSplitType_eq_dec : EqDecision EBinSplitType.
Proof. solve_decision. Defined.

Module TBinarySplit.

Record t := mk { FeatureId : Z; BinIdx : Z; SplitType : EBinSplitType }.

(** [operator==]: value equality on the three fields. *)
#[global] Instance eq_dec : EqDecision t.
Proof. solve_decision. Defined.

End TBinarySplit.

Module TBestSplitProperties.

(** The candidate split a score helper reports. The structure is declared
    outside these sources; its three fields are the ones the searcher reads
    and writes. *)
Record t := mk { FeatureId : Z; BinId : Z; Score : float }.

End TBestSplitProperties.

(** The feature id of "no candidate at all": [static_cast<ui32>(-1)]. *)
Definition NoFeature : Z := Int.ui32 (-1).

Module TFeatureTensor.

Record t := mk { Splits : list TBinarySplit.t; CatFeatures : list Z }.

#[global] Instance eq_dec : EqDecision t.
Proof. solve_decision. Defined.

End TFeatureTensor.

Module TCtr.

(** Identity is by value: the tensor and the configuration. The
    configuration (statistic type, prior) is declared outside these sources
    and is kept as a code, which is all that value equality needs. *)
Record t := mk { FeatureTensor : TFeatureTensor.t; Configuration : Z }.

#[global] Instance eq_dec : EqDecision t.
Proof. solve_decision. Defined.

(** The default-constructed [TCtr]. *)
Definition default : t :=
  {| FeatureTensor := TFeatureTensor.mk [] []; Configuration := 0 |}.

End TCtr.

(** ** The Features Manager *)

Module TBinarizedFeaturesManager.

(** Modelled from the spec: [TBinarizedFeaturesManager] is declared outside
    these sources. The spec makes it "the single authority mapping a CTR
    identity to a stable feature id and its discretization borders", an
    append-only registry whose callers deduplicate "before registration".
    The registry is the list of registrations in the order they were made;
    [AddCtr] appends one, and a lookup reads the first registration that
    matches. *)
Record TEntry := { Ctr : TCtr.t; Id : Z; CtrBorders : list float }.

Record t := {
  Entries : list TEntry;
  Cursor : Z;                 (* the next free feature id *)
  TreeCtrsEnabled : bool;
  BuiltinBorders : Z -> list float;   (* the borders of the features it was built with *)
}.

(** The identities registered so far, in the order of registration. *)
Definition KnownCtrs (fm : t) : list TCtr.t := Ctr <$> Entries fm.

(** Modelled from the spec: [IsKnown(ctr)] tells whether the identity has a
    registration ("check-then-insert"). *)
Definition IsKnown (fm : t) (ctr : TCtr.t) : bool :=
  bool_decide (ctr ∈ KnownCtrs fm).

(** Modelled from the spec: [AddCtr(ctr, borders)] registers the identity
    under the next free id, with its borders ("assigned an id and
    borders"); it does not test whether the identity is known, which is the
    caller's check. *)
Definition AddCtr (fm : t) (ctr : TCtr.t) (borders : list float) : t :=
  {| Entries := Entries fm ++ [{| Ctr := ctr; Id := Cursor fm; CtrBorders := borders |}];
     Cursor := Cursor fm + 1;
     TreeCtrsEnabled := TreeCtrsEnabled fm;
     BuiltinBorders := BuiltinBorders fm |}.

(** Modelled from the spec: [GetId(ctr)] is the id the identity was
    registered under first. *)
Definition GetId (fm : t) (ctr : TCtr.t) : option Z :=
  Id <$> List.find (fun e => bool_decide (Ctr e = ctr)) (Entries fm).

(** Modelled from the spec: [GetBorders(id)] are the borders registered
    under the id first. *)
Definition GetBorders (fm : t) (id : Z) : option (list float) :=
  CtrBorders <$> List.find (fun e => bool_decide (Id e = id)) (Entries fm).

(** Modelled from the spec: [GetBorders(featureId)] for any feature, the
    "discretization borders" the manager holds for it: those registered
    with a CTR under this id, else those of a feature the manager was built
    with. *)
Definition BordersOf (fm : t) (featureId : Z) : list float :=
  match GetBorders fm featureId with
  | Some borders => borders
  | None => BuiltinBorders fm featureId
  end.

(** [IsTreeCtrsEnabled()], a setting of the manager. *)
Definition IsTreeCtrsEnabled (fm : t) : bool := TreeCtrsEnabled fm.

(** Registration by check-then-insert: [registers fm fm'] when [fm'] comes
    from [fm] by calls of [AddCtr], each for an identity that [IsKnown]
    denies at the time of the call. *)
Inductive registers (fm : t) : t -> Prop :=
| registers_none : registers fm fm
| registers_add (fm' : t) (ctr : TCtr.t) (borders : list float) :
    registers fm fm' -> IsKnown fm' ctr = false ->
    registers fm (AddCtr fm' ctr borders).

(** Every identity is registered at most once, under an id below the
    cursor that no other registration has. *)
Definition wf (fm : t) : Prop :=
  NoDup (KnownCtrs fm) /\ NoDup (Id <$> Entries fm) /\
  Forall (fun e => Id e < Cursor fm) (Entries fm).

End TBinarizedFeaturesManager.

(** ** The learner options *)

Module TObliviousTreeLearnerOptions.

(** The options these classes read (the class is declared outside these
    sources); both are [ui32]. *)
Record t := {
  MaxDepth : Z;
  MaxCtrComplexityForBordersCaching : Z;
}.

Definition GetMaxDepth (o : t) : Z := MaxDepth o.

Definition GetMaxCtrComplexityForBordersCaching (o : t) : Z :=
  MaxCtrComplexityForBordersCaching o.

End TObliviousTreeLearnerOptions.

(** ** What the searcher takes from outside these sources *)

(** Helpers the two classes call and whose code is elsewhere. *)
Class Externals := {
  (** [IntLog2(values)] on [ui32]. *)
  IntLog2 : Z -> Z;
  (** [TakeBest(first, second, third)], the best-of-3 reduction. *)
  TakeBest : TBestSplitProperties.t -> TBestSplitProperties.t ->
             TBestSplitProperties.t -> TBestSplitProperties.t;
  (** [CompressedSize<ui64>(count, uniqueValues)]. *)
  CompressedSize : Z -> Z -> Z;
  (** [FeaturesManager.IsCat(featureId)]. *)
  IsCat : Z -> bool;
  (** [operator<] of [TCtr], the order of the keys of a [ymap]. *)
  CtrLess : TCtr.t -> TCtr.t -> bool;
}.

(** ** Device buffers and tree-CTR data sets *)

Module TSingleBuffer.

(** A buffer on one device, by its mapping; [Bits] names the split whose
    compressed bits it holds (data set hash, feature, bin), if any. *)
Record t := mk { Device : Z; Size : Z; Bits : option (Z * Z * Z) }.

(** The default-constructed buffer. *)
Definition empty : t := mk 0 0 None.

End TSingleBuffer.

Module TTreeCtrDataSet.

(** One tree-CTR data set as the visitor reads it. [ReadBorders] is the
    border read-back for one feature; [ScoreHelper] stands for the helper
    cached with the data set: the split it reports
    ([ReadAndRemapOptimalSplit]) after [SubmitCompute] on the current
    subsets and [ComputeOptimalSplit] with a noise level and a seed. *)
Record t := {
  Ctrs : list TCtr.t;
  HostFeatures : list Z;      (* [GetDataSet().GetHostFeatures()], by the ids of the features *)
  DeviceId : Z;
  BaseTensorHash : Z;
  ReadBorders : Z -> list float;
  ScoreHelper : double -> Z -> TBestSplitProperties.t;
}.

(** [GetCtrs()[i]]. *)
Definition GetCtr (ds : t) (i : Z) : TResult TCtr.t := at_ (Ctrs ds) i.

(** A [ymap<TCtr, yvector<float>>], by its entries as a loop over the map
    meets them: in the order of the keys, one entry per key. *)
Definition TBordersMap := list (TCtr.t * list float).

(** The place of a new key among the entries. *)
Fixpoint ymap_place `{Externals} (ctr : TCtr.t) (borders : list float)
    (m : TBordersMap) : TBordersMap :=
  match m with
  | [] => [(ctr, borders)]
  | entry :: rest =>
      if CtrLess ctr entry.1 then (ctr, borders) :: entry :: rest
      else entry :: ymap_place ctr borders rest
  end.

(** Insertion into the map: a key it has keeps its entry. *)
Definition ymap_insert `{Externals} (ctr : TCtr.t) (borders : list float)
    (m : TBordersMap) : TBordersMap :=
  if bool_decide (ctr ∈ m.*1) then m else ymap_place ctr borders m.

(** [ReadBorders(ids)]: the borders of the listed features, as a map from
    their CTRs (the CTRs of a data set are distinct, so that each listed
    feature brings its own key). *)
Definition ReadBordersOf `{Externals} (ds : t) (ids : list Z) : TBordersMap :=
  foldl (fun m i => match Ctrs ds !! Z.to_nat i with
                    | Some ctr => ymap_insert ctr (ReadBorders ds i) m
                    | None => m
                    end) [] ids.

End TTreeCtrDataSet.

(** ** [TTreeCtrDataSetVisitor] *)

Module TTreeCtrDataSetVisitor.

Import TBinarizedFeaturesManager.

(** The fields of the class. [FeaturesManager] is a reference to an object
    shared with the searcher, so the functions below take and return the
    manager beside the visitor; [Subsets] is only handed to the score
    helpers. *)
Record t := {
  FoldCount : Z;
  TreeConfig : TObliviousTreeLearnerOptions.t;
  BestScore : double;
  ScoreStdDev : double;
  BestBin : Z;
  BestDevice : Z;
  BestCtr : TCtr.t;
  BestBorders : list (list float);
  BestSplits : list TSingleBuffer.t;
  Seeds : list Z;
}.

Definition with_BestScore (v : t) (score : double) : t :=
  {| FoldCount := FoldCount v; TreeConfig := TreeConfig v; BestScore := score;
     ScoreStdDev := ScoreStdDev v; BestBin := BestBin v; BestDevice := BestDevice v;
     BestCtr := BestCtr v; BestBorders := BestBorders v; BestSplits := BestSplits v;
     Seeds := Seeds v |}.

Definition with_ScoreStdDev (v : t) (scoreStdDev : double) : t :=
  {| FoldCount := FoldCount v; TreeConfig := TreeConfig v; BestScore := BestScore v;
     ScoreStdDev := scoreStdDev; BestBin := BestBin v; BestDevice := BestDevice v;
     BestCtr := BestCtr v; BestBorders := BestBorders v; BestSplits := BestSplits v;
     Seeds := Seeds v |}.

Definition with_Seeds (v : t) (seeds : list Z) : t :=
  {| FoldCount := FoldCount v; TreeConfig := TreeConfig v; BestScore := BestScore v;
     ScoreStdDev := ScoreStdDev v; BestBin := BestBin v; BestDevice := BestDevice v;
     BestCtr := BestCtr v; BestBorders := BestBorders v; BestSplits := BestSplits v;
     Seeds := seeds |}.

Definition with_Best (v : t) (score : double) (bin dev : Z) (ctr : TCtr.t) : t :=
  {| FoldCount := FoldCount v; TreeConfig := TreeConfig v; BestScore := score;
     ScoreStdDev := ScoreStdDev v; BestBin := bin; BestDevice := dev;
     BestCtr := ctr; BestBorders := BestBorders v; BestSplits := BestSplits v;
     Seeds := Seeds v |}.

Definition with_BestSplits (v : t) (splits : list TSingleBuffer.t) : t :=
  {| FoldCount := FoldCount v; TreeConfig := TreeConfig v; BestScore := BestScore v;
     ScoreStdDev := ScoreStdDev v; BestBin := BestBin v; BestDevice := BestDevice v;
     BestCtr := BestCtr v; BestBorders := BestBorders v; BestSplits := splits;
     Seeds := Seeds v |}.

Definition with_BestBorders (v : t) (borders : list (list float)) : t :=
  {| FoldCount := FoldCount v; TreeConfig := TreeConfig v; BestScore := BestScore v;
     ScoreStdDev := ScoreStdDev v; BestBin := BestBin v; BestDevice := BestDevice v;
     BestCtr := BestCtr v; BestBorders := borders; BestSplits := BestSplits v;
     Seeds := Seeds v |}.

(** The constructor; [deviceCount] is [GetCudaManager().GetDeviceCount()]. *)
Definition Create (deviceCount : Z) (foldCount : Z)
    (treeConfig : TObliviousTreeLearnerOptions.t) : t :=
  {| FoldCount := foldCount;
     TreeConfig := treeConfig;
     BestScore := infinity;
     ScoreStdDev := S754_zero false;
     BestBin := Int.ui32 (-1);
     BestDevice := -1;
     BestCtr := TCtr.default;
     BestBorders := replicate (Z.to_nat deviceCount) [];
     BestSplits := replicate (Z.to_nat deviceCount) TSingleBuffer.empty;
     Seeds := replicate (Z.to_nat deviceCount) 0 |}.

Definition SetBestScore (v : t) (score : double) : t := with_BestScore v score.

(** The right-hand side of [Seeds[i] = seed + 664525 * i + 1013904223]:
    [664525 * i] is a product of an [int] and a [ui32], computed in [ui32];
    the two sums are computed in [ui64]. *)
Definition DeviceSeed (seed : Z) (i : Z) : Z :=
  Int.ui64 (Int.ui64 (seed + Int.ui32 (664525 * i)) + 1013904223).

(** The [for] loop of [SetScoreStdDevAndSeed], from index [i], with [n]
    slots left (a vector has fewer than 2^32 slots, so [++i] does not wrap). *)
Fixpoint SetSeeds_loop (n : nat) (i : Z) (seed : Z) (seeds : list Z) : list Z :=
  match n with
  | O => seeds
  | S n' => SetSeeds_loop n' (i + 1) seed (<[Z.to_nat i := DeviceSeed seed i]> seeds)
  end.

Definition SetScoreStdDevAndSeed (v : t) (scoreStdDev : double) (seed : Z) : t :=
  let v := with_ScoreStdDev v scoreStdDev in
  with_Seeds v (SetSeeds_loop (length (Seeds v)) 0 seed (Seeds v)).

Definition HasSplit (v : t) : bool := bool_decide (0 <= BestDevice v).

(** What the constructor sets up and the methods keep: the two vectors of
    best borders and best splits have one slot per device, and the best
    device, once there is one, is one of these devices. *)
Definition wf (v : t) : Prop :=
  length (BestBorders v) = length (BestSplits v)
  /\ BestDevice v < Z.of_nat (length (BestSplits v)).

Definition EnsureHasBestProps (v : t) : TResult unit :=
  _ ← CB_ENSURE (bool_decide (0 <= BestDevice v))
        [Str "Error: no good split in visitor found"];
  CB_ENSURE (bool_decide (BestBin v <= 255)) [].

Definition IsNeedToCacheBorders (v : t) (ctr : TCtr.t) : bool :=
  let tensor := TCtr.FeatureTensor ctr in
  bool_decide (length (TFeatureTensor.Splits tensor) = 0%nat)
  && bool_decide
       (Z.of_nat (length (TFeatureTensor.CatFeatures tensor))
        < TObliviousTreeLearnerOptions.GetMaxCtrComplexityForBordersCaching (TreeConfig v)).

(** The [for] loop of [GetCtrsBordersToCacheIds] over what is left of
    [ctrs], [i] being the index of its head. *)
Fixpoint GetCtrsBordersToCacheIds_loop (v : t) (ctrs : list TCtr.t) (i : Z) : list Z :=
  match ctrs with
  | [] => []
  | ctr :: rest =>
      if IsNeedToCacheBorders v ctr then i :: GetCtrsBordersToCacheIds_loop v rest (i + 1)
      else GetCtrsBordersToCacheIds_loop v rest (i + 1)
  end.

Definition GetCtrsBordersToCacheIds (v : t) (ctrs : list TCtr.t) : list Z :=
  GetCtrsBordersToCacheIds_loop v ctrs 0.

(** The body of the loop of [CacheCtrBorders] for one entry. The lock is
    taken between the test and the registration; one thread runs here. *)
Definition CacheCtrBorders_entry (fm : TBinarizedFeaturesManager.t)
    (entry : TCtr.t * list float) : TBinarizedFeaturesManager.t :=
  if negb (IsKnown fm entry.1) then
    let borders := entry.2 in
    Y_ASSERT (negb (IsKnown fm entry.1)) (AddCtr fm entry.1 borders)
  else fm.

Definition CacheCtrBorders (fm : TBinarizedFeaturesManager.t)
    (bordersMap : list (TCtr.t * list float)) : TBinarizedFeaturesManager.t :=
  foldl CacheCtrBorders_entry fm bordersMap.








(** The first block of [Accept]: the borders to cache are read back and
    registered before the data set is scored. *)
Definition Accept_cache `{Externals} (fm : TBinarizedFeaturesManager.t) (v : t)
    (ctrDataSet : TTreeCtrDataSet.t) : TBinarizedFeaturesManager.t :=
  let cacheIds := GetCtrsBordersToCacheIds v (TTreeCtrDataSet.Ctrs ctrDataSet) in
  if bool_decide (cacheIds <> []) then
    CacheCtrBorders fm (TTreeCtrDataSet.ReadBordersOf ctrDataSet cacheIds)
  else fm.

Section WithExternals.
Context `{Externals}.

Definition UpdateBestSplit (fm : TBinarizedFeaturesManager.t) (v : t)
    (dataSet : TTreeCtrDataSet.t) (inverseIndicesSize : Z)
    (bestSplitProperties : TBestSplitProperties.t) : TResult t :=
  let dev := TTreeCtrDataSet.DeviceId dataSet in
  if Double.lt (TBestSplitProperties.Score bestSplitProperties) (BestScore v) then
    bestCtr ← TTreeCtrDataSet.GetCtr dataSet
                (TBestSplitProperties.FeatureId bestSplitProperties);
    let v := with_Best v (TBestSplitProperties.Score bestSplitProperties)
                       (TBestSplitProperties.BinId bestSplitProperties)
                       (Int.int dev) bestCtr in
    let featureId := TBestSplitProperties.FeatureId bestSplitProperties in
    let binId := TBestSplitProperties.BinId bestSplitProperties in
    ctr ← TTreeCtrDataSet.GetCtr dataSet featureId;
    let compressedSize := CompressedSize (Int.ui32 inverseIndicesSize) 2 in
    reset ← set_at (BestSplits v) dev (TSingleBuffer.mk dev compressedSize None);
    hostFeature ← at_ (TTreeCtrDataSet.HostFeatures dataSet) featureId;
    (* [CreateCompressedSplit] fills the buffer with the bits of the split *)
    splits ← set_at reset dev
               (TSingleBuffer.mk dev compressedSize
                  (Some (TTreeCtrDataSet.BaseTensorHash dataSet, featureId, binId)));
    let v := with_BestSplits v splits in
    if negb (IsKnown fm ctr) then
      let read := TTreeCtrDataSet.ReadBorders dataSet featureId in
      borders ← set_at (BestBorders v) dev read;
      let v := with_BestBorders v borders in
      _ ← CB_ENSURE (bool_decide (binId < Z.of_nat (length read)))
            [Num (Z.of_nat (length read)); Str " "; Num featureId; Str " "; Num binId];
      mret v
    else mret v
  else mret v.

(** The seed of the noise of one data set's scores. *)
Definition TaskSeed (v : t) (ctrDataSet : TTreeCtrDataSet.t) : TResult Z :=
  seed ← at_ (Seeds v) (TTreeCtrDataSet.DeviceId ctrDataSet);
  mret (Int.ui64 (seed + TTreeCtrDataSet.BaseTensorHash ctrDataSet)).

Definition Accept (fm : TBinarizedFeaturesManager.t) (v : t)
    (ctrDataSet : TTreeCtrDataSet.t) (inverseIndicesSize : Z)
    : TResult (t * TBinarizedFeaturesManager.t) :=
  let fm := Accept_cache fm v ctrDataSet in
  taskSeed ← TaskSeed v ctrDataSet;
  let optimalSplit := TTreeCtrDataSet.ScoreHelper ctrDataSet (ScoreStdDev v) taskSeed in
  v ← UpdateBestSplit fm v ctrDataSet inverseIndicesSize optimalSplit;
  mret (v, fm).

End WithExternals.

Definition CreateBestSplitProperties (fm : TBinarizedFeaturesManager.t) (v : t)
    : TResult (TBestSplitProperties.t * TBinarizedFeaturesManager.t) :=
  _ ← EnsureHasBestProps v;
  fm ← (if negb (IsKnown fm (BestCtr v)) then
          borders ← at_ (BestBorders v) (BestDevice v);
          mret (AddCtr fm (BestCtr v) borders)
        else mret fm);
  featureId ← (match GetId fm (BestCtr v) with
               | Some id => Ok id
               | None => Undefined
               end);
  let splitProperties :=
    TBestSplitProperties.mk featureId (BestBin v) (static_cast_float (BestScore v)) in
  Y_ASSERT (bool_decide (TBestSplitProperties.BinId splitProperties
                         < Z.of_nat (length (default [] (GetBorders fm featureId)))))
    (mret (splitProperties, fm)).

Definition GetBestSplitBits (v : t) : TResult TSingleBuffer.t :=
  _ ← EnsureHasBestProps v;
  at_ (BestSplits v) (BestDevice v).

(** A visitor at some point of a visit that started from [v0], which had
    no split: either nothing has improved on [v0] and the visitor is [v0],
    or the visitor has a split and its best score is strictly below the
    score [v0] was seeded with. *)
Definition visited_from (v0 v : t) : Prop :=
  wf v /\ length (BestSplits v) = length (BestSplits v0)
  /\ ((HasSplit v = false /\ v = v0)
      \/ (HasSplit v = true /\ Double.lt (BestScore v) (BestScore v0) = true)).

(** The candidate split of a data set, as [Accept] gets it for a visitor
    with the seeds and the noise level of [v]. *)
Definition Candidate (v : t) (ctrDataSet : TTreeCtrDataSet.t)
    : TResult TBestSplitProperties.t :=
  taskSeed ← TaskSeed v ctrDataSet;
  mret (TTreeCtrDataSet.ScoreHelper ctrDataSet (ScoreStdDev v) taskSeed).

(** [v'] comes from [v] by a visit of [dataSets]: seeds and noise level are
    those of [v], no candidate of the visit is strictly better than the
    best score of [v'], and this best score is the one of [v] or the score
    of a candidate of the visit that is strictly better. *)
Definition keeps_minimum (v v' : t) (dataSets : list TTreeCtrDataSet.t) : Prop :=
  Seeds v' = Seeds v /\ ScoreStdDev v' = ScoreStdDev v
  /\ (forall ds, ds ∈ dataSets ->
        exists c, Candidate v ds = Ok c
                  /\ Double.lt (TBestSplitProperties.Score c) (BestScore v') = false)
  /\ (BestScore v' = BestScore v
      \/ (Double.lt (BestScore v') (BestScore v) = true
          /\ exists ds c, ds ∈ dataSets /\ Candidate v ds = Ok c
                          /\ BestScore v' = TBestSplitProperties.Score c)).

End TTreeCtrDataSetVisitor.

(** ** [TObliviousTreeStructureSearcher] *)

(** A target ([TTarget], a template parameter), by the size of its indices:
    [GetIndices().GetObjectsSlice().Size()]. *)
Record TTarget := { IndicesSize : Z }.

Record TOptimizationTask := { LearnTarget : TTarget; TestTarget : TTarget }.

Record TDataPartition := { Offset : Z; Size : Z }.

Module TSlice.

(** A range of objects, by its two [ui64] bounds: [TSlice(left, right)].
    The structure is declared outside these sources; [Size()] is the
    distance between the bounds. *)
Record t := mk { Left : Z; Right : Z }.

Definition Size (slice : t) : Z := Int.ui64 (Right slice - Left slice).

End TSlice.

(** A call [FillBuffer(bins.SliceView(slice), value)]: the slice of the bins
    that is filled and the value it is filled with. *)
Record TFill := { FillSlice : TSlice.t; FillValue : Z }.

Module TOptimizationSubsets.

(** The fields [CreateSubsets] sets; [Bins], [Indices] and [Partitions] are
    device buffers, kept by their sizes. *)
Record t := {
  BinsSize : Z;
  CurrentDepth : Z;
  FoldCount : Z;
  FoldBits : Z;
  PartitionsSize : Z;
}.

End TOptimizationSubsets.

(** One line of the log: "Best split for depth d: feature / bin ... with
    score s". *)
Record TLogLine := { LogDepth : Z; LogSplit : TBinarySplit.t; LogScore : float }.

(** What one permutation's visit hands to the visitor: the size of the
    permutation's indices and the data sets [VisitPermutationDataSets]
    passes to the callback, in order. *)
Record TPermutationVisit := {
  PermutationIndicesSize : Z;
  DataSets : list TTreeCtrDataSet.t;
}.

(** What the devices and the random generator give at one depth: the three
    static helpers' best splits, the seed drawn for the visitor and the
    permutations in use. *)
Record TDepthData := {
  FeaturesSplit : TBestSplitProperties.t;
  BinFeaturesSplit : TBestSplitProperties.t;
  CtrSplit : TBestSplitProperties.t;
  VisitorSeed : Z;
  UsedPermutations : list TPermutationVisit;
}.

(** The data of one run of [Fit]. *)
Record TRun := {
  DeviceCount : Z;
  TargetScoreStdDev : double;     (* RandomStrength * sqrt(sum2 / (count + 1e-100)) *)
  AtDepth : Z -> TDepthData;
}.

Module TObliviousTreeStructure.

Record t := { Splits : list TBinarySplit.t }.

(** Modelled from the spec: [TObliviousTreeStructure::HasSplit] is declared
    outside these sources; by the spec it tells whether "the chosen split
    already exists in the Tree Structure". *)
Definition HasSplit (tree : t) (candidate : TBinarySplit.t) : bool :=
  bool_decide (candidate ∈ Splits tree).

End TObliviousTreeStructure.

Inductive TLoopControl := Next | Break.

Module TObliviousTreeStructureSearcher.

Import TBinarizedFeaturesManager.

Record t := {
  TreeConfig : TObliviousTreeLearnerOptions.t;
  RandomStrength : double;
  ScoreStdDev : double;
  FoldBasedTasks : list TOptimizationTask;
  SingleTaskTarget : option TTarget;
}.

(** The constructor. *)
Definition Create (learnerOptions : TObliviousTreeLearnerOptions.t) : t :=
  {| TreeConfig := learnerOptions;
     RandomStrength := S754_zero false;
     ScoreStdDev := S754_zero false;
     FoldBasedTasks := [];
     SingleTaskTarget := None |}.

Definition AddTask (s : t) (learnTarget testTarget : TTarget) : TResult t :=
  _ ← CB_ENSURE (bool_decide (SingleTaskTarget s = None))
        [Str "We can't mix learn/test splits and full estimation"];
  mret {| TreeConfig := TreeConfig s; RandomStrength := RandomStrength s;
          ScoreStdDev := ScoreStdDev s;
          FoldBasedTasks := FoldBasedTasks s
                            ++ [{| LearnTarget := learnTarget; TestTarget := testTarget |}];
          SingleTaskTarget := SingleTaskTarget s |}.

Definition SetTarget (s : t) (target : TTarget) : TResult t :=
  _ ← CB_ENSURE (bool_decide (SingleTaskTarget s = None)) [Str "Target already was set"];
  _ ← CB_ENSURE (bool_decide (length (FoldBasedTasks s) = 0%nat))
        [Str "Can't mix foldBased and singleTask targets"];
  mret {| TreeConfig := TreeConfig s; RandomStrength := RandomStrength s;
          ScoreStdDev := ScoreStdDev s;
          FoldBasedTasks := FoldBasedTasks s;
          SingleTaskTarget := Some target |}.

Definition SetRandomStrength (s : t) (strength : double) : t :=
  {| TreeConfig := TreeConfig s; RandomStrength := strength;
     ScoreStdDev := ScoreStdDev s; FoldBasedTasks := FoldBasedTasks s;
     SingleTaskTarget := SingleTaskTarget s |}.

(** A call that configures the tasks of a searcher, and a sequence of such
    calls made one after the other; an exception ends the sequence. *)
Inductive TCall :=
| CallAddTask (learnTarget testTarget : TTarget)
| CallSetTarget (target : TTarget).

Definition call (s : t) (c : TCall) : TResult t :=
  match c with
  | CallAddTask learnTarget testTarget => AddTask s learnTarget testTarget
  | CallSetTarget target => SetTarget s target
  end.

Fixpoint calls (s : t) (cs : list TCall) : TResult t :=
  match cs with
  | [] => mret s
  | c :: rest => s ← call s c; calls s rest
  end.

(** [GetTotalIndicesSize]; the cursor is a [ui32]. *)
Definition GetTotalIndicesSize (s : t) : Z :=
  match SingleTaskTarget s with
  | Some target => IndicesSize target
  | None =>
      foldl (fun cursor task =>
               Int.ui32 (Int.ui32 (cursor + IndicesSize (LearnTarget task))
                         + IndicesSize (TestTarget task)))
            0 (FoldBasedTasks s)
  end.

(** [WriteFoldBasedInitialBins]: the callback of
    [ForeachOptimizationPartTask] run on what is left of the tasks, one
    after the other; it fills the learn slice of the bins with [currentBin]
    and the test slice with [currentBin + 1] and records the two parts. *)
Fixpoint WriteFoldBasedInitialBins_loop (tasks : list TOptimizationTask)
    (currentBin cursor : Z) : list TDataPartition :=
  match tasks with
  | [] => []
  | task :: rest =>
      let learnSize := IndicesSize (LearnTarget task) in
      let testSize := IndicesSize (TestTarget task) in
      let learnPart := {| Offset := cursor; Size := Int.ui32 learnSize |} in
      let cursor := Int.ui32 (cursor + learnSize) in
      let testPart := {| Offset := cursor; Size := Int.ui32 testSize |} in
      let cursor := Int.ui32 (cursor + testSize) in
      learnPart :: testPart
        :: WriteFoldBasedInitialBins_loop rest (Int.ui32 (currentBin + 2)) cursor
  end.

Definition WriteFoldBasedInitialBins (s : t) : list TDataPartition :=
  WriteFoldBasedInitialBins_loop (FoldBasedTasks s) 0 0.

Definition WriteSingleTaskInitialBins (s : t) : TResult (list TDataPartition) :=
  _ ← CB_ENSURE (bool_decide (SingleTaskTarget s <> None)) [];
  match SingleTaskTarget s with
  | Some target => mret [{| Offset := 0; Size := Int.ui32 (IndicesSize target) |}]
  | None => Undefined
  end.

(** [MakeTaskSlices]: the loop over what is left of the tasks. The cursor is
    a [ui32]; the right bound [cursor + Size()] is computed in [ui64]. *)
Fixpoint MakeTaskSlices_loop (tasks : list TOptimizationTask) (cursor : Z)
    : list TSlice.t :=
  match tasks with
  | [] => []
  | task :: rest =>
      let learnSize := IndicesSize (LearnTarget task) in
      let learnSlice := TSlice.mk cursor (Int.ui64 (cursor + learnSize)) in
      let cursor := Int.ui32 (cursor + learnSize) in
      let testSize := IndicesSize (TestTarget task) in
      let testSlice := TSlice.mk cursor (Int.ui64 (cursor + testSize)) in
      let cursor := Int.ui32 (cursor + testSize) in
      learnSlice :: testSlice :: MakeTaskSlices_loop rest cursor
  end.

Definition MakeTaskSlices (s : t) : list TSlice.t :=
  MakeTaskSlices_loop (FoldBasedTasks s) 0.

(** [ForeachOptimizationPartTask(func)]: [func] is called for the tasks in
    the order of their ids, with the two slices of the task; what [func]
    captures by reference is the accumulator. The stream a call is given
    only places it on a device queue and is left out. *)
Fixpoint ForeachOptimizationPartTask_loop {A : Type}
    (func : TSlice.t -> TSlice.t -> TOptimizationTask -> A -> A)
    (tasks : list TOptimizationTask) (cursor : Z) (acc : A) : A :=
  match tasks with
  | [] => acc
  | task :: rest =>
      let learnSlice :=
        TSlice.mk cursor (Int.ui64 (cursor + IndicesSize (LearnTarget task))) in
      let cursor := Int.ui32 (TSlice.Right learnSlice) in
      let testSlice :=
        TSlice.mk cursor (Int.ui64 (cursor + IndicesSize (TestTarget task))) in
      let cursor := Int.ui32 (TSlice.Right testSlice) in
      ForeachOptimizationPartTask_loop func rest cursor (func learnSlice testSlice task acc)
  end.

Definition ForeachOptimizationPartTask {A : Type} (s : t)
    (func : TSlice.t -> TSlice.t -> TOptimizationTask -> A -> A) (acc : A) : A :=
  ForeachOptimizationPartTask_loop func (FoldBasedTasks s) 0 acc.

(** What the callback of [WriteFoldBasedInitialBins] captures: the parts,
    the two counters, and the fills it has made in the bins. *)
Record TInitialBins := {
  Fills : list TFill;
  Parts : list TDataPartition;
  CurrentBin : Z;
  PartsCursor : Z;
}.

(** The callback of [WriteFoldBasedInitialBins]; the size of a slice view
    is the size of its slice. *)
Definition WriteFoldBasedInitialBins_func (learnSlice testSlice : TSlice.t)
    (task : TOptimizationTask) (w : TInitialBins) : TInitialBins :=
  let currentBin := CurrentBin w in
  let cursor := PartsCursor w in
  let fills := Fills w ++ [{| FillSlice := learnSlice; FillValue := currentBin |};
                           {| FillSlice := testSlice;
                              FillValue := Int.ui32 (currentBin + 1) |}] in
  let learnPart := {| Offset := cursor; Size := Int.ui32 (TSlice.Size learnSlice) |} in
  let cursor := Int.ui32 (cursor + TSlice.Size learnSlice) in
  let testPart := {| Offset := cursor; Size := Int.ui32 (TSlice.Size testSlice) |} in
  let cursor := Int.ui32 (cursor + TSlice.Size testSlice) in
  {| Fills := fills; Parts := Parts w ++ [learnPart; testPart];
     CurrentBin := Int.ui32 (currentBin + 2); PartsCursor := cursor |}.

(** [WriteFoldBasedInitialBins] with the bins it writes: the fills made
    through [ForeachOptimizationPartTask] and the parts returned. *)
Definition WriteFoldBasedInitialBins_fills (s : t) : TInitialBins :=
  ForeachOptimizationPartTask s WriteFoldBasedInitialBins_func
    {| Fills := []; Parts := []; CurrentBin := 0; PartsCursor := 0 |}.

(** [GetRandom()], by the target whose random generator is returned. *)
Definition GetRandom (s : t) : TResult TTarget :=
  match SingleTaskTarget s with
  | None => task ← at_ (FoldBasedTasks s) 0; mret (LearnTarget task)
  | Some target => mret target
  end.

(** [1 << n] with the [int] 1 and a [ui32] count, converted to [ui32]. *)
Definition shift_one (n : Z) : TResult Z :=
  if bool_decide (n < 32) then Ok (Int.ui32 (Z.shiftl 1 n)) else Undefined.

Section WithExternals.
Context `{Externals}.

Definition CreateSubsets (s : t) (maxDepth : Z) : TResult TOptimizationSubsets.t :=
  initParts ← (if bool_decide (SingleTaskTarget s = None)
               then mret (WriteFoldBasedInitialBins s)
               else WriteSingleTaskInitialBins s);
  let foldCount := Int.ui32 (Z.of_nat (length initParts)) in
  let foldBits := IntLog2 foldCount in
  maxPartCount ← shift_one (Int.ui32 (foldBits + maxDepth));
  mret {| TOptimizationSubsets.BinsSize := GetTotalIndicesSize s;
          TOptimizationSubsets.CurrentDepth := 0;
          TOptimizationSubsets.FoldCount := foldCount;
          TOptimizationSubsets.FoldBits := foldBits;
          TOptimizationSubsets.PartitionsSize := maxPartCount |}.

End WithExternals.

(** The state of the loop of [Fit]: the tree built so far ([result]), the
    Features Manager, the splits handed to the Tree Updater (with the
    compressed bits of a tree-CTR split), the number of [subsets.Split]
    calls and the log. *)
Record TFitState := {
  Result : TObliviousTreeStructure.t;
  Manager : TBinarizedFeaturesManager.t;
  UpdaterSplits : list (TBinarySplit.t * option TSingleBuffer.t);
  SubsetsSplitCalls : Z;
  Log : list TLogLine;
}.

(** [if (RandomStrength)]: a [double] is true unless it is a zero. *)
Definition to_bool (x : double) : bool :=
  match x with
  | S754_zero _ => false
  | _ => true
  end.

(** [BuildTreeSearchTarget], as far as the searcher itself goes: the two
    checks and the noise level; gradients and weights stay on the devices. *)
Definition BuildTreeSearchTarget (s : t) (run : TRun) : TResult t :=
  if bool_decide (length (FoldBasedTasks s) <> 0%nat) then
    _ ← CB_ENSURE (bool_decide (SingleTaskTarget s = None)) [];
    if to_bool (RandomStrength s) then
      mret {| TreeConfig := TreeConfig s; RandomStrength := RandomStrength s;
              ScoreStdDev := TargetScoreStdDev run;
              FoldBasedTasks := FoldBasedTasks s;
              SingleTaskTarget := SingleTaskTarget s |}
    else mret s
  else
    _ ← CB_ENSURE (bool_decide (SingleTaskTarget s <> None)) [];
    mret s.

Section Fit.
Context `{Externals}.

(** The calls of [Accept] for the data sets of one permutation. *)
Fixpoint VisitPermutationDataSets (fm : TBinarizedFeaturesManager.t)
    (visitor : TTreeCtrDataSetVisitor.t) (inverseIndicesSize : Z)
    (dataSets : list TTreeCtrDataSet.t)
    : TResult (TTreeCtrDataSetVisitor.t * TBinarizedFeaturesManager.t) :=
  match dataSets with
  | [] => mret (visitor, fm)
  | ctrDataSet :: rest =>
      r ← TTreeCtrDataSetVisitor.Accept fm visitor ctrDataSet inverseIndicesSize;
      VisitPermutationDataSets r.2 r.1 inverseIndicesSize rest
  end.

(** The loop over the permutations in use. *)
Fixpoint VisitPermutations (fm : TBinarizedFeaturesManager.t)
    (visitor : TTreeCtrDataSetVisitor.t) (permutations : list TPermutationVisit)
    : TResult (TTreeCtrDataSetVisitor.t * TBinarizedFeaturesManager.t) :=
  match permutations with
  | [] => mret (visitor, fm)
  | permutation :: rest =>
      r ← VisitPermutationDataSets fm visitor (PermutationIndicesSize permutation)
            (DataSets permutation);
      VisitPermutations r.2 r.1 rest
  end.

(** The visitor [Fit] builds at one depth: constructed, then seeded with
    the static best score, the noise level and a seed. *)
Definition seeded_visitor (s : t) (run : TRun) (foldCount : Z) (data : TDepthData)
    (bestSplitProp : TBestSplitProperties.t) : TTreeCtrDataSetVisitor.t :=
  TTreeCtrDataSetVisitor.SetScoreStdDevAndSeed
    (TTreeCtrDataSetVisitor.SetBestScore
       (TTreeCtrDataSetVisitor.Create (DeviceCount run) foldCount (TreeConfig s))
       (TBestSplitProperties.Score bestSplitProp))
    (ScoreStdDev s) (VisitorSeed data).

(** The message of the check on the winning feature id. *)
Definition NaN_message (bestSplitProp : TBestSplitProperties.t) : TStringBuilder :=
  [Str "Error: something went wrong, best split is NaN with score";
   Flt (TBestSplitProperties.Score bestSplitProp)].

(** The tree-CTR part of one depth: from the static best split to the
    winning split, the bits of a tree-CTR split ([isTreeCtrSplit] is true
    exactly when there are some) and the manager. *)
Definition TreeCtrSplit (s : t) (run : TRun) (foldCount : Z) (data : TDepthData)
    (fm : TBinarizedFeaturesManager.t) (bestSplitProp : TBestSplitProperties.t)
    : TResult (TBestSplitProperties.t * option TSingleBuffer.t * TBinarizedFeaturesManager.t) :=
  if IsTreeCtrsEnabled fm then
    if bool_decide (UsedPermutations data <> []) then
      let ctrDataSetVisitor := seeded_visitor s run foldCount data bestSplitProp in
      r ← VisitPermutations fm ctrDataSetVisitor (UsedPermutations data);
      let ctrDataSetVisitor := r.1 in
      let fm := r.2 in
      if TTreeCtrDataSetVisitor.HasSplit ctrDataSetVisitor then
        p ← TTreeCtrDataSetVisitor.CreateBestSplitProperties fm ctrDataSetVisitor;
        treeCtrSplitBits ← TTreeCtrDataSetVisitor.GetBestSplitBits ctrDataSetVisitor;
        mret (p.1, Some treeCtrSplitBits, p.2)
      else mret (bestSplitProp, None, fm)
    else mret (bestSplitProp, None, fm)
  else mret (bestSplitProp, None, fm).

(** The winning split of one depth. *)
Definition WinningSplit (s : t) (run : TRun) (foldCount : Z) (depth : Z)
    (fm : TBinarizedFeaturesManager.t)
    : TResult (TBestSplitProperties.t * option TSingleBuffer.t * TBinarizedFeaturesManager.t) :=
  let data := AtDepth run depth in
  let bestSplitProp :=
    TakeBest (FeaturesSplit data) (BinFeaturesSplit data) (CtrSplit data) in
  TreeCtrSplit s run foldCount data fm bestSplitProp.

Definition BinarySplitOf (bestSplitProp : TBestSplitProperties.t) : TBinarySplit.t :=
  {| TBinarySplit.FeatureId := TBestSplitProperties.FeatureId bestSplitProp;
     TBinarySplit.BinIdx := TBestSplitProperties.BinId bestSplitProp;
     TBinarySplit.SplitType :=
       if IsCat (TBestSplitProperties.FeatureId bestSplitProp) then TakeBin else TakeGreater |}.

(** The border the log line prints for a split that is not on a
    categorical feature:
    [FeaturesManager.GetBorders(bestSplit.FeatureId)[bestSplit.BinIdx]],
    read without a check of the bin. *)
Definition SplitBorder (fm : TBinarizedFeaturesManager.t) (bestSplit : TBinarySplit.t)
    : TResult (option float) :=
  if IsCat (TBinarySplit.FeatureId bestSplit) then mret None
  else
    border ← at_ (BordersOf fm (TBinarySplit.FeatureId bestSplit))
               (TBinarySplit.BinIdx bestSplit);
    mret (Some border).

(** The body of the [for] loop of [Fit] at one depth. Of the line it logs
    the depth, the split and the score are kept, and the read of the border
    it prints; the tensor it prints for a CTR is read from the manager under
    a test and changes nothing. The recomputation of the bins and of the
    subsets stays on the devices: the calls of the Tree Updater and of
    [subsets.Split] are recorded. *)
Definition Fit_iteration (s : t) (run : TRun) (foldCount : Z) (depth : Z)
    (st : TFitState) : TResult (TLoopControl * TFitState) :=
  w ← WinningSplit s run foldCount depth (Manager st);
  let bestSplitProp := w.1.1 in
  let treeCtrSplitBits := w.1.2 in
  let fm := w.2 in
  _ ← CB_ENSURE (bool_decide (TBestSplitProperties.FeatureId bestSplitProp <> NoFeature))
        (NaN_message bestSplitProp);
  let bestSplit := BinarySplitOf bestSplitProp in
  _ ← SplitBorder fm bestSplit;
  let log := Log st ++ [{| LogDepth := depth; LogSplit := bestSplit;
                           LogScore := TBestSplitProperties.Score bestSplitProp |}] in
  if TObliviousTreeStructure.HasSplit (Result st) bestSplit then
    mret (Break, {| Result := Result st; Manager := fm;
                    UpdaterSplits := UpdaterSplits st;
                    SubsetsSplitCalls := SubsetsSplitCalls st; Log := log |})
  else
    _ ← (match treeCtrSplitBits with
         | Some bits => CB_ENSURE (bool_decide (TSingleBuffer.Size bits <> 0)) []
         | None => mret tt
         end);
    let updaterSplits := UpdaterSplits st ++ [(bestSplit, treeCtrSplitBits)] in
    let subsetsSplitCalls :=
      if bool_decide (Int.ui32 (depth + 1)
                      <> TObliviousTreeLearnerOptions.GetMaxDepth (TreeConfig s))
      then SubsetsSplitCalls st + 1 else SubsetsSplitCalls st in
    mret (Next, {| Result := {| TObliviousTreeStructure.Splits :=
                                  TObliviousTreeStructure.Splits (Result st) ++ [bestSplit] |};
                   Manager := fm;
                   UpdaterSplits := updaterSplits;
                   SubsetsSplitCalls := subsetsSplitCalls; Log := log |}).

(** [for (ui32 depth = 0; depth < MaxDepth; ++depth)], from [depth], with
    [n] depths left below [MaxDepth]. *)
Fixpoint Fit_loop (s : t) (run : TRun) (foldCount : Z) (n : nat) (depth : Z)
    (st : TFitState) : TResult TFitState :=
  match n with
  | O => mret st
  | S n' =>
      r ← Fit_iteration s run foldCount depth st;
      match r.1 with
      | Break => mret r.2
      | Next => Fit_loop s run foldCount n' (depth + 1) r.2
      end
  end.

Definition Fit (s : t) (run : TRun) (fm : TBinarizedFeaturesManager.t)
    : TResult (t * TFitState) :=
  _ ← CB_ENSURE (bool_decide (length (FoldBasedTasks s) <> 0%nat)
                 || bool_decide (SingleTaskTarget s <> None)) [];
  s ← BuildTreeSearchTarget s run;
  let maxDepth := TObliviousTreeLearnerOptions.GetMaxDepth (TreeConfig s) in
  subsets ← CreateSubsets s maxDepth;
  let foldCount := TOptimizationSubsets.FoldCount subsets in
  st ← Fit_loop s run foldCount (Z.to_nat maxDepth) 0
         {| Result := {| TObliviousTreeStructure.Splits := [] |};
            Manager := fm; UpdaterSplits := []; SubsetsSplitCalls := 0; Log := [] |};
  mret (s, st).

End Fit.

(** ** The vocabulary of the properties of [Fit] *)

Section Outcomes.
Context `{Externals}.

(** The state an iteration leaves when the loop stops on a split the tree
    has already. *)
Definition stopped (depth : Z) (st : TFitState) (p : TBestSplitProperties.t)
    (fm : TBinarizedFeaturesManager.t) : TFitState :=
  {| Result := Result st; Manager := fm;
     UpdaterSplits := UpdaterSplits st;
     SubsetsSplitCalls := SubsetsSplitCalls st;
     Log := Log st ++ [{| LogDepth := depth; LogSplit := BinarySplitOf p;
                          LogScore := TBestSplitProperties.Score p |}] |}.

(** The state an iteration leaves when it applies the split. *)
Definition applied (s : t) (depth : Z) (st : TFitState) (p : TBestSplitProperties.t)
    (bits : option TSingleBuffer.t) (fm : TBinarizedFeaturesManager.t) : TFitState :=
  {| Result := {| TObliviousTreeStructure.Splits :=
                    TObliviousTreeStructure.Splits (Result st) ++ [BinarySplitOf p] |};
     Manager := fm;
     UpdaterSplits := UpdaterSplits st ++ [(BinarySplitOf p, bits)];
     SubsetsSplitCalls :=
       (if bool_decide (Int.ui32 (depth + 1)
                        <> TObliviousTreeLearnerOptions.GetMaxDepth (TreeConfig s))
        then SubsetsSplitCalls st + 1 else SubsetsSplitCalls st);
     Log := Log st ++ [{| LogDepth := depth; LogSplit := BinarySplitOf p;
                          LogScore := TBestSplitProperties.Score p |}] |}.

End Outcomes.

(** The tree and the log of a loop that has run from depth 0: the log has
    one line per iteration run, in order; the splits of the tree are
    distinct; and either every iteration appended its split and there were
    [maxDepth] of them, or the last iteration chose a split of the tree,
    the splits before it were appended, and they are fewer than
    [maxDepth]. *)
Definition loop_trace (tree : list TBinarySplit.t) (log : list TLogLine)
    (maxDepth : nat) : Prop :=
  LogDepth <$> log = seqZ 0 (Z.of_nat (length log))
  /\ NoDup tree
  /\ ((LogSplit <$> log = tree /\ length tree = maxDepth)
      \/ (exists log0 line,
            log = log0 ++ [line] /\ LogSplit <$> log0 = tree
            /\ LogSplit line ∈ tree /\ (length tree < maxDepth)%nat)).

(** The number of initial partitions, as [CreateSubsets] counts them. *)
Definition InitialFoldCount (s : t) : Z :=
  match SingleTaskTarget s with
  | Some _ => 1
  | None => Int.ui32 (2 * Z.of_nat (length (FoldBasedTasks s)))
  end.

(** The calls that add the given fold-based tasks, in order. *)
Definition AddTasks (tasks : list TOptimizationTask) : list TCall :=
  (fun task => CallAddTask (LearnTarget task) (TestTarget task)) <$> tasks.

(** The indices of the tasks counted without wrap-around, and the sizes of
    parts added up. *)
Definition TasksSize (tasks : list TOptimizationTask) : Z :=
  foldr (fun task acc =>
           IndicesSize (LearnTarget task) + IndicesSize (TestTarget task) + acc)
        0 tasks.

Definition PartsSize (parts : list TDataPartition) : Z :=
  foldr (fun part acc => Size part + acc) 0 parts.

(** Sizes that are sizes, with a sum that the [ui32] cursor holds. *)
Definition fits_ui32 (tasks : list TOptimizationTask) : Prop :=
  Forall (fun task => 0 <= IndicesSize (LearnTarget task)
                      /\ 0 <= IndicesSize (TestTarget task)) tasks
  /\ TasksSize tasks < 2 ^ 32.

End TObliviousTreeStructureSearcher.

(** * Sample data *)

Module Sample.

Import TObliviousTreeStructureSearcher.

Definition options : TObliviousTreeLearnerOptions.t :=
  {| TObliviousTreeLearnerOptions.MaxDepth := 3;
     TObliviousTreeLearnerOptions.MaxCtrComplexityForBordersCaching := 2 |}.

(** A total order of the CTRs: the lexicographic order of the
    configuration, the categorical features and the splits. *)
Fixpoint list_less {A : Type} (less : A -> A -> bool) (a b : list A) : bool :=
  match a, b with
  | _, [] => false
  | [], _ :: _ => true
  | x :: a', y :: b' => less x y || (negb (less y x) && list_less less a' b')
  end.

Definition split_key (split : TBinarySplit.t) : list Z :=
  [TBinarySplit.FeatureId split; TBinarySplit.BinIdx split;
   match TBinarySplit.SplitType split with TakeBin => 0 | TakeGreater => 1 end].

Definition ctr_key (ctr : TCtr.t) : list (list Z) :=
  [TCtr.Configuration ctr] :: TFeatureTensor.CatFeatures (TCtr.FeatureTensor ctr)
  :: (split_key <$> TFeatureTensor.Splits (TCtr.FeatureTensor ctr)).

Definition ctr_less (a b : TCtr.t) : bool :=
  list_less (list_less Z.ltb) (ctr_key a) (ctr_key b).

(** One choice of the helpers declared elsewhere: the logarithm rounded up,
    the lowest score of three (the first wins a tie), 64 one-bit keys per
    [ui64], no categorical feature, and the order above. *)
Definition externals : Externals :=
  {| IntLog2 := Z.log2_up;
     TakeBest := fun first second third =>
       let best := if Double.lt (TBestSplitProperties.Score second)
                            (TBestSplitProperties.Score first)
                   then second else first in
       if Double.lt (TBestSplitProperties.Score third) (TBestSplitProperties.Score best)
       then third else best;
     CompressedSize := fun count _ => (count + 63) / 64;
     IsCat := fun _ => false;
     CtrLess := ctr_less |}.

(** -1 and -2 as [double]s, and 0.5 as a [float]. *)
Definition minus_one : double := S754_finite true 4503599627370496 (-52).
Definition minus_two : double := S754_finite true 4503599627370496 (-51).
Definition one_half : float := S754_finite false 8388608 (-24).

(** A CTR on one categorical feature, and one on a tensor with a split. *)
Definition plain_ctr : TCtr.t :=
  {| TCtr.FeatureTensor := TFeatureTensor.mk [] [3]; TCtr.Configuration := 0 |}.

Definition split_ctr : TCtr.t :=
  {| TCtr.FeatureTensor := TFeatureTensor.mk [TBinarySplit.mk 0 0 TakeGreater] [3];
     TCtr.Configuration := 0 |}.

(** A data set on device 1 whose best candidate is bin 0 of its only CTR,
    with score -2. *)
Definition data_set : TTreeCtrDataSet.t :=
  {| TTreeCtrDataSet.Ctrs := [plain_ctr];
     TTreeCtrDataSet.HostFeatures := [0];
     TTreeCtrDataSet.DeviceId := 1;
     TTreeCtrDataSet.BaseTensorHash := 17;
     TTreeCtrDataSet.ReadBorders := fun _ => [one_half];
     TTreeCtrDataSet.ScoreHelper := fun _ _ => TBestSplitProperties.mk 0 0 minus_two |}.

(** A manager with the feature ids below 10 taken by features of one
    border each, tree CTRs enabled. *)
Definition manager : TBinarizedFeaturesManager.t :=
  {| TBinarizedFeaturesManager.Entries := [];
     TBinarizedFeaturesManager.Cursor := 10;
     TBinarizedFeaturesManager.TreeCtrsEnabled := true;
     TBinarizedFeaturesManager.BuiltinBorders := fun _ => [one_half] |}.

Definition no_candidate : TBestSplitProperties.t :=
  TBestSplitProperties.mk NoFeature 0 infinity.

(** At every depth the static helpers report feature 0, bin 0 with score -1
    and one permutation is in use, with the data set above. *)
Definition depth_data : TDepthData :=
  {| FeaturesSplit := TBestSplitProperties.mk 0 0 minus_one;
     BinFeaturesSplit := no_candidate;
     CtrSplit := no_candidate;
     VisitorSeed := 5;
     UsedPermutations := [{| PermutationIndicesSize := 100; DataSets := [data_set] |}] |}.

Definition run : TRun :=
  {| DeviceCount := 2; TargetScoreStdDev := S754_zero false;
     AtDepth := fun _ => depth_data |}.

(** A searcher in single-task mode, and one with three fold-based tasks. *)
Definition single_task : t :=
  {| TreeConfig := options; RandomStrength := S754_zero false;
     ScoreStdDev := S754_zero false; FoldBasedTasks := [];
     SingleTaskTarget := Some {| IndicesSize := 100 |} |}.

Definition task : TOptimizationTask :=
  {| LearnTarget := {| IndicesSize := 60 |}; TestTarget := {| IndicesSize := 40 |} |}.

Definition three_tasks : t :=
  {| TreeConfig := options; RandomStrength := S754_zero false;
     ScoreStdDev := S754_zero false; FoldBasedTasks := [task; task; task];
     SingleTaskTarget := None |}.

(** The visitor of depth 0, as [Fit] seeds it, and after its visit. *)
Definition seeded : TTreeCtrDataSetVisitor.t :=
  TTreeCtrDataSetVisitor.SetScoreStdDevAndSeed
    (TTreeCtrDataSetVisitor.SetBestScore
       (TTreeCtrDataSetVisitor.Create 2 1 options) minus_one)
    (S754_zero false) 5.

Definition visited : TTreeCtrDataSetVisitor.t :=
  match TTreeCtrDataSetVisitor.Accept (H := externals) manager seeded data_set 100 with
  | Ok r => r.1
  | _ => seeded
  end.

(** The state of the loop of [Fit] before depth 0, and after depth 0 of
    the run: the tree-CTR split of feature id 10 has been applied. *)
Definition start (fm : TBinarizedFeaturesManager.t) : TFitState :=
  {| Result := {| TObliviousTreeStructure.Splits := [] |}; Manager := fm;
     UpdaterSplits := []; SubsetsSplitCalls := 0; Log := [] |}.

Definition after_depth_0 : TFitState :=
  {| Result := {| TObliviousTreeStructure.Splits := [TBinarySplit.mk 10 0 TakeGreater] |};
     Manager := TBinarizedFeaturesManager.AddCtr manager plain_ctr [one_half];
     UpdaterSplits := [(TBinarySplit.mk 10 0 TakeGreater,
                        Some (TSingleBuffer.mk 1 2 (Some (17, 0, 0))))];
     SubsetsSplitCalls := 1;
     Log := [{| LogDepth := 0; LogSplit := TBinarySplit.mk 10 0 TakeGreater;
                LogScore := static_cast_float minus_two |}] |}.

(** The state in which the run ends: depth 1 chose the same split, and
    the loop stopped. *)
Definition after_depth_1 : TFitState :=
  {| Result := Result after_depth_0;
     Manager := Manager after_depth_0;
     UpdaterSplits := UpdaterSplits after_depth_0;
     SubsetsSplitCalls := 1;
     Log := Log after_depth_0
            ++ [{| LogDepth := 1; LogSplit := TBinarySplit.mk 10 0 TakeGreater;
                   LogScore := static_cast_float minus_two |}] |}.

(** A run in which no helper has any candidate and no permutation is in
    use. *)
Definition empty_run : TRun :=
  {| DeviceCount := 2; TargetScoreStdDev := S754_zero false;
     AtDepth := fun _ =>
       {| FeaturesSplit := no_candidate; BinFeaturesSplit := no_candidate;
          CtrSplit := no_candidate; VisitorSeed := 5; UsedPermutations := [] |} |}.

(** A run whose only candidate is bin 7 of feature 0, which has one
    border. *)
Definition far_border_run : TRun :=
  {| DeviceCount := 2; TargetScoreStdDev := S754_zero false;
     AtDepth := fun _ =>
       {| FeaturesSplit := TBestSplitProperties.mk 0 7 minus_one;
          BinFeaturesSplit := no_candidate; CtrSplit := no_candidate;
          VisitorSeed := 5; UsedPermutations := [] |} |}.

(** A visitor over 6465 devices. *)
Definition many_devices : TTreeCtrDataSetVisitor.t :=
  TTreeCtrDataSetVisitor.Create 6465 1 options.

(** A classifier with the borders 0, 0.5 and 1, and the target 0.75. *)
Definition classifier : TTargetClassifier.t :=
  {| TTargetClassifier.Borders :=
       [S754_zero false; one_half; S754_finite false 8388608 (-23)] |}.

Definition three_quarters : double := S754_finite false 6755399441055744 (-53).

(** A candidate better than the static split, for bin 5 of the CTR of
    [data_set], which has one border. *)
Definition far_bin : TBestSplitProperties.t := TBestSplitProperties.mk 0 5 minus_two.

(** A classifier with 2^31 borders, all 0. *)
Definition many_borders : TTargetClassifier.t :=
  {| TTargetClassifier.Borders := replicate (Z.to_nat (2 ^ 31)) (S754_zero false) |}.

(** A visitor over 2^31 + 1 devices, and the data set above on the last of
    them, the device 2^31. *)
Definition wide_visitor : TTreeCtrDataSetVisitor.t :=
  TTreeCtrDataSetVisitor.Create (2 ^ 31 + 1) 1 options.

Definition far_data_set : TTreeCtrDataSet.t :=
  {| TTreeCtrDataSet.Ctrs := [plain_ctr];
     TTreeCtrDataSet.HostFeatures := [0];
     TTreeCtrDataSet.DeviceId := 2 ^ 31;
     TTreeCtrDataSet.BaseTensorHash := 17;
     TTreeCtrDataSet.ReadBorders := fun _ => [one_half];
     TTreeCtrDataSet.ScoreHelper := fun _ _ => TBestSplitProperties.mk 0 0 minus_two |}.



End Sample.

(** * Properties *)

(** Unfolds the binds of [TResult]. *)
Ltac unfold_result :=
  unfold mbind, mret, TResult_bind, TResult_ret, CB_ENSURE, Y_ASSERT in *.

(** ** Floating-point comparison *)

Section DoubleOrder.

Import QArith_base.

Lemma Qlt_bool_iff (a b : Q) : negb (Qle_bool b a) = true <-> Qlt a b.
Proof.
  rewrite negb_true_iff. split.
  - intros Hf. apply Qnot_le_lt. intros Hle. apply Qle_bool_iff in Hle. congruence.
  - intros Hlt. destruct (Qle_bool b a) eqn:E; [| reflexivity].
    apply Qle_bool_iff in E. exfalso. exact (Qlt_not_le _ _ Hlt E).
Qed.

Lemma Double_lt_irrefl (x : spec_float) : Double.lt x x = false.
Proof.
  unfold Double.lt. destruct (Double.value x) as [| | q |]; try reflexivity.
  apply negb_false_iff. apply Qle_bool_iff. apply Qle_refl.
Qed.

Lemma Double_lt_trans (x y z : spec_float) :
  Double.lt x y = true -> Double.lt y z = true -> Double.lt x z = true.
Proof.
  unfold Double.lt.
  destruct (Double.value x) as [| | a |], (Double.value y) as [| | b |],
    (Double.value z) as [| | c |]; try discriminate; try reflexivity.
  rewrite !Qlt_bool_iff. apply Qlt_trans.
Qed.

Lemma Double_lt_le_trans (x y z : spec_float) :
  Double.lt x y = true -> Double.le y z = true -> Double.lt x z = true.
Proof.
  unfold Double.lt, Double.le.
  destruct (Double.value x) as [| | a |], (Double.value y) as [| | b |],
    (Double.value z) as [| | c |]; try discriminate; try reflexivity.
  rewrite !Qlt_bool_iff, Qle_bool_iff. apply Qlt_le_trans.
Qed.

Lemma Double_le_lt_trans (x y z : spec_float) :
  Double.le x y = true -> Double.lt y z = true -> Double.lt x z = true.
Proof.
  unfold Double.lt, Double.le.
  destruct (Double.value x) as [| | a |], (Double.value y) as [| | b |],
    (Double.value z) as [| | c |]; try discriminate; try reflexivity.
  rewrite !Qlt_bool_iff, Qle_bool_iff. apply Qle_lt_trans.
Qed.

Lemma Double_lt_nan_r (x : spec_float) : Double.lt x S754_nan = false.
Proof. unfold Double.lt. simpl. destruct (Double.value x); reflexivity. Qed.

End DoubleOrder.

(** ** [TTargetClassifier] *)

Section TargetClassifier.

Import TTargetClassifier.

Lemma int_bounds (z : Z) : - 2 ^ 31 <= Int.int z < 2 ^ 31.
Proof.
  unfold Int.int. pose proof (Z.mod_pos_bound (z + 2 ^ 31) (2 ^ 32) ltac:(lia)). lia.
Qed.

Lemma int_small (z : Z) : 0 <= z < 2 ^ 31 -> Int.int z = z.
Proof. intros Hz. unfold Int.int. rewrite Z.mod_small; lia. Qed.

Lemma int_le (z : Z) : 0 <= z -> Int.int z <= z.
Proof.
  intros Hz. unfold Int.int.
  pose proof (Z.mod_le (z + 2 ^ 31) (2 ^ 32) ltac:(lia) ltac:(lia)). lia.
Qed.

(** The [int] size is never above the size. *)
Lemma ysize_le (self : t) : ysize self <= Z.of_nat (length (Borders self)).
Proof. unfold ysize. apply int_le. lia. Qed.

Lemma ysize_small (self : t) :
  Z.of_nat (length (Borders self)) <= 2 ^ 31 - 1 ->
  ysize self = Z.of_nat (length (Borders self)).
Proof. intros Hs. unfold ysize. apply int_small. lia. Qed.

Lemma visible_small (self : t) :
  Z.of_nat (length (Borders self)) <= 2 ^ 31 - 1 -> visible self = Borders self.
Proof.
  intros Hs. unfold visible. rewrite ysize_small by exact Hs. apply take_ge. lia.
Qed.

Lemma visible_length (self : t) :
  Z.of_nat (length (visible self)) = Z.max 0 (ysize self).
Proof.
  unfold visible. rewrite length_take. pose proof (ysize_le self). lia.
Qed.

(** The border the loop reads at an index below the [int] size is the
    border of the vector at this index. *)
Lemma drop_border (self : t) (r : Z) :
  0 <= r < ysize self ->
  drop (Z.to_nat r) (visible self)
  = border self r :: drop (Z.to_nat (r + 1)) (visible self).
Proof.
  intros Hr.
  assert (Hlen : (Z.to_nat r < length (visible self))%nat)
    by (pose proof (visible_length self); lia).
  destruct (lookup_lt_is_Some_2 _ _ Hlen) as [b Hb].
  rewrite (drop_S _ _ _ Hb). replace (Z.to_nat (r + 1)) with (S (Z.to_nat r)) by lia.
  f_equal. unfold border, visible in *.
  rewrite lookup_take_lt in Hb by lia.
  symmetry. apply nth_lookup_Some with (d := S754_nan) in Hb. exact Hb.
Qed.

Lemma GetTargetClass_loop_stop (self : t) (target : double) (resClass : Z) :
  loop_condition self target resClass = false ->
  GetTargetClass_loop self target resClass = resClass.
Proof.
  intros Hc. funelim (GetTargetClass_loop self target resClass); [congruence | reflexivity].
Qed.

Lemma GetTargetClass_loop_spec (self : t) (target : double) (resClass : Z) :
  0 <= resClass <= ysize self ->
  GetTargetClass_loop self target resClass
  = resClass + Z.of_nat (length (longest_prefix_below target
                                   (drop (Z.to_nat resClass) (visible self)))).
Proof.
  funelim (GetTargetClass_loop self target resClass); intros Hr.
  - (* the condition holds: one more border is below the target *)
    match goal with
    | Hc : loop_condition _ _ _ = true |- _ =>
        destruct (proj1 (andb_true_iff _ _) Hc) as [Hlt Hb]
    end.
    apply Z.ltb_lt in Hlt.
    match goal with
    | IH : _ -> GetTargetClass_loop _ _ _ = _ |- _ => rewrite IH by lia
    end.
    rewrite (drop_border self resClass) by lia. simpl. rewrite Hb. simpl length. lia.
  - (* the condition fails: end of the vector, or a border not below *)
    match goal with
    | Hc : loop_condition _ _ _ = false |- _ =>
        destruct (proj1 (andb_false_iff _ _) Hc) as [Hge | Hb]
    end.
    + apply Z.ltb_ge in Hge.
      rewrite drop_ge by (pose proof (visible_length self); lia). simpl. lia.
    + destruct (Z_lt_dec resClass (ysize self)) as [Hlt | Hge].
      * rewrite (drop_border self resClass) by lia. simpl. rewrite Hb. simpl. lia.
      * rewrite drop_ge by (pose proof (visible_length self); lia). simpl. lia.
Qed.

(** [GetTargetClass] counts the longest prefix below the target among the
    borders the loop can reach. *)
Lemma GetTargetClass_length (self : t) (target : double) :
  GetTargetClass self target
  = Z.of_nat (length (longest_prefix_below target (visible self))).
Proof.
  unfold GetTargetClass.
  destruct (Z_le_dec 0 (ysize self)) as [Hpos | Hneg].
  - rewrite GetTargetClass_loop_spec by lia. simpl. now rewrite drop_0.
  - rewrite GetTargetClass_loop_stop.
    + unfold visible. replace (Z.to_nat (ysize self)) with 0%nat by lia. reflexivity.
    + unfold loop_condition. apply andb_false_iff. left. apply Z.ltb_ge. lia.
Qed.

Lemma longest_prefix_below_prefix (target : double) (borders : list float) :
  longest_prefix_below target borders `prefix_of` borders.
Proof.
  induction borders as [|b l IH]; simpl.
  - reflexivity.
  - destruct (Double.lt b target).
    + now apply prefix_cons.
    + apply prefix_nil.
Qed.

Lemma longest_prefix_below_all (target : double) (borders : list float) :
  Forall (fun b => Double.lt b target = true) (longest_prefix_below target borders).
Proof.
  induction borders as [|b l IH]; simpl.
  - constructor.
  - destruct (Double.lt b target) eqn:Hb; constructor; assumption.
Qed.

Lemma longest_prefix_below_longest (target : double) (borders : list float) (k : nat) :
  Forall (fun b => Double.lt b target = true) (take k borders) ->
  (length (take k borders) <= length (longest_prefix_below target borders))%nat.
Proof.
  revert k. induction borders as [|b l IH]; intros k Hall.
  - rewrite take_nil. simpl. lia.
  - destruct k as [|k]; simpl in *.
    + lia.
    + inversion Hall as [|? ? Hb Hrest]; subst. rewrite Hb. simpl.
      specialize (IH k Hrest). lia.
Qed.

Lemma longest_prefix_below_replicate (target : double) (b : float) (n : nat) :
  Double.lt b target = true ->
  longest_prefix_below target (replicate n b) = replicate n b.
Proof.
  intros Hb. induction n as [|n IH]; simpl; [reflexivity |]. now rewrite Hb, IH.
Qed.

Lemma GetClassesCount_small (self : t) :
  Z.of_nat (length (Borders self)) < 2 ^ 31 - 1 ->
  GetClassesCount self = Ok (Z.of_nat (length (Borders self)) + 1).
Proof.
  intros Hs. unfold GetClassesCount. rewrite ysize_small by lia.
  now rewrite bool_decide_eq_true_2 by lia.
Qed.

(** C10. [GetTargetClass] is a total function (the loop ends) for every
    vector of borders and every target, NaN and the infinities included,
    and its result lies between 0 and [Borders.size()]. [Borders.ysize()]
    is an [int]: the loop reaches the borders below that [int], and the
    result is the length of the longest prefix of those whose elements are
    each strictly less than the target. For a vector of at most 2^31 - 1
    borders these are all the borders; for fewer than 2^31 - 1 borders
    [GetClassesCount()] returns [Borders.size() + 1], so that the result is
    at most [GetClassesCount() - 1]. *)
Theorem GetTargetClass_longest_prefix (self : t) (target : double) :
  GetTargetClass self target
  = Z.of_nat (length (longest_prefix_below target (visible self)))
  /\ 0 <= GetTargetClass self target <= Z.of_nat (length (Borders self))
  /\ (Z.of_nat (length (Borders self)) <= 2 ^ 31 - 1 ->
      let p := longest_prefix_below target (Borders self) in
      GetTargetClass self target = Z.of_nat (length p)
      /\ p `prefix_of` Borders self
      /\ Forall (fun b => Double.lt b target = true) p
      /\ (forall k : nat,
            Forall (fun b => Double.lt b target = true) (take k (Borders self)) ->
            (length (take k (Borders self)) <= length p)%nat))
  /\ (Z.of_nat (length (Borders self)) < 2 ^ 31 - 1 ->
      exists count,
        GetClassesCount self = Ok count
        /\ count = Z.of_nat (length (Borders self)) + 1
        /\ 0 <= GetTargetClass self target <= count - 1).
Proof.
  assert (Hres := GetTargetClass_length self target).
  assert (Hbound : 0 <= GetTargetClass self target <= Z.of_nat (length (Borders self))).
  { rewrite Hres.
    pose proof (prefix_length _ _ (longest_prefix_below_prefix target (visible self))).
    pose proof (visible_length self). pose proof (ysize_le self). lia. }
  split; [exact Hres |]. split; [exact Hbound |]. split.
  - intros Hs p. subst p. rewrite <- (visible_small self Hs).
    split; [exact Hres |].
    split; [apply longest_prefix_below_prefix |].
    split; [apply longest_prefix_below_all |].
    intros k. apply longest_prefix_below_longest.
  - intros Hs. exists (Z.of_nat (length (Borders self)) + 1).
    split; [now apply GetClassesCount_small |]. split; [reflexivity | lia].
Qed.

(** A NaN target is in class 0, a NaN border stops the count, and a
    [float] border is compared by its value. *)
Example GetTargetClass_nan :
  GetTargetClass {| Borders := [S754_zero false; S754_finite false 1 0] |} S754_nan = 0
  /\ GetTargetClass {| Borders := [S754_zero false; S754_nan; S754_finite false 1 0] |}
       (S754_infinity false) = 1
  /\ GetTargetClass {| Borders := [S754_zero false; S754_finite false 1 0] |}
       (S754_infinity false) = 2
  /\ GetTargetClass {| Borders := [Sample.one_half] |} Sample.three_quarters = 1.
Proof. repeat split; reflexivity. Qed.

End TargetClassifier.

(** ** [TTreeCtrDataSetVisitor]: seeds *)

Section VisitorSeeds.

Import TTreeCtrDataSetVisitor.

Lemma SetSeeds_loop_length (n : nat) (i seed : Z) (seeds : list Z) :
  length (SetSeeds_loop n i seed seeds) = length seeds.
Proof.
  revert i seeds. induction n as [|n IH]; intros i seeds; simpl.
  - reflexivity.
  - rewrite IH. apply length_insert.
Qed.

(** The loop, entered at index [k] with the slots below [k] already
    written, leaves them as they are and writes every slot from [k] on. *)
Lemma SetSeeds_loop_lookup (n k : nat) (seed : Z) (seeds : list Z) (j : nat) :
  (k + n = length seeds)%nat -> (j < length seeds)%nat ->
  SetSeeds_loop n (Z.of_nat k) seed seeds !! j
  = if decide (j < k)%nat then seeds !! j else Some (DeviceSeed seed (Z.of_nat j)).
Proof.
  revert k seeds. induction n as [|n IH]; intros k seeds Hlen Hj; simpl.
  - destruct (decide (j < k)%nat); [reflexivity | lia].
  - replace (Z.of_nat k + 1) with (Z.of_nat (S k)) by lia.
    rewrite Nat2Z.id.
    rewrite IH by (rewrite length_insert; lia).
    destruct (decide (j < S k)%nat) as [Hlt | Hge].
    + destruct (decide (j < k)%nat) as [Hlt' | Hge'].
      * apply list_lookup_insert_ne. lia.
      * assert (j = k) by lia. subst j.
        apply list_lookup_insert_eq. lia.
    + destruct (decide (j < k)%nat); [lia | reflexivity].
Qed.

Lemma SetScoreStdDevAndSeed_seed (v : t) (scoreStdDev : double) (seed : Z) (i : nat) :
  (i < length (Seeds v))%nat ->
  Seeds (SetScoreStdDevAndSeed v scoreStdDev seed) !! i
  = Some (DeviceSeed seed (Z.of_nat i)).
Proof.
  intros Hi. unfold SetScoreStdDevAndSeed. simpl.
  pose proof (SetSeeds_loop_lookup (length (Seeds v)) 0 seed (Seeds v) i eq_refl Hi) as Hl.
  change (Z.of_nat 0) with 0 in Hl. rewrite Hl.
  destruct (decide (i < 0)%nat); [lia | reflexivity].
Qed.

(** Below 6464 the product [664525 * i] fits in 32 bits, and the seed is the
    sum of the three terms modulo 2^64. *)
Lemma DeviceSeed_small (seed i : Z) :
  0 <= i <= 6463 ->
  DeviceSeed seed i = Int.ui64 (seed + 664525 * i + 1013904223).
Proof.
  intros Hi. unfold DeviceSeed, Int.ui64, Int.ui32.
  rewrite (Z.mod_small (664525 * i)) by lia.
  apply Zplus_mod_idemp_l.
Qed.

(** C8, as the code has it. After [SetScoreStdDevAndSeed] with base seed
    [seed], the seed of device [i] is
    [((seed + (664525 * i mod 2^32)) mod 2^64 + 1013904223) mod 2^64]: the
    product is computed in 32 bits. For [i <= 6463] this is
    [seed + 664525 * i + 1013904223] modulo 2^64. The noise seed of a data
    set is its device's seed plus its base-tensor hash, modulo 2^64; it
    depends on the visitor through the base seed only, so the same base seed
    and the same devices and tensors give the same task seeds. *)
Theorem device_and_task_seeds (v : t) (scoreStdDev : double) (seed : Z)
    (ctrDataSet : TTreeCtrDataSet.t) :
  let i := TTreeCtrDataSet.DeviceId ctrDataSet in
  let v' := SetScoreStdDevAndSeed v scoreStdDev seed in
  0 <= i < Z.of_nat (length (Seeds v)) ->
  Seeds v' !! Z.to_nat i
  = Some (Int.ui64 (Int.ui64 (seed + Int.ui32 (664525 * i)) + 1013904223))
  /\ (i <= 6463 ->
      Seeds v' !! Z.to_nat i = Some (Int.ui64 (seed + 664525 * i + 1013904223)))
  /\ TaskSeed v' ctrDataSet
     = Ok (Int.ui64 (DeviceSeed seed i + TTreeCtrDataSet.BaseTensorHash ctrDataSet))
  /\ length (Seeds v') = length (Seeds v).
Proof.
  intros i v' Hi.
  assert (Hseed : Seeds v' !! Z.to_nat i = Some (DeviceSeed seed i)).
  { unfold v'. rewrite SetScoreStdDevAndSeed_seed by lia.
    now rewrite Z2Nat.id by lia. }
  split; [exact Hseed |].
  split.
  - intros Hsmall. rewrite Hseed. f_equal. apply DeviceSeed_small. lia.
  - split.
    + unfold TaskSeed, at_. fold i.
      rewrite bool_decide_true by lia. rewrite Hseed. reflexivity.
    + unfold v', SetScoreStdDevAndSeed. simpl. apply SetSeeds_loop_length.
Qed.

(** C8 as stated fails for device 6464: [664525 * 6464] does not fit in 32
    bits, and the seed is not [0 + 664525 * 6464 + 1013904223]. *)
Lemma seed_of_device_6464 :
  Seeds (SetScoreStdDevAndSeed Sample.many_devices (S754_zero false) 0) !! Z.to_nat 6464
  = Some 1014426527
  /\ Seeds (SetScoreStdDevAndSeed Sample.many_devices (S754_zero false) 0) !! Z.to_nat 6464
     <> Some (Int.ui64 (0 + 664525 * 6464 + 1013904223)).
Proof. split; vm_compute; [reflexivity | discriminate]. Qed.

End VisitorSeeds.

(** ** The Features Manager: registrations *)

Section Registry.

Import TBinarizedFeaturesManager.

Lemma IsKnown_true (fm : t) (ctr : TCtr.t) :
  IsKnown fm ctr = true <-> ctr ∈ KnownCtrs fm.
Proof. unfold IsKnown. apply bool_decide_eq_true. Qed.

Lemma IsKnown_false (fm : t) (ctr : TCtr.t) :
  IsKnown fm ctr = false <-> ctr ∉ KnownCtrs fm.
Proof. unfold IsKnown. apply bool_decide_eq_false. Qed.

Lemma KnownCtrs_AddCtr (fm : t) (ctr : TCtr.t) (borders : list float) :
  KnownCtrs (AddCtr fm ctr borders) = KnownCtrs fm ++ [ctr].
Proof. unfold KnownCtrs. simpl. now rewrite fmap_app. Qed.

Lemma find_app_Some {A : Type} (f : A -> bool) (l l' : list A) (a : A) :
  List.find f l = Some a -> List.find f (l ++ l') = Some a.
Proof.
  induction l as [|x l IH]; simpl.
  - discriminate.
  - destruct (f x); [trivial | exact IH].
Qed.

Lemma find_app_None {A : Type} (f : A -> bool) (l l' : list A) :
  List.find f l = None -> List.find f (l ++ l') = List.find f l'.
Proof.
  induction l as [|x l IH]; simpl.
  - reflexivity.
  - destruct (f x); [discriminate | exact IH].
Qed.

Lemma find_Ctr_Some (entries : list TEntry) (ctr : TCtr.t) :
  ctr ∈ Ctr <$> entries ->
  exists e, List.find (fun e => bool_decide (Ctr e = ctr)) entries = Some e.
Proof.
  induction entries as [|x l IH]; simpl; intros Hin.
  - inversion Hin.
  - destruct (bool_decide (Ctr x = ctr)) eqn:Hx.
    + now exists x.
    + apply IH. apply elem_of_cons in Hin as [Heq | Hin]; [| exact Hin].
      apply bool_decide_eq_false in Hx. congruence.
Qed.

Lemma find_Ctr_None (entries : list TEntry) (ctr : TCtr.t) :
  ctr ∉ Ctr <$> entries ->
  List.find (fun e => bool_decide (Ctr e = ctr)) entries = None.
Proof.
  induction entries as [|x l IH]; simpl; intros Hnin.
  - reflexivity.
  - rewrite not_elem_of_cons in Hnin. destruct Hnin as [Hne Hnin].
    rewrite bool_decide_false by congruence. now apply IH.
Qed.

(** A known identity has an id. *)
Lemma GetId_known (fm : t) (ctr : TCtr.t) :
  IsKnown fm ctr = true -> exists id, GetId fm ctr = Some id.
Proof.
  intros Hk. apply IsKnown_true in Hk.
  destruct (find_Ctr_Some (Entries fm) ctr Hk) as [e He].
  exists (Id e). unfold GetId. now rewrite He.
Qed.

(** A registration leaves the id of a known identity and the borders of a
    known id as they are. *)
Lemma GetId_AddCtr_known (fm : t) (ctr ctr' : TCtr.t) (borders : list float) :
  IsKnown fm ctr = true -> GetId (AddCtr fm ctr' borders) ctr = GetId fm ctr.
Proof.
  intros Hk. apply IsKnown_true in Hk.
  destruct (find_Ctr_Some (Entries fm) ctr Hk) as [e He].
  unfold GetId. simpl. now rewrite (find_app_Some _ _ _ _ He), He.
Qed.

Lemma GetBorders_AddCtr_known (fm : t) (ctr : TCtr.t) (borders b : list float) (id : Z) :
  GetBorders fm id = Some b -> GetBorders (AddCtr fm ctr borders) id = Some b.
Proof.
  unfold GetBorders. simpl. intros Hb.
  destruct (List.find (fun e => bool_decide (Id e = id)) (Entries fm)) as [e|] eqn:He;
    [| discriminate].
  now rewrite (find_app_Some _ _ _ _ He).
Qed.

(** The registration of an unknown identity gives it the cursor as its id. *)
Lemma GetId_AddCtr_new (fm : t) (ctr : TCtr.t) (borders : list float) :
  IsKnown fm ctr = false -> GetId (AddCtr fm ctr borders) ctr = Some (Cursor fm).
Proof.
  intros Hk. apply IsKnown_false in Hk.
  unfold GetId. simpl.
  rewrite find_app_None by now apply find_Ctr_None.
  simpl. now rewrite bool_decide_true.
Qed.

Lemma wf_AddCtr (fm : t) (ctr : TCtr.t) (borders : list float) :
  IsKnown fm ctr = false -> wf fm -> wf (AddCtr fm ctr borders).
Proof.
  intros Hk (Hctrs & Hids & Hlt). apply IsKnown_false in Hk.
  unfold wf. rewrite KnownCtrs_AddCtr. simpl. rewrite fmap_app. simpl.
  split; [| split].
  - apply NoDup_app. split; [exact Hctrs |]. split.
    + intros x Hx Hx'. apply list_elem_of_singleton in Hx'. now subst.
    + apply NoDup_singleton.
  - apply NoDup_app. split; [exact Hids |]. split.
    + intros x Hx Hx'. apply list_elem_of_singleton in Hx'. subst.
      apply list_elem_of_fmap in Hx as (e & Heq & He).
      rewrite Forall_forall in Hlt. specialize (Hlt e He). lia.
    + apply NoDup_singleton.
  - apply Forall_app. split.
    + eapply Forall_impl; [exact Hlt |]. simpl. intros; lia.
    + constructor; [simpl; lia | constructor].
Qed.

(** With a well-formed registry, the borders stored under the id of a new
    registration are the ones it was registered with. *)
Lemma GetBorders_AddCtr_new (fm : t) (ctr : TCtr.t) (borders : list float) :
  wf fm -> GetBorders (AddCtr fm ctr borders) (Cursor fm) = Some borders.
Proof.
  intros (_ & _ & Hlt). unfold GetBorders. simpl.
  rewrite find_app_None.
  - simpl. now rewrite bool_decide_true.
  - induction (Entries fm) as [|e l IH]; simpl; [reflexivity |].
    inversion Hlt as [|? ? He Hl]; subst.
    rewrite bool_decide_false by lia. now apply IH.
Qed.

Lemma registers_trans (fm1 fm2 fm3 : t) :
  registers fm1 fm2 -> registers fm2 fm3 -> registers fm1 fm3.
Proof.
  intros H12 H23. induction H23 as [| fm3 ctr borders H23 IH Hk].
  - exact H12.
  - now apply registers_add.
Qed.

(** What registrations preserve. *)
Lemma registers_preserves (fm fm' : t) :
  registers fm fm' ->
  (NoDup (KnownCtrs fm) -> NoDup (KnownCtrs fm'))
  /\ (wf fm -> wf fm')
  /\ (forall ctr, IsKnown fm ctr = true ->
        IsKnown fm' ctr = true /\ GetId fm' ctr = GetId fm ctr)
  /\ (forall id b, GetBorders fm id = Some b -> GetBorders fm' id = Some b)
  /\ TreeCtrsEnabled fm' = TreeCtrsEnabled fm.
Proof.
  induction 1 as [| fm' ctr borders Hreg (IHnd & IHwf & IHid & IHb & IHe) Hk].
  - split; [trivial |]. split; [trivial |]. split; [| split]; auto.
  - split; [| split; [| split; [| split]]].
    + intros Hnd. rewrite KnownCtrs_AddCtr. apply NoDup_app.
      split; [now apply IHnd |]. split.
      * intros x Hx Hx'. apply list_elem_of_singleton in Hx'. subst.
        now apply IsKnown_false in Hk.
      * apply NoDup_singleton.
    + intros Hwf. apply wf_AddCtr; [exact Hk | now apply IHwf].
    + intros c Hc. destruct (IHid c Hc) as [Hc' Hid]. split.
      * apply IsKnown_true. rewrite KnownCtrs_AddCtr. apply elem_of_app. left.
        now apply IsKnown_true.
      * now rewrite GetId_AddCtr_known.
    + intros id b Hb. apply GetBorders_AddCtr_known. now apply IHb.
    + simpl. exact IHe.
Qed.

End Registry.

(** ** [TTreeCtrDataSetVisitor]: caching of borders and registration *)

Section VisitorRegistry.

Import TBinarizedFeaturesManager TTreeCtrDataSetVisitor.

Lemma CacheCtrBorders_entry_registers (fm : TBinarizedFeaturesManager.t)
    (entry : TCtr.t * list float) :
  registers fm (CacheCtrBorders_entry fm entry).
Proof.
  unfold CacheCtrBorders_entry, Y_ASSERT.
  destruct (IsKnown fm entry.1) eqn:Hk; simpl.
  - apply registers_none.
  - apply registers_add; [apply registers_none | exact Hk].
Qed.

Lemma CacheCtrBorders_registers (bordersMap : list (TCtr.t * list float))
    (fm : TBinarizedFeaturesManager.t) :
  registers fm (CacheCtrBorders fm bordersMap).
Proof.
  unfold CacheCtrBorders. revert fm.
  induction bordersMap as [|entry rest IH]; intros fm; simpl.
  - apply registers_none.
  - eapply registers_trans; [apply CacheCtrBorders_entry_registers | apply IH].
Qed.


Lemma CacheCtrBorders_entry_KnownCtrs (fm : TBinarizedFeaturesManager.t)
    (entry : TCtr.t * list float) (ctr : TCtr.t) :
  ctr ∈ KnownCtrs (CacheCtrBorders_entry fm entry)
  <-> ctr ∈ KnownCtrs fm \/ ctr = entry.1.
Proof.
  unfold CacheCtrBorders_entry, Y_ASSERT.
  destruct (IsKnown fm entry.1) eqn:Hk; simpl.
  - apply IsKnown_true in Hk. split; [now left |].
    intros [Hin | ->]; assumption.
  - rewrite KnownCtrs_AddCtr, elem_of_app, list_elem_of_singleton. reflexivity.
Qed.

(** After [CacheCtrBorders] the known identities are the ones known before
    and the keys of the map. *)
Lemma CacheCtrBorders_KnownCtrs (bordersMap : list (TCtr.t * list float))
    (fm : TBinarizedFeaturesManager.t) (ctr : TCtr.t) :
  ctr ∈ KnownCtrs (CacheCtrBorders fm bordersMap)
  <-> ctr ∈ KnownCtrs fm \/ ctr ∈ bordersMap.*1.
Proof.
  unfold CacheCtrBorders. revert fm.
  induction bordersMap as [|entry rest IH]; intros fm; simpl.
  - split; [now left |]. intros [Hin | Hin]; [exact Hin | inversion Hin].
  - rewrite IH, CacheCtrBorders_entry_KnownCtrs, elem_of_cons. tauto.
Qed.

Lemma CreateBestSplitProperties_known (fm : TBinarizedFeaturesManager.t)
    (v : TTreeCtrDataSetVisitor.t) (id : Z) :
  EnsureHasBestProps v = Ok tt -> IsKnown fm (BestCtr v) = true ->
  GetId fm (BestCtr v) = Some id ->
  CreateBestSplitProperties fm v
  = Ok (TBestSplitProperties.mk id (BestBin v) (static_cast_float (BestScore v)), fm).
Proof.
  intros He Hk Hid. unfold CreateBestSplitProperties.
  rewrite He, Hk. unfold_result. simpl. now rewrite Hid.
Qed.

Lemma CreateBestSplitProperties_new (fm : TBinarizedFeaturesManager.t)
    (v : TTreeCtrDataSetVisitor.t) (borders : list float) :
  EnsureHasBestProps v = Ok tt -> IsKnown fm (BestCtr v) = false ->
  at_ (BestBorders v) (BestDevice v) = Ok borders ->
  CreateBestSplitProperties fm v
  = Ok (TBestSplitProperties.mk (Cursor fm) (BestBin v) (static_cast_float (BestScore v)),
        AddCtr fm (BestCtr v) borders).
Proof.
  intros He Hk Hb. unfold CreateBestSplitProperties.
  rewrite He, Hk, Hb. unfold_result. simpl.
  now rewrite (GetId_AddCtr_new fm (BestCtr v) borders Hk).
Qed.

(** What a call of [CreateBestSplitProperties] that returns has done. *)
Lemma CreateBestSplitProperties_Ok (fm fm' : TBinarizedFeaturesManager.t)
    (v : TTreeCtrDataSetVisitor.t) (p : TBestSplitProperties.t) :
  CreateBestSplitProperties fm v = Ok (p, fm') ->
  EnsureHasBestProps v = Ok tt
  /\ TBestSplitProperties.BinId p = BestBin v
  /\ TBestSplitProperties.Score p = static_cast_float (BestScore v)
  /\ GetId fm' (BestCtr v) = Some (TBestSplitProperties.FeatureId p)
  /\ ((IsKnown fm (BestCtr v) = true /\ fm' = fm)
      \/ (IsKnown fm (BestCtr v) = false
          /\ exists borders, at_ (BestBorders v) (BestDevice v) = Ok borders
                             /\ fm' = AddCtr fm (BestCtr v) borders)).
Proof.
  intros Hc.
  destruct (EnsureHasBestProps v) as [[] | what |] eqn:He;
    try (unfold CreateBestSplitProperties in Hc; rewrite He in Hc; discriminate).
  destruct (IsKnown fm (BestCtr v)) eqn:Hk.
  - destruct (GetId_known fm (BestCtr v) Hk) as [id Hid].
    rewrite (CreateBestSplitProperties_known fm v id He Hk Hid) in Hc.
    injection Hc as <- <-. simpl. auto 10.
  - destruct (at_ (BestBorders v) (BestDevice v)) as [borders | what |] eqn:Hb;
      try (unfold CreateBestSplitProperties in Hc; rewrite He, Hk, Hb in Hc; discriminate).
    rewrite (CreateBestSplitProperties_new fm v borders He Hk Hb) in Hc.
    injection Hc as <- <-. simpl.
    rewrite (GetId_AddCtr_new fm (BestCtr v) borders Hk). eauto 10.
Qed.

(** *** Workers that share the manager *)










End VisitorRegistry.

(** ** [TTreeCtrDataSetVisitor]: which borders are cached *)

Section VisitorCache.

Import TBinarizedFeaturesManager TTreeCtrDataSetVisitor.

Context `{Externals}.

Lemma IsNeedToCacheBorders_iff (v : TTreeCtrDataSetVisitor.t) (ctr : TCtr.t) :
  IsNeedToCacheBorders v ctr = true
  <-> TFeatureTensor.Splits (TCtr.FeatureTensor ctr) = []
      /\ Z.of_nat (length (TFeatureTensor.CatFeatures (TCtr.FeatureTensor ctr)))
         < TObliviousTreeLearnerOptions.GetMaxCtrComplexityForBordersCaching (TreeConfig v).
Proof.
  unfold IsNeedToCacheBorders.
  rewrite andb_true_iff, !bool_decide_eq_true.
  split; intros [Hs Hc]; split; trivial.
  - now apply length_zero_iff_nil.
  - now rewrite Hs.
Qed.

(** The ids the loop collects from index [k] on are the indices of the
    CTRs that need caching. *)
Lemma GetCtrsBordersToCacheIds_loop_elem (v : TTreeCtrDataSetVisitor.t)
    (ctrs : list TCtr.t) (k i : Z) :
  i ∈ GetCtrsBordersToCacheIds_loop v ctrs k
  <-> exists (j : nat) (ctr : TCtr.t),
        i = k + Z.of_nat j /\ ctrs !! j = Some ctr /\ IsNeedToCacheBorders v ctr = true.
Proof.
  revert k. induction ctrs as [|c rest IH]; intros k; simpl.
  - split; [intros Hin; inversion Hin | intros (j & ctr & _ & Hl & _); discriminate].
  - assert (Hrest : i ∈ GetCtrsBordersToCacheIds_loop v rest (k + 1)
                    <-> exists (j : nat) (ctr : TCtr.t),
                          i = k + Z.of_nat (S j) /\ rest !! j = Some ctr
                          /\ IsNeedToCacheBorders v ctr = true).
    { rewrite IH. split; intros (j & ctr & Hi & Hl & Hn); exists j, ctr;
        (split; [lia | auto]). }
    destruct (IsNeedToCacheBorders v c) eqn:Hc.
    + rewrite elem_of_cons, Hrest. split.
      * intros [-> | (j & ctr & Hi & Hl & Hn)].
        -- exists 0%nat, c. split; [lia | auto].
        -- exists (S j), ctr. auto.
      * intros ([|j] & ctr & Hi & Hl & Hn).
        -- left. lia.
        -- right. exists j, ctr. auto.
    + rewrite Hrest. split.
      * intros (j & ctr & Hi & Hl & Hn). exists (S j), ctr. auto.
      * intros ([|j] & ctr & Hi & Hl & Hn).
        -- simpl in Hl. injection Hl as ->. congruence.
        -- exists j, ctr. auto.
Qed.

Lemma GetCtrsBordersToCacheIds_elem (v : TTreeCtrDataSetVisitor.t)
    (ctrs : list TCtr.t) (i : Z) :
  i ∈ GetCtrsBordersToCacheIds v ctrs
  <-> 0 <= i /\ exists ctr, ctrs !! Z.to_nat i = Some ctr
                            /\ IsNeedToCacheBorders v ctr = true.
Proof.
  unfold GetCtrsBordersToCacheIds. rewrite GetCtrsBordersToCacheIds_loop_elem.
  split.
  - intros (j & ctr & -> & Hl & Hn). split; [lia |].
    exists ctr. now rewrite Z.add_0_l, Nat2Z.id.
  - intros (Hi & ctr & Hl & Hn). exists (Z.to_nat i), ctr.
    split; [lia | auto].
Qed.

Lemma ymap_place_keys (ctr : TCtr.t) (borders : list float)
    (m : TTreeCtrDataSet.TBordersMap) (k : TCtr.t) :
  k ∈ (TTreeCtrDataSet.ymap_place ctr borders m).*1 <-> k = ctr \/ k ∈ m.*1.
Proof.
  induction m as [|entry rest IH]; simpl.
  - rewrite list_elem_of_singleton. split; [auto | intros [-> | Hin]; [reflexivity |]].
    inversion Hin.
  - destruct (CtrLess ctr entry.1); simpl.
    + rewrite !elem_of_cons. tauto.
    + rewrite !elem_of_cons, IH. tauto.
Qed.

Lemma ymap_insert_keys (ctr : TCtr.t) (borders : list float)
    (m : TTreeCtrDataSet.TBordersMap) (k : TCtr.t) :
  k ∈ (TTreeCtrDataSet.ymap_insert ctr borders m).*1 <-> k = ctr \/ k ∈ m.*1.
Proof.
  unfold TTreeCtrDataSet.ymap_insert.
  destruct (bool_decide (ctr ∈ m.*1)) eqn:Hin.
  - apply bool_decide_eq_true in Hin. split; [auto | intros [-> | Hk]; assumption].
  - apply ymap_place_keys.
Qed.

Lemma ymap_place_NoDup (ctr : TCtr.t) (borders : list float)
    (m : TTreeCtrDataSet.TBordersMap) :
  ctr ∉ m.*1 -> NoDup m.*1 -> NoDup (TTreeCtrDataSet.ymap_place ctr borders m).*1.
Proof.
  induction m as [|entry rest IH]; simpl; intros Hnew Hnd.
  - apply NoDup_singleton.
  - apply not_elem_of_cons in Hnew as [Hne Hnew].
    apply NoDup_cons in Hnd as [Hentry Hnd].
    destruct (CtrLess ctr entry.1); simpl.
    + apply NoDup_cons. split; [| apply NoDup_cons; auto].
      rewrite elem_of_cons. tauto.
    + apply NoDup_cons. split; [| auto].
      rewrite ymap_place_keys. intros [Heq | Hin]; [congruence | contradiction].
Qed.

Lemma ymap_insert_NoDup (ctr : TCtr.t) (borders : list float)
    (m : TTreeCtrDataSet.TBordersMap) :
  NoDup m.*1 -> NoDup (TTreeCtrDataSet.ymap_insert ctr borders m).*1.
Proof.
  intros Hnd. unfold TTreeCtrDataSet.ymap_insert.
  destruct (bool_decide (ctr ∈ m.*1)) eqn:Hin; [exact Hnd |].
  apply bool_decide_eq_false in Hin. now apply ymap_place_NoDup.
Qed.

(** The map read back from a map [m]: its keys, one entry per key. *)
Lemma ReadBordersOf_from (ds : TTreeCtrDataSet.t) (ids : list Z)
    (m : TTreeCtrDataSet.TBordersMap) :
  let m' := foldl (fun m i => match TTreeCtrDataSet.Ctrs ds !! Z.to_nat i with
                              | Some ctr =>
                                  TTreeCtrDataSet.ymap_insert ctr
                                    (TTreeCtrDataSet.ReadBorders ds i) m
                              | None => m
                              end) m ids in
  (forall ctr, ctr ∈ m'.*1
     <-> ctr ∈ m.*1
         \/ exists i, i ∈ ids /\ TTreeCtrDataSet.Ctrs ds !! Z.to_nat i = Some ctr)
  /\ (NoDup m.*1 -> NoDup m'.*1).
Proof.
  revert m. induction ids as [|i rest IH]; intros m; simpl.
  - split; [| auto]. intros ctr. split; [auto |].
    intros [Hin | (i & Hi & _)]; [exact Hin | inversion Hi].
  - destruct (IH (match TTreeCtrDataSet.Ctrs ds !! Z.to_nat i with
                  | Some ctr =>
                      TTreeCtrDataSet.ymap_insert ctr (TTreeCtrDataSet.ReadBorders ds i) m
                  | None => m
                  end)) as [IHkeys IHnd].
    split.
    + intros ctr. rewrite IHkeys.
      destruct (TTreeCtrDataSet.Ctrs ds !! Z.to_nat i) as [c |] eqn:Hc.
      * rewrite ymap_insert_keys. split.
        -- intros [[-> | Hin] | (j & Hj & Hl)]; [right | auto | right].
           ++ exists i. split; [apply list_elem_of_here | exact Hc].
           ++ exists j. split; [now apply list_elem_of_further | exact Hl].
        -- intros [Hin | (j & Hj & Hl)]; [auto |].
           apply elem_of_cons in Hj as [-> | Hj].
           ++ left. left. congruence.
           ++ right. eauto.
      * split.
        -- intros [Hin | (j & Hj & Hl)]; [auto | right].
           exists j. split; [now apply list_elem_of_further | exact Hl].
        -- intros [Hin | (j & Hj & Hl)]; [auto |].
           apply elem_of_cons in Hj as [-> | Hj]; [congruence | right; eauto].
    + intros Hnd. apply IHnd.
      destruct (TTreeCtrDataSet.Ctrs ds !! Z.to_nat i); [| exact Hnd].
      now apply ymap_insert_NoDup.
Qed.

(** The keys of the borders read back for caching. *)
Lemma ReadBordersOf_keys (ds : TTreeCtrDataSet.t) (ids : list Z) (ctr : TCtr.t) :
  ctr ∈ (TTreeCtrDataSet.ReadBordersOf ds ids).*1
  <-> exists i, i ∈ ids /\ TTreeCtrDataSet.Ctrs ds !! Z.to_nat i = Some ctr.
Proof.
  unfold TTreeCtrDataSet.ReadBordersOf.
  rewrite (proj1 (ReadBordersOf_from ds ids []) ctr). split; [| auto].
  intros [Hin | Hex]; [inversion Hin | exact Hex].
Qed.

(** The map read back has one entry per key. *)
Lemma ReadBordersOf_NoDup (ds : TTreeCtrDataSet.t) (ids : list Z) :
  NoDup (TTreeCtrDataSet.ReadBordersOf ds ids).*1.
Proof.
  unfold TTreeCtrDataSet.ReadBordersOf.
  apply (proj2 (ReadBordersOf_from ds ids [])). apply NoDup_nil_2.
Qed.

Lemma Accept_cache_known (fm : TBinarizedFeaturesManager.t)
    (v : TTreeCtrDataSetVisitor.t) (ds : TTreeCtrDataSet.t) (ctr : TCtr.t) :
  IsKnown (Accept_cache fm v ds) ctr = true
  <-> IsKnown fm ctr = true
      \/ (ctr ∈ TTreeCtrDataSet.Ctrs ds /\ IsNeedToCacheBorders v ctr = true).
Proof.
  assert (Hsel : (exists i, i ∈ GetCtrsBordersToCacheIds v (TTreeCtrDataSet.Ctrs ds)
                            /\ TTreeCtrDataSet.Ctrs ds !! Z.to_nat i = Some ctr)
                 <-> ctr ∈ TTreeCtrDataSet.Ctrs ds /\ IsNeedToCacheBorders v ctr = true).
  { split.
    - intros (i & Hi & Hl).
      apply GetCtrsBordersToCacheIds_elem in Hi as (_ & c & Hl' & Hn).
      rewrite Hl in Hl'. injection Hl' as <-.
      split; [| exact Hn]. apply list_elem_of_lookup. eauto.
    - intros [Hin Hn]. apply list_elem_of_lookup in Hin as [j Hj].
      exists (Z.of_nat j). rewrite Nat2Z.id. split; [| exact Hj].
      apply GetCtrsBordersToCacheIds_elem. split; [lia |].
      exists ctr. now rewrite Nat2Z.id. }
  unfold Accept_cache. rewrite !IsKnown_true.
  destruct (bool_decide
              (GetCtrsBordersToCacheIds v (TTreeCtrDataSet.Ctrs ds) <> [])) eqn:Hne.
  - now rewrite CacheCtrBorders_KnownCtrs, ReadBordersOf_keys, Hsel.
  - apply bool_decide_eq_false in Hne.
    assert (Hnil : GetCtrsBordersToCacheIds v (TTreeCtrDataSet.Ctrs ds) = [])
      by (destruct (GetCtrsBordersToCacheIds v (TTreeCtrDataSet.Ctrs ds));
          [reflexivity | exfalso; apply Hne; discriminate]).
    split; [now left |]. intros [Hk | Hc]; [exact Hk |].
    apply Hsel in Hc as (i & Hi & _). rewrite Hnil in Hi. inversion Hi.
Qed.

Lemma Accept_cache_registers (fm : TBinarizedFeaturesManager.t)
    (v : TTreeCtrDataSetVisitor.t) (ds : TTreeCtrDataSet.t) :
  registers fm (Accept_cache fm v ds).
Proof.
  unfold Accept_cache.
  destruct (bool_decide _); [apply CacheCtrBorders_registers | apply registers_none].
Qed.

(** The manager [Accept] returns is the one its first block leaves. *)
Lemma Accept_manager (fm fm' : TBinarizedFeaturesManager.t)
    (v v' : TTreeCtrDataSetVisitor.t) (ds : TTreeCtrDataSet.t) (n : Z) :
  Accept fm v ds n = Ok (v', fm') -> fm' = Accept_cache fm v ds.
Proof.
  unfold Accept. intros Ha.
  destruct (TaskSeed v ds) as [seed | |]; simpl in Ha; try discriminate.
  destruct (UpdateBestSplit _ _ _ _ _) as [v1 | |]; simpl in Ha; try discriminate.
  now injection Ha as _ <-.
Qed.

(** C6, as the code has it. Among the CTRs of the visited data set, the
    borders selected for caching are those of the tensors that have no
    binary split and whose number of categorical features is below
    [GetMaxCtrComplexityForBordersCaching()]; [Accept] registers them with
    the Features Manager (unless known already) in its first block, before
    the data set is scored, and registers nothing else there. *)
Theorem borders_cached_iff (v : TTreeCtrDataSetVisitor.t)
    (fm : TBinarizedFeaturesManager.t) (ds : TTreeCtrDataSet.t) :
  (forall ctr,
      IsNeedToCacheBorders v ctr = true
      <-> TFeatureTensor.Splits (TCtr.FeatureTensor ctr) = []
          /\ Z.of_nat (length (TFeatureTensor.CatFeatures (TCtr.FeatureTensor ctr)))
             < TObliviousTreeLearnerOptions.GetMaxCtrComplexityForBordersCaching
                 (TreeConfig v))
  /\ (forall i,
        i ∈ GetCtrsBordersToCacheIds v (TTreeCtrDataSet.Ctrs ds)
        <-> 0 <= i /\ exists ctr, TTreeCtrDataSet.Ctrs ds !! Z.to_nat i = Some ctr
                                  /\ IsNeedToCacheBorders v ctr = true)
  /\ (forall ctr,
        IsKnown (Accept_cache fm v ds) ctr = true
        <-> IsKnown fm ctr = true
            \/ (ctr ∈ TTreeCtrDataSet.Ctrs ds /\ IsNeedToCacheBorders v ctr = true))
  /\ registers fm (Accept_cache fm v ds)
  /\ (forall n v' fm',
        Accept fm v ds n = Ok (v', fm') -> fm' = Accept_cache fm v ds).
Proof.
  split; [apply IsNeedToCacheBorders_iff |].
  split; [apply GetCtrsBordersToCacheIds_elem |].
  split; [apply Accept_cache_known |].
  split; [apply Accept_cache_registers |].
  intros n v' fm'. apply Accept_manager.
Qed.

End VisitorCache.

(** ** [TTreeCtrDataSetVisitor]: the best split *)

Section VisitorBest.

Import TBinarizedFeaturesManager TTreeCtrDataSetVisitor.

Lemma at_Ok {A : Type} (l : list A) (i : Z) (a : A) :
  at_ l i = Ok a <-> 0 <= i /\ l !! Z.to_nat i = Some a.
Proof.
  unfold at_. destruct (bool_decide (0 <= i)) eqn:Hi.
  - apply bool_decide_eq_true in Hi.
    destruct (l !! Z.to_nat i) as [x|]; split.
    + intros [= ->]. auto.
    + intros [_ [= ->]]. reflexivity.
    + discriminate.
    + intros [_ Hn]. discriminate.
  - apply bool_decide_eq_false in Hi. split; [discriminate | intros [? _]; lia].
Qed.

Lemma at_in_range {A : Type} (l : list A) (i : Z) :
  0 <= i < Z.of_nat (length l) -> exists a, at_ l i = Ok a.
Proof.
  intros Hi. destruct (lookup_lt_is_Some_2 l (Z.to_nat i)) as [a Ha]; [lia |].
  exists a. apply at_Ok. split; [lia | exact Ha].
Qed.

Lemma set_at_Ok {A : Type} (l l' : list A) (i : Z) (a : A) :
  set_at l i a = Ok l' <-> 0 <= i < Z.of_nat (length l) /\ l' = <[Z.to_nat i := a]> l.
Proof.
  unfold set_at. destruct (bool_decide (0 <= i < Z.of_nat (length l))) eqn:Hi.
  - apply bool_decide_eq_true in Hi. split.
    + intros [= <-]. auto.
    + intros [_ ->]. reflexivity.
  - apply bool_decide_eq_false in Hi. split; [discriminate | intros [? _]; tauto].
Qed.

Lemma set_at_in_range {A : Type} (l : list A) (i : Z) (a : A) :
  0 <= i < Z.of_nat (length l) -> set_at l i a = Ok (<[Z.to_nat i := a]> l).
Proof. intros Hi. unfold set_at. now rewrite bool_decide_eq_true_2. Qed.

Lemma EnsureHasBestProps_Ok (v : TTreeCtrDataSetVisitor.t) :
  EnsureHasBestProps v = Ok tt <-> 0 <= BestDevice v /\ BestBin v <= 255.
Proof.
  unfold EnsureHasBestProps. unfold_result.
  destruct (bool_decide (0 <= BestDevice v)) eqn:Hd;
    destruct (bool_decide (BestBin v <= 255)) eqn:Hb;
    rewrite ?bool_decide_eq_true, ?bool_decide_eq_false in *;
    split; try discriminate; try tauto.
Qed.

Context `{Externals}.

(** What a call of [UpdateBestSplit] that returns has done: nothing when
    the candidate's score is not below the best score; otherwise the best
    score, bin, device and CTR are the candidate's, the compressed split is
    in the device's slot and, for a CTR the manager does not know, the
    borders read back are in the device's slot. *)
Lemma UpdateBestSplit_Ok (fm : TBinarizedFeaturesManager.t)
    (v v' : TTreeCtrDataSetVisitor.t) (ds : TTreeCtrDataSet.t) (n : Z)
    (p : TBestSplitProperties.t) :
  UpdateBestSplit fm v ds n p = Ok v' ->
  (Double.lt (TBestSplitProperties.Score p) (BestScore v) = false /\ v' = v)
  \/ (Double.lt (TBestSplitProperties.Score p) (BestScore v) = true
      /\ let dev := TTreeCtrDataSet.DeviceId ds in
         let featureId := TBestSplitProperties.FeatureId p in
         let binId := TBestSplitProperties.BinId p in
         BestScore v' = TBestSplitProperties.Score p
         /\ BestBin v' = binId
         /\ BestDevice v' = Int.int dev
         /\ TTreeCtrDataSet.GetCtr ds featureId = Ok (BestCtr v')
         /\ 0 <= dev < Z.of_nat (length (BestSplits v))
         /\ BestSplits v'
            = <[Z.to_nat dev :=
                  TSingleBuffer.mk dev (CompressedSize (Int.ui32 n) 2)
                    (Some (TTreeCtrDataSet.BaseTensorHash ds, featureId, binId))]>
                (BestSplits v)
         /\ (if IsKnown fm (BestCtr v') then BestBorders v' = BestBorders v
             else 0 <= dev < Z.of_nat (length (BestBorders v))
                  /\ BestBorders v'
                     = <[Z.to_nat dev := TTreeCtrDataSet.ReadBorders ds featureId]>
                         (BestBorders v)
                  /\ binId < Z.of_nat (length (TTreeCtrDataSet.ReadBorders ds featureId)))
         /\ Seeds v' = Seeds v /\ ScoreStdDev v' = ScoreStdDev v
         /\ FoldCount v' = FoldCount v /\ TreeConfig v' = TreeConfig v
         /\ 0 <= featureId < Z.of_nat (length (TTreeCtrDataSet.HostFeatures ds))).
Proof.
  unfold UpdateBestSplit. intros Hu.
  destruct (Double.lt (TBestSplitProperties.Score p) (BestScore v)) eqn:Hlt.
  - right. split; [reflexivity |]. cbv zeta.
    destruct (TTreeCtrDataSet.GetCtr ds (TBestSplitProperties.FeatureId p))
      as [ctr | |] eqn:Hctr; simpl in Hu; try discriminate.
    destruct (set_at (BestSplits v) (TTreeCtrDataSet.DeviceId ds) _)
      as [reset | |] eqn:Hr; simpl in Hu; try discriminate.
    apply set_at_Ok in Hr as [Hdev ->].
    destruct (at_ (TTreeCtrDataSet.HostFeatures ds) _) as [hostFeature | |] eqn:Hh;
      simpl in Hu; try discriminate.
    apply at_Ok in Hh as [Hf0 Hh]. apply lookup_lt_Some in Hh.
    apply Nat2Z.inj_lt in Hh. rewrite Z2Nat.id in Hh by exact Hf0.
    rewrite (set_at_in_range (<[_ := _]> (BestSplits v))) in Hu
      by (rewrite length_insert; exact Hdev).
    simpl in Hu. rewrite list_insert_insert_eq in Hu.
    destruct (IsKnown fm ctr) eqn:Hk; simpl in Hu.
    + injection Hu as <-. simpl. rewrite Hk.
      repeat split; try reflexivity; try assumption; lia.
    + destruct (set_at (BestBorders v) (TTreeCtrDataSet.DeviceId ds) _)
        as [borders | |] eqn:Hb; simpl in Hu; try discriminate.
      apply set_at_Ok in Hb as [Hdev' ->].
      unfold_result.
      destruct (bool_decide (TBestSplitProperties.BinId p < _)) eqn:Hbin;
        try discriminate.
      apply bool_decide_eq_true in Hbin.
      injection Hu as <-. simpl. rewrite Hk.
      repeat split; try reflexivity; try assumption; lia.
  - left. split; [reflexivity |]. now injection Hu as <-.
Qed.

End VisitorBest.

Section VisitorInvariants.

Import TBinarizedFeaturesManager TTreeCtrDataSetVisitor.

Context `{Externals}.

Lemma wf_Create (deviceCount foldCount : Z) (config : TObliviousTreeLearnerOptions.t) :
  wf (Create deviceCount foldCount config).
Proof. unfold wf. simpl. rewrite !length_replicate. split; [reflexivity | lia]. Qed.

Lemma wf_SetBestScore (v : TTreeCtrDataSetVisitor.t) (score : double) :
  wf v -> wf (SetBestScore v score).
Proof. trivial. Qed.

Lemma wf_SetScoreStdDevAndSeed (v : TTreeCtrDataSetVisitor.t) (sd : double) (seed : Z) :
  wf v -> wf (SetScoreStdDevAndSeed v sd seed).
Proof. trivial. Qed.

Lemma wf_UpdateBestSplit (fm : TBinarizedFeaturesManager.t)
    (v v' : TTreeCtrDataSetVisitor.t) (ds : TTreeCtrDataSet.t) (n : Z)
    (p : TBestSplitProperties.t) :
  wf v -> UpdateBestSplit fm v ds n p = Ok v' -> wf v'.
Proof.
  intros [Hlen Hdev] Hu.
  destruct (UpdateBestSplit_Ok fm v v' ds n p Hu) as [[_ ->] | [_ Hnew]].
  - split; assumption.
  - cbv zeta in Hnew.
    destruct Hnew as (_ & _ & Hd & _ & Hrange & Hs & Hb & _).
    unfold wf. rewrite Hs, Hd, length_insert.
    pose proof (int_le (TTreeCtrDataSet.DeviceId ds)).
    split; [| lia].
    destruct (IsKnown fm (BestCtr v')).
    + now rewrite Hb.
    + destruct Hb as (_ & -> & _). now rewrite length_insert.
Qed.

(** What a call of [Accept] that returns is made of. *)
Lemma Accept_Ok (fm fm' : TBinarizedFeaturesManager.t)
    (v v' : TTreeCtrDataSetVisitor.t) (ds : TTreeCtrDataSet.t) (n : Z) :
  Accept fm v ds n = Ok (v', fm') ->
  exists taskSeed,
    TaskSeed v ds = Ok taskSeed
    /\ fm' = Accept_cache fm v ds
    /\ UpdateBestSplit fm' v ds n
         (TTreeCtrDataSet.ScoreHelper ds (ScoreStdDev v) taskSeed) = Ok v'.
Proof.
  unfold Accept. intros Ha.
  destruct (TaskSeed v ds) as [seed | |]; simpl in Ha; try discriminate.
  destruct (UpdateBestSplit _ _ _ _ _) as [v1 | |] eqn:Hu; simpl in Ha; try discriminate.
  injection Ha as <- <-. exists seed. auto.
Qed.

Lemma wf_Accept (fm fm' : TBinarizedFeaturesManager.t)
    (v v' : TTreeCtrDataSetVisitor.t) (ds : TTreeCtrDataSet.t) (n : Z) :
  wf v -> Accept fm v ds n = Ok (v', fm') -> wf v'.
Proof.
  intros Hwf Ha. destruct (Accept_Ok _ _ _ _ _ _ Ha) as (seed & _ & _ & Hu).
  eapply wf_UpdateBestSplit; eassumption.
Qed.

(** C7. [EnsureHasBestProps] passes exactly when [BestDevice >= 0] and
    [BestBin <= 255]. With [BestDevice < 0] (no improving candidate was
    found) it throws "Error: no good split in visitor found", and so do
    [CreateBestSplitProperties] and [GetBestSplitBits]; with a best device
    and [BestBin > 255] the three throw the second check's exception. With
    [BestDevice >= 0] and [BestBin <= 255] the two extraction methods of a
    visitor return: the bits are the best device's, the properties are the
    id of the best CTR in the manager, the best bin and the best score as a
    [float]. *)
Theorem EnsureHasBestProps_cases (fm : TBinarizedFeaturesManager.t)
    (v : TTreeCtrDataSetVisitor.t) :
  (EnsureHasBestProps v = Ok tt <-> 0 <= BestDevice v /\ BestBin v <= 255)
  /\ (BestDevice v < 0 ->
      EnsureHasBestProps v = Exception [Str "Error: no good split in visitor found"]
      /\ CreateBestSplitProperties fm v
         = Exception [Str "Error: no good split in visitor found"]
      /\ GetBestSplitBits v = Exception [Str "Error: no good split in visitor found"])
  /\ (0 <= BestDevice v -> 255 < BestBin v ->
      EnsureHasBestProps v = Exception []
      /\ CreateBestSplitProperties fm v = Exception []
      /\ GetBestSplitBits v = Exception [])
  /\ (0 <= BestDevice v -> BestBin v <= 255 -> wf v ->
      (exists bits,
          GetBestSplitBits v = Ok bits
          /\ BestSplits v !! Z.to_nat (BestDevice v) = Some bits)
      /\ (exists id fm',
            CreateBestSplitProperties fm v
            = Ok (TBestSplitProperties.mk id (BestBin v) (static_cast_float (BestScore v)),
                  fm')
            /\ GetId fm' (BestCtr v) = Some id)).
Proof.
  split; [apply EnsureHasBestProps_Ok |].
  split; [| split].
  - intros Hd.
    assert (He : EnsureHasBestProps v
                 = Exception [Str "Error: no good split in visitor found"]).
    { unfold EnsureHasBestProps. unfold_result.
      now rewrite bool_decide_false by lia. }
    unfold CreateBestSplitProperties, GetBestSplitBits. rewrite He. auto.
  - intros Hd Hb.
    assert (He : EnsureHasBestProps v = Exception []).
    { unfold EnsureHasBestProps. unfold_result.
      rewrite bool_decide_true by lia. now rewrite bool_decide_false by lia. }
    unfold CreateBestSplitProperties, GetBestSplitBits. rewrite He. auto.
  - intros Hd Hb [Hlen Hdev].
    assert (He : EnsureHasBestProps v = Ok tt) by now apply EnsureHasBestProps_Ok.
    split.
    + destruct (at_in_range (BestSplits v) (BestDevice v)) as [bits Hbits]; [lia |].
      exists bits. unfold GetBestSplitBits. rewrite He. simpl.
      split; [exact Hbits | now apply at_Ok in Hbits].
    + destruct (IsKnown fm (BestCtr v)) eqn:Hk.
      * destruct (GetId_known fm (BestCtr v) Hk) as [id Hid].
        exists id, fm. split; [now apply CreateBestSplitProperties_known | exact Hid].
      * destruct (at_in_range (BestBorders v) (BestDevice v)) as [borders Hbo]; [lia |].
        exists (Cursor fm), (AddCtr fm (BestCtr v) borders).
        split; [now apply CreateBestSplitProperties_new |].
        now apply GetId_AddCtr_new.
Qed.

End VisitorInvariants.

(** ** [TTreeCtrDataSetVisitor]: a visit keeps the minimum *)

Section VisitorMinimum.

Import TBinarizedFeaturesManager TTreeCtrDataSetVisitor.

Context `{Externals}.

#[local] Abbreviation VisitPermutationDataSets :=
  TObliviousTreeStructureSearcher.VisitPermutationDataSets.
#[local] Abbreviation VisitPermutations := TObliviousTreeStructureSearcher.VisitPermutations.

Lemma Candidate_seeds (v v' : TTreeCtrDataSetVisitor.t) (ds : TTreeCtrDataSet.t) :
  Seeds v' = Seeds v -> ScoreStdDev v' = ScoreStdDev v -> Candidate v' ds = Candidate v ds.
Proof. intros Hs Hd. unfold Candidate, TaskSeed. now rewrite Hs, Hd. Qed.

Lemma lt_not_below (c b b' : spec_float) :
  Double.lt c b = false -> b' = b \/ Double.lt b' b = true -> Double.lt c b' = false.
Proof.
  intros Hc [-> | Hlt]; [exact Hc |].
  destruct (Double.lt c b') eqn:E; [| reflexivity].
  rewrite (Double_lt_trans _ _ _ E Hlt) in Hc. discriminate.
Qed.

Lemma keeps_minimum_refl (v : TTreeCtrDataSetVisitor.t) : keeps_minimum v v [].
Proof.
  repeat split; auto. intros ds Hin. apply elem_of_nil in Hin. destruct Hin.
Qed.

Lemma keeps_minimum_app (v v1 v2 : TTreeCtrDataSetVisitor.t)
    (l1 l2 : list TTreeCtrDataSet.t) :
  keeps_minimum v v1 l1 -> keeps_minimum v1 v2 l2 -> keeps_minimum v v2 (l1 ++ l2).
Proof.
  intros (Hs1 & Hd1 & Hall1 & Hbest1) (Hs2 & Hd2 & Hall2 & Hbest2).
  assert (Hstep : BestScore v2 = BestScore v1 \/ Double.lt (BestScore v2) (BestScore v1) = true)
    by (destruct Hbest2 as [-> | [Hlt _]]; auto).
  split; [congruence |]. split; [congruence |]. split.
  - intros ds Hin. apply elem_of_app in Hin as [Hin | Hin].
    + destruct (Hall1 ds Hin) as (c & Hc & Hlt). exists c. split; [exact Hc |].
      eapply lt_not_below; eassumption.
    + destruct (Hall2 ds Hin) as (c & Hc & Hlt). exists c. split; [| exact Hlt].
      rewrite <- Hc. symmetry. now apply Candidate_seeds.
  - destruct Hbest2 as [Heq | (Hlt2 & ds & c & Hin & Hc & Heq)].
    + rewrite Heq. destruct Hbest1 as [Heq1 | (Hlt1 & ds & c & Hin & Hc & Heq1)];
        [left; exact Heq1 | right].
      split; [exact Hlt1 |]. exists ds, c. rewrite elem_of_app. auto.
    + right. split.
      * destruct Hbest1 as [<- | (Hlt1 & _)]; [exact Hlt2 |].
        eapply Double_lt_trans; eassumption.
      * exists ds, c. rewrite elem_of_app. split; [auto |]. split; [| exact Heq].
        rewrite <- Hc. symmetry. now apply Candidate_seeds.
Qed.

Lemma keeps_minimum_Accept (fm fm' : TBinarizedFeaturesManager.t)
    (v v' : TTreeCtrDataSetVisitor.t) (ds : TTreeCtrDataSet.t) (n : Z) :
  Accept fm v ds n = Ok (v', fm') -> keeps_minimum v v' [ds].
Proof.
  intros Ha. apply Accept_Ok in Ha as (taskSeed & Hseed & _ & Hu).
  set (c := TTreeCtrDataSet.ScoreHelper ds (ScoreStdDev v) taskSeed) in *.
  assert (Hc : Candidate v ds = Ok c) by (unfold Candidate; rewrite Hseed; reflexivity).
  apply UpdateBestSplit_Ok in Hu as [[Hlt ->] | [Hlt Hu]].
  - split; [reflexivity |]. split; [reflexivity |]. split; [| left; reflexivity].
    intros ds' Hin. apply list_elem_of_singleton in Hin as ->. eauto.
  - cbv zeta in Hu.
    destruct Hu as (Hscore & _ & _ & _ & _ & _ & _ & Hseeds & Hdev & _).
    split; [exact Hseeds |]. split; [exact Hdev |]. split.
    + intros ds' Hin. apply list_elem_of_singleton in Hin as ->.
      exists c. split; [exact Hc |]. rewrite Hscore. apply Double_lt_irrefl.
    + right. rewrite Hscore. split; [exact Hlt |].
      exists ds, c. split; [apply list_elem_of_here | auto].
Qed.

Lemma keeps_minimum_VisitPermutationDataSets (dataSets : list TTreeCtrDataSet.t)
    (fm fm' : TBinarizedFeaturesManager.t) (v v' : TTreeCtrDataSetVisitor.t) (n : Z) :
  VisitPermutationDataSets fm v n dataSets = Ok (v', fm') ->
  keeps_minimum v v' dataSets.
Proof.
  revert fm v. induction dataSets as [|ds rest IH]; intros fm v Hvisit; simpl in Hvisit.
  - injection Hvisit as <- <-. apply keeps_minimum_refl.
  - destruct (Accept fm v ds n) as [[v1 fm1] | |] eqn:Ha; simpl in Hvisit;
      try discriminate.
    apply (keeps_minimum_app v v1 v' [ds] rest).
    + eapply keeps_minimum_Accept; eassumption.
    + eapply IH; eassumption.
Qed.

Lemma keeps_minimum_VisitPermutations (permutations : list TPermutationVisit)
    (fm fm' : TBinarizedFeaturesManager.t) (v v' : TTreeCtrDataSetVisitor.t) :
  VisitPermutations fm v permutations = Ok (v', fm') ->
  keeps_minimum v v' (mjoin (DataSets <$> permutations)).
Proof.
  revert fm v. induction permutations as [|perm rest IH]; intros fm v Hvisit;
    simpl in Hvisit.
  - injection Hvisit as <- <-. apply keeps_minimum_refl.
  - destruct (VisitPermutationDataSets fm v _ _) as [[v1 fm1] | |] eqn:Hp;
      simpl in Hvisit; try discriminate.
    simpl. eapply keeps_minimum_app.
    + eapply keeps_minimum_VisitPermutationDataSets; eassumption.
    + eapply IH; eassumption.
Qed.

(** X6. The visit of the permutations' data sets keeps the minimum: seeds
    and noise level do not change during the visit; no candidate of a
    visited data set has a score strictly below the final best score; the
    final best score is the one the visit started with or the score of a
    visited candidate strictly below it; and it is never above the one the
    visit started with. *)
Theorem visit_keeps_the_best_candidate (permutations : list TPermutationVisit)
    (fm fm' : TBinarizedFeaturesManager.t) (v v' : TTreeCtrDataSetVisitor.t) :
  VisitPermutations fm v permutations = Ok (v', fm') ->
  Seeds v' = Seeds v /\ ScoreStdDev v' = ScoreStdDev v
  /\ (forall permutation ds,
        permutation ∈ permutations -> ds ∈ DataSets permutation ->
        exists c, Candidate v ds = Ok c
                  /\ Double.lt (TBestSplitProperties.Score c) (BestScore v') = false)
  /\ (BestScore v' = BestScore v
      \/ (Double.lt (BestScore v') (BestScore v) = true
          /\ exists permutation ds c,
               permutation ∈ permutations /\ ds ∈ DataSets permutation
               /\ Candidate v ds = Ok c
               /\ BestScore v' = TBestSplitProperties.Score c))
  /\ Double.lt (BestScore v) (BestScore v') = false.
Proof.
  intros Hvisit.
  apply keeps_minimum_VisitPermutations in Hvisit as (Hs & Hd & Hall & Hbest).
  assert (Hin : forall ds, ds ∈ mjoin (DataSets <$> permutations)
                <-> exists permutation, permutation ∈ permutations
                                        /\ ds ∈ DataSets permutation).
  { intros ds. rewrite list_elem_of_join. split.
    - intros (l & Hds & Hl). apply list_elem_of_fmap in Hl as (perm & -> & Hperm). eauto.
    - intros (perm & Hperm & Hds). exists (DataSets perm). split; [exact Hds |].
      apply list_elem_of_fmap. eauto. }
  split; [exact Hs |]. split; [exact Hd |]. split; [| split].
  - intros perm ds Hperm Hds. apply Hall, Hin. eauto.
  - destruct Hbest as [Heq | (Hlt & ds & c & Hds & Hc & Heq)]; [left; exact Heq | right].
    split; [exact Hlt |]. apply Hin in Hds as (perm & Hperm & Hds). eauto 10.
  - destruct Hbest as [-> | (Hlt & _)]; [apply Double_lt_irrefl |].
    destruct (Double.lt (BestScore v) (BestScore v')) eqn:E; [| reflexivity].
    pose proof (Double_lt_trans _ _ _ E Hlt) as Habs.
    rewrite Double_lt_irrefl in Habs. discriminate.
Qed.

End VisitorMinimum.

(** ** [TTreeCtrDataSetVisitor]: only a strictly better candidate replaces
    the best split *)

Section VisitorSupersedes.

Import TBinarizedFeaturesManager TTreeCtrDataSetVisitor.

Context `{Externals}.

#[local] Abbreviation seeded_visitor := TObliviousTreeStructureSearcher.seeded_visitor.
#[local] Abbreviation VisitPermutationDataSets :=
  TObliviousTreeStructureSearcher.VisitPermutationDataSets.
#[local] Abbreviation VisitPermutations := TObliviousTreeStructureSearcher.VisitPermutations.
#[local] Abbreviation TreeCtrSplit := TObliviousTreeStructureSearcher.TreeCtrSplit.

(** One call of [Accept] that returns. The best device is an [int]: it is
    the device of an improving candidate when this one is below 2^31. *)
Lemma Accept_step (fm fm' : TBinarizedFeaturesManager.t)
    (v v' : TTreeCtrDataSetVisitor.t) (ds : TTreeCtrDataSet.t) (n : Z) :
  Accept fm v ds n = Ok (v', fm') ->
  exists taskSeed,
    TaskSeed v ds = Ok taskSeed
    /\ let candidate := TTreeCtrDataSet.ScoreHelper ds (ScoreStdDev v) taskSeed in
       let dev := TTreeCtrDataSet.DeviceId ds in
       (Double.lt (TBestSplitProperties.Score candidate) (BestScore v) = false -> v' = v)
       /\ (Double.lt (TBestSplitProperties.Score candidate) (BestScore v) = true ->
           BestScore v' = TBestSplitProperties.Score candidate
           /\ BestBin v' = TBestSplitProperties.BinId candidate
           /\ BestDevice v' = Int.int dev
           /\ TTreeCtrDataSet.GetCtr ds (TBestSplitProperties.FeatureId candidate)
              = Ok (BestCtr v')
           /\ BestSplits v' !! Z.to_nat dev
              = Some (TSingleBuffer.mk dev (CompressedSize (Int.ui32 n) 2)
                        (Some (TTreeCtrDataSet.BaseTensorHash ds,
                               TBestSplitProperties.FeatureId candidate,
                               TBestSplitProperties.BinId candidate)))
           /\ HasSplit v' = bool_decide (0 <= Int.int dev)
           /\ (dev < 2 ^ 31 -> BestDevice v' = dev /\ HasSplit v' = true))
       /\ (dev < 2 ^ 31 ->
           (HasSplit v' = true
            <-> HasSplit v = true
                \/ Double.lt (TBestSplitProperties.Score candidate) (BestScore v) = true))
       /\ (BestScore v' = BestScore v \/ Double.lt (BestScore v') (BestScore v) = true)
       /\ length (BestSplits v') = length (BestSplits v).
Proof.
  intros Ha.
  destruct (Accept_Ok _ _ _ _ _ _ Ha) as (seed & Hseed & _ & Hu).
  exists seed. split; [exact Hseed |]. cbv zeta.
  destruct (UpdateBestSplit_Ok _ _ _ _ _ _ Hu) as [[Hlt ->] | [Hlt Hnew]].
  - rewrite Hlt.
    split; [reflexivity |]. split; [discriminate |].
    split; [| split]; [| now left | reflexivity].
    intros _. split; [now left | intros [Hs | Hf]; [exact Hs | discriminate]].
  - cbv zeta in Hnew.
    destruct Hnew as (Hscore & Hbin & Hd & Hctr & Hrange & Hs & _).
    assert (Hhas : HasSplit v' = bool_decide (0 <= Int.int (TTreeCtrDataSet.DeviceId ds)))
      by (unfold HasSplit; now rewrite Hd).
    assert (Hsmall : TTreeCtrDataSet.DeviceId ds < 2 ^ 31 ->
                     BestDevice v' = TTreeCtrDataSet.DeviceId ds /\ HasSplit v' = true).
    { intros Hdev. rewrite Hhas, Hd, int_small by lia.
      split; [reflexivity | apply bool_decide_eq_true; lia]. }
    rewrite Hlt.
    split; [discriminate |]. split; [| split; [| split]].
    + intros _. repeat (split; [assumption |]).
      split; [| auto]. rewrite Hs. apply list_lookup_insert_eq. lia.
    + intros Hdev. split; [now right |]. intros _. now apply Hsmall.
    + right. now rewrite Hscore.
    + rewrite Hs. apply length_insert.
Qed.

Lemma visited_from_Accept (fm fm' : TBinarizedFeaturesManager.t)
    (v0 v v' : TTreeCtrDataSetVisitor.t) (ds : TTreeCtrDataSet.t) (n : Z) :
  Z.of_nat (length (BestSplits v0)) <= 2 ^ 31 ->
  visited_from v0 v -> Accept fm v ds n = Ok (v', fm') ->
  visited_from v0 v' /\ registers fm fm'.
Proof.
  intros Hdevices (Hwf & Hlen & Hv) Ha.
  assert (Hreg : registers fm fm').
  { rewrite (Accept_manager _ _ _ _ _ _ Ha). apply Accept_cache_registers. }
  split; [| exact Hreg].
  destruct (Accept_step fm fm' v v' ds n Ha) as (seed & Hseed & Hstep).
  cbv zeta in Hstep. destruct Hstep as (Hsame & Hbetter & _ & Hmono & Hlen').
  split; [eapply wf_Accept; eassumption |]. split; [congruence |].
  destruct (Double.lt (TBestSplitProperties.Score
                     (TTreeCtrDataSet.ScoreHelper ds (ScoreStdDev v) seed))
                  (BestScore v)) eqn:Hlt.
  - right.
    destruct (Hbetter eq_refl) as (Hscore & _ & _ & _ & Hslot & _ & Hsmall).
    apply lookup_lt_Some in Hslot. rewrite Hlen' in Hslot.
    split; [apply Hsmall; lia |].
    destruct Hv as [[_ ->] | [_ Hbelow]].
    + now rewrite Hscore.
    + eapply Double_lt_trans; [| exact Hbelow]. now rewrite Hscore.
  - rewrite (Hsame eq_refl). exact Hv.
Qed.

Lemma visited_from_VisitPermutationDataSets (dataSets : list TTreeCtrDataSet.t)
    (fm fm' : TBinarizedFeaturesManager.t)
    (v0 v v' : TTreeCtrDataSetVisitor.t) (n : Z) :
  Z.of_nat (length (BestSplits v0)) <= 2 ^ 31 ->
  visited_from v0 v ->
  VisitPermutationDataSets fm v n dataSets = Ok (v', fm') ->
  visited_from v0 v' /\ registers fm fm'.
Proof.
  intros Hdevices. revert fm v.
  induction dataSets as [|ds rest IH]; intros fm v Hv Hvisit; simpl in Hvisit.
  - injection Hvisit as <- <-. split; [exact Hv | apply registers_none].
  - destruct (Accept fm v ds n) as [[v1 fm1] | |] eqn:Ha; simpl in Hvisit;
      try discriminate.
    destruct (visited_from_Accept _ _ _ _ _ _ _ Hdevices Hv Ha) as [Hv1 Hreg1].
    destruct (IH _ _ Hv1 Hvisit) as [Hv' Hreg'].
    split; [exact Hv' | eapply registers_trans; eassumption].
Qed.

Lemma visited_from_VisitPermutations (permutations : list TPermutationVisit)
    (fm fm' : TBinarizedFeaturesManager.t) (v0 v v' : TTreeCtrDataSetVisitor.t) :
  Z.of_nat (length (BestSplits v0)) <= 2 ^ 31 ->
  visited_from v0 v ->
  VisitPermutations fm v permutations = Ok (v', fm') ->
  visited_from v0 v' /\ registers fm fm'.
Proof.
  intros Hdevices. revert fm v.
  induction permutations as [|perm rest IH]; intros fm v Hv Hvisit; simpl in Hvisit.
  - injection Hvisit as <- <-. split; [exact Hv | apply registers_none].
  - destruct (VisitPermutationDataSets fm v _ _) as [[v1 fm1] | |] eqn:Hp;
      simpl in Hvisit; try discriminate.
    destruct (visited_from_VisitPermutationDataSets _ _ _ _ _ _ _ Hdevices Hv Hp)
      as [Hv1 Hreg1].
    destruct (IH _ _ Hv1 Hvisit) as [Hv' Hreg'].
    split; [exact Hv' | eapply registers_trans; eassumption].
Qed.

Lemma seeded_visitor_visited (s : TObliviousTreeStructureSearcher.t) (run : TRun)
    (foldCount : Z) (data : TDepthData) (static : TBestSplitProperties.t) :
  let v0 := seeded_visitor s run foldCount data static in
  visited_from v0 v0 /\ BestScore v0 = TBestSplitProperties.Score static
  /\ length (BestSplits v0) = Z.to_nat (DeviceCount run).
Proof.
  cbv zeta. unfold visited_from, seeded_visitor. simpl.
  rewrite length_replicate.
  split; [| split; reflexivity].
  split; [| split; [reflexivity | left; split; reflexivity]].
  unfold wf. simpl. rewrite !length_replicate. split; [reflexivity | lia].
Qed.

(** What the visitor of one depth of [Fit] ends with, over at most 2^31
    devices: a split exactly when its best score is strictly below the
    static score it was seeded with, which is exactly when some visited
    candidate scored strictly below the static score. *)
Lemma visit_of_seeded_visitor (s : TObliviousTreeStructureSearcher.t) (run : TRun)
    (foldCount : Z) (data : TDepthData) (fm fm1 : TBinarizedFeaturesManager.t)
    (static : TBestSplitProperties.t) (v' : TTreeCtrDataSetVisitor.t) :
  DeviceCount run <= 2 ^ 31 ->
  let v0 := seeded_visitor s run foldCount data static in
  VisitPermutations fm v0 (UsedPermutations data) = Ok (v', fm1) ->
  registers fm fm1
  /\ (HasSplit v' = true
      <-> Double.lt (BestScore v') (TBestSplitProperties.Score static) = true)
  /\ (Double.lt (BestScore v') (TBestSplitProperties.Score static) = true
      <-> exists permutation ds c,
            permutation ∈ UsedPermutations data /\ ds ∈ DataSets permutation
            /\ Candidate v0 ds = Ok c
            /\ Double.lt (TBestSplitProperties.Score c)
                         (TBestSplitProperties.Score static) = true)
  /\ (HasSplit v' = false -> v' = v0).
Proof.
  intros Hdevices v0 Hvisit.
  destruct (seeded_visitor_visited s run foldCount data static) as (Hv0 & Hscore & Hlen).
  cbv zeta in Hv0. fold v0 in Hv0, Hscore, Hlen.
  assert (Hfew : Z.of_nat (length (BestSplits v0)) <= 2 ^ 31) by lia.
  destruct (visited_from_VisitPermutations _ _ _ _ _ _ Hfew Hv0 Hvisit)
    as [(_ & _ & Hhas) Hreg].
  destruct (keeps_minimum_VisitPermutations _ _ _ _ _ Hvisit)
    as (_ & _ & Hall & Hbest).
  rewrite Hscore in Hhas, Hbest.
  assert (Hin : forall ds, ds ∈ mjoin (DataSets <$> UsedPermutations data)
                <-> exists permutation, permutation ∈ UsedPermutations data
                                        /\ ds ∈ DataSets permutation).
  { intros ds. rewrite list_elem_of_join. split.
    - intros (l & Hds & Hl). apply list_elem_of_fmap in Hl as (perm & -> & Hperm). eauto.
    - intros (perm & Hperm & Hds). exists (DataSets perm). split; [exact Hds |].
      apply list_elem_of_fmap. eauto. }
  split; [exact Hreg |]. split; [| split].
  - split.
    + intros Hyes. destruct Hhas as [[Hno _] | [_ Hbelow]]; [congruence | exact Hbelow].
    + intros Hbelow. destruct Hhas as [[_ ->] | [Hyes _]]; [| exact Hyes].
      rewrite Hscore, Double_lt_irrefl in Hbelow. discriminate.
  - split.
    + intros Hbelow.
      destruct Hbest as [Heq | (_ & ds & c & Hds & Hc & Heq)].
      * rewrite Heq, Double_lt_irrefl in Hbelow. discriminate.
      * apply Hin in Hds as (perm & Hperm & Hds).
        exists perm, ds, c. rewrite <- Heq. auto.
    + intros (perm & ds & c & Hperm & Hds & Hc & Hbelow).
      destruct (Hall ds) as (c' & Hc' & Hnot); [apply Hin; eauto |].
      rewrite Hc in Hc'. injection Hc' as <-.
      destruct Hbest as [Heq | (Hlt & _)]; [| exact Hlt].
      rewrite Heq in Hnot. congruence.
  - intros Hno. destruct Hhas as [[_ ->] | [Hyes _]]; [reflexivity | congruence].
Qed.

(** The tree-CTR part of one depth of [Fit], by the visit made. *)
Lemma TreeCtrSplit_eq (s : TObliviousTreeStructureSearcher.t) (run : TRun)
    (foldCount : Z) (data : TDepthData) (fm fm1 : TBinarizedFeaturesManager.t)
    (static : TBestSplitProperties.t) (v' : TTreeCtrDataSetVisitor.t) :
  IsTreeCtrsEnabled fm = true -> UsedPermutations data <> [] ->
  VisitPermutations fm (seeded_visitor s run foldCount data static)
    (UsedPermutations data) = Ok (v', fm1) ->
  TreeCtrSplit s run foldCount data fm static
  = if HasSplit v' then
      p ← CreateBestSplitProperties fm1 v';
      treeCtrSplitBits ← GetBestSplitBits v';
      mret (p.1, Some treeCtrSplitBits, p.2)
    else mret (static, None, fm1).
Proof.
  intros Hen Hperm Hvisit. unfold TreeCtrSplit.
  rewrite Hen, (bool_decide_eq_true_2 _ Hperm).
  fold (seeded_visitor s run foldCount data static). rewrite Hvisit. reflexivity.
Qed.

Lemma TreeCtrSplit_static (s : TObliviousTreeStructureSearcher.t) (run : TRun)
    (foldCount : Z) (data : TDepthData) (fm : TBinarizedFeaturesManager.t)
    (static : TBestSplitProperties.t) :
  IsTreeCtrsEnabled fm = false \/ UsedPermutations data = [] ->
  TreeCtrSplit s run foldCount data fm static = Ok (static, None, fm).
Proof.
  intros Hoff. unfold TreeCtrSplit.
  destruct (IsTreeCtrsEnabled fm); [| reflexivity].
  destruct Hoff as [Hoff | ->]; [discriminate | reflexivity].
Qed.

(** C4, for device ids below 2^31 ([BestDevice] is an [int]). The visitor
    [Fit] seeds with the static best score has no split. A call of [Accept]
    that returns replaces the tracked best score, bin, device and CTR only
    when the candidate's score is strictly below [BestScore]; otherwise the
    visitor is left as it was, so the compressed split and the borders are
    written for an improving candidate only; on a device below 2^31
    [HasSplit] holds after the call exactly when it held before or the
    candidate improved; [BestScore] stays or goes strictly down. In [Fit],
    over at most 2^31 devices, the visitor ends its visit with a split
    exactly when some visited candidate scored strictly below the static
    score; then its split supersedes the static one, and if not the static
    split stays. *)
Theorem visitor_supersedes_iff_strictly_better :
  (forall deviceCount foldCount treeConfig score scoreStdDev seed,
      let v0 := SetScoreStdDevAndSeed
                  (SetBestScore (Create deviceCount foldCount treeConfig) score)
                  scoreStdDev seed in
      HasSplit v0 = false /\ BestScore v0 = score)
  /\ (forall fm v ds n v' fm',
        Accept fm v ds n = Ok (v', fm') ->
        exists taskSeed,
          TaskSeed v ds = Ok taskSeed
          /\ let candidate := TTreeCtrDataSet.ScoreHelper ds (ScoreStdDev v) taskSeed in
             let dev := TTreeCtrDataSet.DeviceId ds in
             (Double.lt (TBestSplitProperties.Score candidate) (BestScore v) = false ->
              v' = v)
             /\ (Double.lt (TBestSplitProperties.Score candidate) (BestScore v) = true ->
                 BestScore v' = TBestSplitProperties.Score candidate
                 /\ BestBin v' = TBestSplitProperties.BinId candidate
                 /\ BestDevice v' = Int.int dev
                 /\ TTreeCtrDataSet.GetCtr ds (TBestSplitProperties.FeatureId candidate)
                    = Ok (BestCtr v')
                 /\ BestSplits v' !! Z.to_nat dev
                    = Some (TSingleBuffer.mk dev (CompressedSize (Int.ui32 n) 2)
                              (Some (TTreeCtrDataSet.BaseTensorHash ds,
                                     TBestSplitProperties.FeatureId candidate,
                                     TBestSplitProperties.BinId candidate)))
                 /\ HasSplit v' = bool_decide (0 <= Int.int dev)
                 /\ (dev < 2 ^ 31 -> BestDevice v' = dev /\ HasSplit v' = true))
             /\ (dev < 2 ^ 31 ->
                 (HasSplit v' = true
                  <-> HasSplit v = true
                      \/ Double.lt (TBestSplitProperties.Score candidate) (BestScore v)
                         = true))
             /\ (BestScore v' = BestScore v
                 \/ Double.lt (BestScore v') (BestScore v) = true)
             /\ length (BestSplits v') = length (BestSplits v))
  /\ (forall s run foldCount data fm static v' fm1,
        DeviceCount run <= 2 ^ 31 ->
        let v0 := seeded_visitor s run foldCount data static in
        VisitPermutations fm v0 (UsedPermutations data) = Ok (v', fm1) ->
        (HasSplit v' = true
         <-> exists permutation ds c,
               permutation ∈ UsedPermutations data /\ ds ∈ DataSets permutation
               /\ Candidate v0 ds = Ok c
               /\ Double.lt (TBestSplitProperties.Score c)
                            (TBestSplitProperties.Score static) = true)
        /\ (HasSplit v' = true
            <-> Double.lt (BestScore v') (TBestSplitProperties.Score static) = true)
        /\ (HasSplit v' = false -> v' = v0)
        /\ (IsTreeCtrsEnabled fm = true -> UsedPermutations data <> [] ->
            TreeCtrSplit s run foldCount data fm static
            = if HasSplit v' then
                p ← CreateBestSplitProperties fm1 v';
                treeCtrSplitBits ← GetBestSplitBits v';
                mret (p.1, Some treeCtrSplitBits, p.2)
              else mret (static, None, fm1)))
  /\ (forall s run foldCount data fm static,
        IsTreeCtrsEnabled fm = false \/ UsedPermutations data = [] ->
        TreeCtrSplit s run foldCount data fm static = Ok (static, None, fm)).
Proof.
  split; [intros; split; reflexivity |].
  split; [intros; eapply Accept_step; eassumption |].
  split; [| intros; now apply TreeCtrSplit_static].
  intros s run foldCount data fm static v' fm1 Hdevices v0 Hvisit.
  destruct (visit_of_seeded_visitor _ _ _ _ _ _ _ _ Hdevices Hvisit)
    as (_ & Hhas & Hbelow & Hno).
  split; [now rewrite Hhas, Hbelow |]. split; [exact Hhas |]. split; [exact Hno |].
  intros Hen Hperm. now apply TreeCtrSplit_eq.
Qed.

End VisitorSupersedes.

(** ** [TObliviousTreeStructureSearcher]: the loop of [Fit] *)

Section FitLoop.

Import TObliviousTreeStructureSearcher.

Context `{Externals}.

(** One iteration, by cases on the winning split. *)
Lemma Fit_iteration_cases (s : t) (run : TRun) (foldCount depth : Z) (st : TFitState)
    (p : TBestSplitProperties.t) (bits : option TSingleBuffer.t)
    (fm : TBinarizedFeaturesManager.t) :
  WinningSplit s run foldCount depth (Manager st) = Ok (p, bits, fm) ->
  Fit_iteration s run foldCount depth st
  = if bool_decide (TBestSplitProperties.FeatureId p = NoFeature)
    then Exception (NaN_message p)
    else
      _ ← SplitBorder fm (BinarySplitOf p);
      if TObliviousTreeStructure.HasSplit (Result st) (BinarySplitOf p)
      then Ok (Break, stopped depth st p fm)
      else match bits with
           | Some b => if bool_decide (TSingleBuffer.Size b = 0) then Exception []
                       else Ok (Next, applied s depth st p bits fm)
           | None => Ok (Next, applied s depth st p bits fm)
           end.
Proof.
  intros Hw. unfold Fit_iteration. rewrite Hw. simpl. unfold_result.
  destruct (decide (TBestSplitProperties.FeatureId p = NoFeature)) as [Hs | Hs].
  - rewrite bool_decide_false by tauto. now rewrite bool_decide_true.
  - rewrite bool_decide_true by exact Hs. rewrite (bool_decide_false _ Hs).
    destruct (SplitBorder fm (BinarySplitOf p)); [| reflexivity | reflexivity].
    destruct (TObliviousTreeStructure.HasSplit (Result st) (BinarySplitOf p));
      [reflexivity |].
    destruct bits as [b |]; [| reflexivity].
    destruct (decide (TSingleBuffer.Size b = 0)) as [Hz | Hz].
    + rewrite bool_decide_false by tauto. now rewrite bool_decide_true.
    + rewrite bool_decide_true by exact Hz. now rewrite (bool_decide_false _ Hz).
Qed.

(** An iteration that returns has logged its depth and its split, and
    either stopped on a split of the tree or appended a new one. *)
Lemma Fit_iteration_Ok (s : t) (run : TRun) (foldCount depth : Z) (st st' : TFitState)
    (c : TLoopControl) :
  Fit_iteration s run foldCount depth st = Ok (c, st') ->
  exists line,
    Log st' = Log st ++ [line] /\ LogDepth line = depth
    /\ match c with
       | Break =>
           Result st' = Result st /\ UpdaterSplits st' = UpdaterSplits st
           /\ LogSplit line ∈ TObliviousTreeStructure.Splits (Result st)
       | Next =>
           TObliviousTreeStructure.Splits (Result st')
           = TObliviousTreeStructure.Splits (Result st) ++ [LogSplit line]
           /\ (LogSplit line ∉ TObliviousTreeStructure.Splits (Result st))
           /\ exists bits, UpdaterSplits st' = UpdaterSplits st ++ [(LogSplit line, bits)]
       end.
Proof.
  intros Hi.
  destruct (WinningSplit s run foldCount depth (Manager st)) as [[[p bits] fm] | |] eqn:Hw;
    try (unfold Fit_iteration in Hi; rewrite Hw in Hi; discriminate).
  rewrite (Fit_iteration_cases _ _ _ _ _ _ _ _ Hw) in Hi.
  destruct (bool_decide (TBestSplitProperties.FeatureId p = NoFeature)); [discriminate |].
  destruct (SplitBorder fm (BinarySplitOf p)); simpl in Hi; try discriminate.
  unfold TObliviousTreeStructure.HasSplit in Hi.
  destruct (bool_decide (BinarySplitOf p ∈ TObliviousTreeStructure.Splits (Result st)))
    eqn:Hdup.
  - apply bool_decide_eq_true in Hdup. injection Hi as <- <-.
    eexists. split; [reflexivity |]. simpl. auto.
  - apply bool_decide_eq_false in Hdup.
    assert (Hnext : Ok (Next, applied s depth st p bits fm) = Ok (c, st') ->
                    exists line, Log st' = Log st ++ [line] /\ LogDepth line = depth
                      /\ match c with
                         | Break =>
                             Result st' = Result st /\ UpdaterSplits st' = UpdaterSplits st
                             /\ LogSplit line ∈ TObliviousTreeStructure.Splits (Result st)
                         | Next =>
                             TObliviousTreeStructure.Splits (Result st')
                             = TObliviousTreeStructure.Splits (Result st) ++ [LogSplit line]
                             /\ (LogSplit line ∉ TObliviousTreeStructure.Splits (Result st))
                             /\ exists bits, UpdaterSplits st'
                                             = UpdaterSplits st ++ [(LogSplit line, bits)]
                         end).
    { intros [= <- <-]. eexists. split; [reflexivity |]. simpl. eauto. }
    destruct bits as [b |]; [| now apply Hnext].
    destruct (bool_decide (TSingleBuffer.Size b = 0)); [discriminate | now apply Hnext].
Qed.

Lemma Fit_loop_trace (s : t) (run : TRun) (foldCount : Z) (n d : nat)
    (st st' : TFitState) :
  LogDepth <$> Log st = seqZ 0 (Z.of_nat d) ->
  LogSplit <$> Log st = TObliviousTreeStructure.Splits (Result st) ->
  NoDup (TObliviousTreeStructure.Splits (Result st)) ->
  Fit_loop s run foldCount n (Z.of_nat d) st = Ok st' ->
  loop_trace (TObliviousTreeStructure.Splits (Result st')) (Log st') (d + n).
Proof.
  revert d st. induction n as [|n IH]; intros d st Hdepths Hsplits Hnd Hloop.
  - simpl in Hloop. injection Hloop as <-.
    assert (Hlen : length (Log st) = d).
    { apply (f_equal length) in Hdepths.
      rewrite length_fmap, length_seqZ in Hdepths. lia. }
    unfold loop_trace. rewrite Hlen. split; [exact Hdepths |]. split; [exact Hnd |].
    left. split; [exact Hsplits |].
    rewrite <- Hsplits, length_fmap. lia.
  - assert (Hlen : length (Log st) = d).
    { apply (f_equal length) in Hdepths.
      rewrite length_fmap, length_seqZ in Hdepths. lia. }
    simpl in Hloop.
    destruct (Fit_iteration s run foldCount (Z.of_nat d) st) as [[c st1] | |] eqn:Hi;
      simpl in Hloop; try discriminate.
    destruct (Fit_iteration_Ok _ _ _ _ _ _ _ Hi) as (line & Hlog & Hld & Hc).
    assert (Hdepths1 : LogDepth <$> Log st1 = seqZ 0 (Z.of_nat (S d))).
    { rewrite Hlog, fmap_app, Hdepths, seqZ_S. simpl. now rewrite Hld. }
    destruct c.
    + (* the split was appended *)
      destruct Hc as (Htree & Hnew & _).
      replace (Z.of_nat d + 1) with (Z.of_nat (S d)) in Hloop by lia.
      replace (d + S n)%nat with (S d + n)%nat by lia.
      apply (IH (S d) st1); [exact Hdepths1 | | | exact Hloop].
      * rewrite Hlog, fmap_app, Hsplits, Htree. reflexivity.
      * rewrite Htree. apply NoDup_app. split; [exact Hnd |]. split.
        -- intros x Hx Hx'. apply list_elem_of_singleton in Hx'. now subst.
        -- apply NoDup_singleton.
    + (* the loop stops *)
      destruct Hc as (Hres & _ & Hdup). injection Hloop as <-.
      unfold loop_trace. rewrite Hres.
      split; [| split; [exact Hnd |]].
      * rewrite Hdepths1, Hlog, length_app. simpl. do 2 f_equal. lia.
      * right. exists (Log st), line. split; [exact Hlog |]. split; [exact Hsplits |].
        split; [exact Hdup |]. rewrite <- Hsplits, length_fmap. lia.
Qed.

(** What a run of [Fit] that returns has gone through. *)
Lemma Fit_Ok (s s' : t) (run : TRun) (fm : TBinarizedFeaturesManager.t)
    (st : TFitState) :
  Fit s run fm = Ok (s', st) ->
  TreeConfig s' = TreeConfig s
  /\ loop_trace (TObliviousTreeStructure.Splits (Result st)) (Log st)
       (Z.to_nat (TObliviousTreeLearnerOptions.GetMaxDepth (TreeConfig s))).
Proof.
  unfold Fit. intros Hf.
  destruct (CB_ENSURE _ _) as [[] | |]; simpl in Hf; try discriminate.
  destruct (BuildTreeSearchTarget s run) as [s1 | |] eqn:Hb; simpl in Hf;
    try discriminate.
  assert (Hcfg : TreeConfig s1 = TreeConfig s).
  { unfold BuildTreeSearchTarget in Hb.
    destruct (bool_decide (length (FoldBasedTasks s) <> 0%nat)).
    - destruct (CB_ENSURE _ _) as [[] | |]; simpl in Hb; try discriminate.
      destruct (to_bool (RandomStrength s)); now injection Hb as <-.
    - destruct (CB_ENSURE _ _) as [[] | |]; simpl in Hb; try discriminate.
      now injection Hb as <-. }
  destruct (CreateSubsets s1 _) as [subsets | |]; simpl in Hf; try discriminate.
  destruct (Fit_loop s1 run _ _ 0 _) as [st1 | |] eqn:Hloop; simpl in Hf;
    try discriminate.
  injection Hf as <- <-. split; [exact Hcfg |].
  rewrite <- Hcfg.
  pose proof (Fit_loop_trace s1 run (TOptimizationSubsets.FoldCount subsets)
                (Z.to_nat (TObliviousTreeLearnerOptions.GetMaxDepth (TreeConfig s1))) 0
                {| Result := {| TObliviousTreeStructure.Splits := [] |};
                   Manager := fm; UpdaterSplits := []; SubsetsSplitCalls := 0;
                   Log := [] |} st1 eq_refl eq_refl (NoDup_nil_2 (A:=TBinarySplit.t))
                Hloop) as Htrace.
  exact Htrace.
Qed.

End FitLoop.

Section FitProperties.

Import TObliviousTreeStructureSearcher.

Context `{Externals}.

(** In a list without repetition an element is not among the elements
    before it. *)
Lemma NoDup_not_in_take {A : Type} (l : list A) (d : nat) (x : A) :
  NoDup l -> l !! d = Some x -> x ∉ take d l.
Proof.
  intros Hnd Hd Hin. apply elem_of_take in Hin as (i & Hi & Hlt).
  pose proof (NoDup_lookup l i d x Hnd Hi Hd). lia.
Qed.

(** The read of the border the log line prints: none for a categorical
    feature; for another feature it is defined exactly when the bin is an
    index of the borders of the feature. *)
Lemma SplitBorder_cases (fm : TBinarizedFeaturesManager.t) (b : TBinarySplit.t) :
  (IsCat (TBinarySplit.FeatureId b) = true -> SplitBorder fm b = Ok None)
  /\ (IsCat (TBinarySplit.FeatureId b) = false ->
      forall border,
        TBinarizedFeaturesManager.BordersOf fm (TBinarySplit.FeatureId b)
          !! Z.to_nat (TBinarySplit.BinIdx b) = Some border ->
        0 <= TBinarySplit.BinIdx b -> SplitBorder fm b = Ok (Some border))
  /\ (IsCat (TBinarySplit.FeatureId b) = false ->
      ~ 0 <= TBinarySplit.BinIdx b
          < Z.of_nat (length (TBinarizedFeaturesManager.BordersOf
                                fm (TBinarySplit.FeatureId b))) ->
      SplitBorder fm b = Undefined).
Proof.
  unfold SplitBorder, at_. split; [intros -> | split; intros ->].
  - reflexivity.
  - intros border Hb H0. rewrite bool_decide_true by exact H0. now rewrite Hb.
  - intros Hout.
    destruct (bool_decide (0 <= TBinarySplit.BinIdx b)) eqn:H0; [| reflexivity].
    apply bool_decide_eq_true in H0.
    destruct (_ !! _) eqn:Hb; [| reflexivity].
    apply lookup_lt_Some in Hb. lia.
Qed.

(** An iteration whose winning split the tree has already stops the loop,
    whatever number of depths is left, with the tree as it was. *)
Lemma Fit_loop_stops (s : t) (run : TRun) (foldCount : Z) (n : nat) (depth : Z)
    (st : TFitState) (p : TBestSplitProperties.t) (bits : option TSingleBuffer.t)
    (fm : TBinarizedFeaturesManager.t) :
  WinningSplit s run foldCount depth (Manager st) = Ok (p, bits, fm) ->
  TBestSplitProperties.FeatureId p <> NoFeature ->
  TObliviousTreeStructure.HasSplit (Result st) (BinarySplitOf p) = true ->
  Fit_loop s run foldCount (S n) depth st
  = (_ ← SplitBorder fm (BinarySplitOf p); Ok (stopped depth st p fm)).
Proof.
  intros Hw Hs Hdup. simpl.
  rewrite (Fit_iteration_cases _ _ _ _ _ _ _ _ Hw).
  rewrite bool_decide_false by exact Hs. rewrite Hdup.
  now destruct (SplitBorder fm (BinarySplitOf p)).
Qed.

(** C2. An iteration of [Fit] whose chosen split is already in the tree
    stops the loop without appending it, whatever number of depths is left:
    past the read of the border its log line prints, the loop returns the
    state of that iteration, with the tree as it was, and it returns no
    other state. In a run of [Fit] that returns, the iterations that ran are the depths
    0, 1, ... of the log, at most [maxDepth] of them, and the tree has at
    most [maxDepth] splits. If the split chosen at depth [d] is among the
    splits appended at the depths before [d], the loop stopped there: the
    tree has exactly [d] splits, [d] is below [maxDepth], and the iteration
    of depth [d] is the last one that ran. A split chosen at depth [d] that
    is not among them was appended as the split of index [d]. *)
Theorem early_stop_on_duplicate_split :
  (forall s run foldCount n depth st p bits fm,
      WinningSplit s run foldCount depth (Manager st) = Ok (p, bits, fm) ->
      TBestSplitProperties.FeatureId p <> NoFeature ->
      TObliviousTreeStructure.HasSplit (Result st) (BinarySplitOf p) = true ->
      Fit_loop s run foldCount (S n) depth st
      = (_ ← SplitBorder fm (BinarySplitOf p); Ok (stopped depth st p fm))
      /\ (forall border,
            SplitBorder fm (BinarySplitOf p) = Ok border ->
            Fit_loop s run foldCount (S n) depth st = Ok (stopped depth st p fm))
      /\ (forall st',
            Fit_loop s run foldCount (S n) depth st = Ok st' ->
            st' = stopped depth st p fm)
      /\ Result (stopped depth st p fm) = Result st)
  /\ (forall s s' run fm st,
        Fit s run fm = Ok (s', st) ->
        let tree := TObliviousTreeStructure.Splits (Result st) in
        let maxDepth :=
          Z.to_nat (TObliviousTreeLearnerOptions.GetMaxDepth (TreeConfig s)) in
        (length tree <= maxDepth)%nat
        /\ (length (Log st) <= maxDepth)%nat
        /\ LogDepth <$> Log st = seqZ 0 (Z.of_nat (length (Log st)))
        /\ (forall (d : nat) (line : TLogLine),
              Log st !! d = Some line ->
              LogDepth line = Z.of_nat d
              /\ (LogSplit line ∈ take d tree ->
                  length tree = d /\ (d < maxDepth)%nat /\ length (Log st) = S d)
              /\ (LogSplit line ∉ take d tree -> tree !! d = Some (LogSplit line)))).
Proof.
  split.
  { intros s run foldCount n depth st p bits fm Hw Hs Hdup.
    pose proof (Fit_loop_stops _ _ _ n _ _ _ _ _ Hw Hs Hdup) as Hloop.
    split; [exact Hloop |]. rewrite Hloop.
    split; [intros border ->; reflexivity |]. split; [| reflexivity].
    intros st'. destruct (SplitBorder fm (BinarySplitOf p)); simpl; congruence. }
  intros s s' run fm st Hf tree maxDepth.
  destruct (Fit_Ok _ _ _ _ _ Hf) as [_ (Hdepths & Hnd & Hcases)].
  fold tree in Hnd, Hcases. fold maxDepth in Hcases.
  assert (Hdepth : forall d line, Log st !! d = Some line -> LogDepth line = Z.of_nat d).
  { intros d line Hl.
    assert (Hd : (LogDepth <$> Log st) !! d = Some (LogDepth line))
      by now rewrite list_lookup_fmap, Hl.
    rewrite Hdepths in Hd. apply lookup_seqZ in Hd. lia. }
  destruct Hcases as [[Hsplits Hlen] | (log0 & last & Hlog & Hsplits & Hdup & Hlen)].
  - (* every iteration appended its split *)
    assert (Hlog : length (Log st) = length tree)
      by now rewrite <- Hsplits, length_fmap.
    split; [lia |]. split; [lia |]. split; [exact Hdepths |].
    intros d line Hl. split; [now apply Hdepth |].
    assert (Hd : tree !! d = Some (LogSplit line))
      by now rewrite <- Hsplits, list_lookup_fmap, Hl.
    split; [| intros _; exact Hd].
    intros Hin. exfalso. exact (NoDup_not_in_take tree d _ Hnd Hd Hin).
  - (* the last iteration stopped the loop *)
    assert (Hlen0 : length log0 = length tree)
      by now rewrite <- Hsplits, length_fmap.
    assert (Hlength : length (Log st) = S (length tree))
      by (rewrite Hlog, length_app; simpl; lia).
    split; [lia |]. split; [lia |]. split; [exact Hdepths |].
    intros d line Hl. split; [now apply Hdepth |].
    rewrite Hlog in Hl.
    destruct (decide (d < length log0)%nat) as [Hlt | Hge].
    + rewrite lookup_app_l in Hl by exact Hlt.
      assert (Hd : tree !! d = Some (LogSplit line))
        by now rewrite <- Hsplits, list_lookup_fmap, Hl.
      split; [| intros _; exact Hd].
      intros Hin. exfalso. exact (NoDup_not_in_take tree d _ Hnd Hd Hin).
    + assert (Hd : d = length log0).
      { apply lookup_lt_Some in Hl. rewrite length_app in Hl. simpl in Hl. lia. }
      subst d. rewrite list_lookup_middle in Hl by reflexivity.
      injection Hl as <-.
      split; [intros _; lia |].
      intros Hnin. exfalso. apply Hnin.
      rewrite take_ge by lia. exact Hdup.
Qed.

(** C3, as the code has it. When the winning split of a depth carries the
    feature id -1, the iteration throws the exception whose message is
    "Error: something went wrong, best split is NaN with score" followed by
    the score, which contains "best split is NaN", and [Fit]'s loop throws
    it with no split applied. When the feature id is another one the check
    passes and the line of the split is logged: for a feature that is not
    categorical it prints the border of the bin, read unchecked, so with a
    bin that is no index of the borders the iteration has no defined
    result. Past that read the split is applied (handed to the Tree Updater
    and appended to the tree) unless the tree has it already, in which case
    the loop stops with the tree as it was; a tree-CTR split with no bits
    throws at the check of the bits. *)
Theorem sentinel_split_is_fatal (s : t) (run : TRun) (foldCount depth : Z)
    (st : TFitState) (p : TBestSplitProperties.t) (bits : option TSingleBuffer.t)
    (fm : TBinarizedFeaturesManager.t) :
  WinningSplit s run foldCount depth (Manager st) = Ok (p, bits, fm) ->
  (TBestSplitProperties.FeatureId p = NoFeature ->
     Fit_iteration s run foldCount depth st = Exception (NaN_message p)
     /\ (forall n, Fit_loop s run foldCount (S n) depth st = Exception (NaN_message p))
     /\ exists text rest before after,
          NaN_message p = Str text :: rest
          /\ text = (before ++ "best split is NaN" ++ after)%string)
  /\ (TBestSplitProperties.FeatureId p <> NoFeature ->
      (IsCat (TBestSplitProperties.FeatureId p) = true ->
         SplitBorder fm (BinarySplitOf p) = Ok None)
      /\ (IsCat (TBestSplitProperties.FeatureId p) = false ->
          forall border,
            TBinarizedFeaturesManager.BordersOf fm (TBestSplitProperties.FeatureId p)
              !! Z.to_nat (TBestSplitProperties.BinId p) = Some border ->
            0 <= TBestSplitProperties.BinId p ->
            SplitBorder fm (BinarySplitOf p) = Ok (Some border))
      /\ (IsCat (TBestSplitProperties.FeatureId p) = false ->
          ~ 0 <= TBestSplitProperties.BinId p
              < Z.of_nat (length (TBinarizedFeaturesManager.BordersOf
                                    fm (TBestSplitProperties.FeatureId p))) ->
          Fit_iteration s run foldCount depth st = Undefined)
      /\ (forall border,
            SplitBorder fm (BinarySplitOf p) = Ok border ->
            (TObliviousTreeStructure.HasSplit (Result st) (BinarySplitOf p) = true ->
               Fit_iteration s run foldCount depth st = Ok (Break, stopped depth st p fm)
               /\ Result (stopped depth st p fm) = Result st
               /\ UpdaterSplits (stopped depth st p fm) = UpdaterSplits st)
            /\ (TObliviousTreeStructure.HasSplit (Result st) (BinarySplitOf p) = false ->
                (forall b, bits = Some b -> TSingleBuffer.Size b <> 0) ->
                Fit_iteration s run foldCount depth st
                = Ok (Next, applied s depth st p bits fm)
                /\ TObliviousTreeStructure.Splits (Result (applied s depth st p bits fm))
                   = TObliviousTreeStructure.Splits (Result st) ++ [BinarySplitOf p]
                /\ UpdaterSplits (applied s depth st p bits fm)
                   = UpdaterSplits st ++ [(BinarySplitOf p, bits)])
            /\ (TObliviousTreeStructure.HasSplit (Result st) (BinarySplitOf p) = false ->
                forall b, bits = Some b -> TSingleBuffer.Size b = 0 ->
                Fit_iteration s run foldCount depth st = Exception []))).
Proof.
  intros Hw. pose proof (Fit_iteration_cases _ _ _ _ _ _ _ _ Hw) as Hi.
  split.
  - intros Hs. rewrite bool_decide_true in Hi by exact Hs.
    split; [exact Hi |]. split.
    + intros n. simpl. now rewrite Hi.
    + exists "Error: something went wrong, best split is NaN with score"%string,
        [Flt (TBestSplitProperties.Score p)],
        "Error: something went wrong, "%string, " with score"%string.
      split; reflexivity.
  - intros Hs. rewrite bool_decide_false in Hi by exact Hs.
    destruct (SplitBorder_cases fm (BinarySplitOf p)) as (Hcat & Hin & Hout).
    simpl in Hcat, Hin, Hout.
    split; [exact Hcat |]. split; [exact Hin |]. split.
    { intros Hc Hbin. now rewrite (Hout Hc Hbin) in Hi. }
    intros border Hread. rewrite Hread in Hi. simpl in Hi.
    split; [| split].
    + intros Hdup. rewrite Hdup in Hi. auto.
    + intros Hdup Hbits. rewrite Hdup in Hi.
      split; [| split; reflexivity].
      destruct bits as [b |]; [| exact Hi].
      now rewrite bool_decide_false in Hi by (apply (Hbits b); reflexivity).
    + intros Hdup b -> Hz. rewrite Hdup in Hi.
      now rewrite bool_decide_true in Hi by exact Hz.
Qed.

End FitProperties.

(** ** [TObliviousTreeStructureSearcher]: subsets and task modes *)

Section SearcherSetup.

Import TObliviousTreeStructureSearcher.

Lemma WriteFoldBasedInitialBins_loop_length (tasks : list TOptimizationTask)
    (currentBin cursor : Z) :
  length (WriteFoldBasedInitialBins_loop tasks currentBin cursor)
  = (2 * length tasks)%nat.
Proof.
  revert currentBin cursor. induction tasks as [|task rest IH]; intros b c; simpl.
  - reflexivity.
  - rewrite IH. lia.
Qed.

Lemma shift_one_Ok (n : Z) : 0 <= n < 32 -> shift_one n = Ok (2 ^ n).
Proof.
  intros Hn. unfold shift_one. rewrite bool_decide_true by lia.
  rewrite Z.shiftl_1_l. unfold Int.ui32. f_equal.
  apply Z.mod_small. split; [apply Z.pow_nonneg; lia |].
  apply Z.pow_lt_mono_r; lia.
Qed.

Context `{Externals}.

Lemma CreateSubsets_eq (s : t) (maxDepth : Z) :
  CreateSubsets s maxDepth
  = (maxPartCount ← shift_one (Int.ui32 (IntLog2 (InitialFoldCount s) + maxDepth));
     mret {| TOptimizationSubsets.BinsSize := GetTotalIndicesSize s;
             TOptimizationSubsets.CurrentDepth := 0;
             TOptimizationSubsets.FoldCount := InitialFoldCount s;
             TOptimizationSubsets.FoldBits := IntLog2 (InitialFoldCount s);
             TOptimizationSubsets.PartitionsSize := maxPartCount |}).
Proof.
  unfold CreateSubsets, InitialFoldCount, WriteSingleTaskInitialBins,
    WriteFoldBasedInitialBins.
  destruct (SingleTaskTarget s) as [target |] eqn:Ht.
  - rewrite bool_decide_false by discriminate.
    unfold_result. rewrite bool_decide_true by discriminate. reflexivity.
  - rewrite bool_decide_true by reflexivity. unfold_result.
    rewrite WriteFoldBasedInitialBins_loop_length.
    now replace (Z.of_nat (2 * length (FoldBasedTasks s)))
      with (2 * Z.of_nat (length (FoldBasedTasks s))) by lia.
Qed.

(** A call of [CreateSubsets] that returns: the shift is below 32, and the
    table has a power of two of entries. *)
Lemma CreateSubsets_Ok (s : t) (maxDepth : Z) (subsets : TOptimizationSubsets.t) :
  CreateSubsets s maxDepth = Ok subsets ->
  TOptimizationSubsets.FoldCount subsets = InitialFoldCount s
  /\ TOptimizationSubsets.FoldBits subsets = IntLog2 (InitialFoldCount s)
  /\ 0 <= Int.ui32 (IntLog2 (InitialFoldCount s) + maxDepth) < 32
  /\ TOptimizationSubsets.PartitionsSize subsets
     = 2 ^ Int.ui32 (IntLog2 (InitialFoldCount s) + maxDepth).
Proof.
  intros Hc. rewrite CreateSubsets_eq in Hc.
  assert (Hrange : 0 <= Int.ui32 (IntLog2 (InitialFoldCount s) + maxDepth) < 2 ^ 32)
    by (apply Z.mod_pos_bound; lia).
  destruct (decide (Int.ui32 (IntLog2 (InitialFoldCount s) + maxDepth) < 32))
    as [Hlt | Hge].
  - rewrite shift_one_Ok in Hc by lia. simpl in Hc. injection Hc as <-. simpl.
    repeat split; lia.
  - unfold shift_one in Hc. rewrite bool_decide_false in Hc by exact Hge. discriminate.
Qed.

(** C1, as the code has it. The fold count is the number of initial
    partitions: 1 in single-task mode, 2 per fold-based task otherwise. The
    Partitions table has [1 << (FoldBits + maxDepth)] entries, where
    [FoldBits] is [IntLog2] of the fold count: a power of two, which is the
    fold count times [2^maxDepth] exactly when the fold count is
    [2^FoldBits]. *)
Theorem CreateSubsets_partitions (s : t) (maxDepth : Z) :
  let foldCount := InitialFoldCount s in
  let foldBits := IntLog2 foldCount in
  (forall subsets,
      CreateSubsets s maxDepth = Ok subsets ->
      TOptimizationSubsets.FoldCount subsets = foldCount
      /\ TOptimizationSubsets.FoldBits subsets = foldBits
      /\ 0 <= Int.ui32 (foldBits + maxDepth) < 32
      /\ TOptimizationSubsets.PartitionsSize subsets
         = 2 ^ Int.ui32 (foldBits + maxDepth))
  /\ (0 <= foldBits -> 0 <= maxDepth -> foldBits + maxDepth < 32 ->
      exists subsets,
        CreateSubsets s maxDepth = Ok subsets
        /\ TOptimizationSubsets.FoldCount subsets = foldCount
        /\ TOptimizationSubsets.PartitionsSize subsets = 2 ^ (foldBits + maxDepth)
        /\ (TOptimizationSubsets.PartitionsSize subsets = foldCount * 2 ^ maxDepth
            <-> foldCount = 2 ^ foldBits)).
Proof.
  intros foldCount foldBits. split; [apply CreateSubsets_Ok |].
  intros Hbits Hdepth Hsum.
  assert (Hui : Int.ui32 (foldBits + maxDepth) = foldBits + maxDepth)
    by (apply Z.mod_small; lia).
  eexists. split.
  - rewrite CreateSubsets_eq. fold foldCount foldBits.
    rewrite Hui, shift_one_Ok by lia. reflexivity.
  - simpl. split; [reflexivity |]. split; [reflexivity |].
    rewrite Z.pow_add_r by lia.
    assert (Hpos : 0 < 2 ^ maxDepth) by (apply Z.pow_pos_nonneg; lia).
    split; intros Heq; [| now rewrite Heq].
    symmetry. apply (Z.mul_cancel_r _ _ (2 ^ maxDepth)); [lia | now symmetry].
Qed.

Lemma calls_app (s : t) (cs cs' : list TCall) :
  calls s (cs ++ cs') = (s' ← calls s cs; calls s' cs').
Proof.
  revert s. induction cs as [|c rest IH]; intros s; simpl.
  - reflexivity.
  - destruct (call s c) as [s1 | |]; simpl; [apply IH | reflexivity | reflexivity].
Qed.

(** A call that returns keeps a single-task target and keeps the
    fold-based tasks there are. *)
Lemma call_Ok (s s' : t) (c : TCall) :
  call s c = Ok s' ->
  SingleTaskTarget s = None
  /\ match c with
     | CallAddTask learnTarget testTarget =>
         SingleTaskTarget s' = None
         /\ FoldBasedTasks s'
            = FoldBasedTasks s
              ++ [{| LearnTarget := learnTarget; TestTarget := testTarget |}]
     | CallSetTarget target =>
         FoldBasedTasks s = [] /\ FoldBasedTasks s' = []
         /\ SingleTaskTarget s' = Some target
     end.
Proof.
  destruct c as [learnTarget testTarget | target]; simpl;
    unfold AddTask, SetTarget; unfold_result; intros Hc.
  - destruct (bool_decide (SingleTaskTarget s = None)) eqn:Hs; [| discriminate].
    apply bool_decide_eq_true in Hs. injection Hc as <-. simpl. auto.
  - destruct (bool_decide (SingleTaskTarget s = None)) eqn:Hs; [| discriminate].
    destruct (bool_decide (length (FoldBasedTasks s) = 0%nat)) eqn:Hf; [| discriminate].
    apply bool_decide_eq_true in Hs, Hf. apply length_zero_iff_nil in Hf.
    injection Hc as <-. simpl. auto.
Qed.

(** The state after a sequence of calls that all returned, from a new
    searcher: with a [SetTarget] among them the target is set and there is
    no fold-based task; with an [AddTask] among them there are fold-based
    tasks and no target. *)
Lemma calls_Ok (cs : list TCall) (s s' : t) :
  calls s cs = Ok s' ->
  (SingleTaskTarget s <> None -> cs = [])
  /\ (FoldBasedTasks s <> [] -> FoldBasedTasks s' <> [])
  /\ ((exists target, CallSetTarget target ∈ cs) -> SingleTaskTarget s' <> None)
  /\ ((exists learnTarget testTarget, CallAddTask learnTarget testTarget ∈ cs) ->
      FoldBasedTasks s' <> []).
Proof.
  revert s. induction cs as [|c rest IH]; intros s Hcs; simpl in Hcs.
  - injection Hcs as <-. split; [trivial |]. split; [trivial |].
    split; intros Hex; exfalso.
    + destruct Hex as (target & Hin). inversion Hin.
    + destruct Hex as (l & t' & Hin). inversion Hin.
  - destruct (call s c) as [s1 | |] eqn:Hc; simpl in Hcs; try discriminate.
    destruct (call_Ok _ _ _ Hc) as [Hnone Hcall].
    destruct (IH _ Hcs) as (Hset & Htasks & Hhas_set & Hhas_add).
    split; [congruence |].
    assert (Hkeep : FoldBasedTasks s <> [] -> FoldBasedTasks s1 <> []).
    { destruct c; [destruct Hcall as [_ ->] | destruct Hcall as (-> & _)].
      - intros _. now destruct (FoldBasedTasks s).
      - congruence. }
    split; [auto |]. split.
    + intros (target & Hin). apply elem_of_cons in Hin as [Heq | Hin].
      * subst c. destruct Hcall as (_ & _ & Hs1).
        assert (Hrest : rest = []) by (apply Hset; congruence).
        subst rest. simpl in Hcs. injection Hcs as <-. congruence.
      * apply Hhas_set. eauto.
    + intros (l & t' & Hin). apply elem_of_cons in Hin as [Heq | Hin].
      * subst c. destruct Hcall as [_ Hs1]. apply Htasks. rewrite Hs1.
        now destruct (FoldBasedTasks s).
      * apply Hhas_add. eauto.
Qed.

(** Calls that return never leave a target beside fold-based tasks. *)
Lemma calls_exclusive (cs : list TCall) (s s' : t) :
  calls s cs = Ok s' ->
  SingleTaskTarget s = None \/ FoldBasedTasks s = [] ->
  SingleTaskTarget s' = None \/ FoldBasedTasks s' = [].
Proof.
  revert s. induction cs as [|c rest IH]; intros s Hcs Hs; simpl in Hcs.
  - now injection Hcs as <-.
  - destruct (call s c) as [s1 | |] eqn:Hc; simpl in Hcs; try discriminate.
    apply (IH s1 Hcs).
    destruct (call_Ok _ _ _ Hc) as [_ Hcall].
    destruct c; [left; tauto | right; tauto].
Qed.

End SearcherSetup.

Section TaskModes.

Import TObliviousTreeStructureSearcher.

Lemma calls_AddTasks (tasks : list TOptimizationTask) (s : t) :
  SingleTaskTarget s = None ->
  calls s (AddTasks tasks)
  = Ok {| TreeConfig := TreeConfig s; RandomStrength := RandomStrength s;
          ScoreStdDev := ScoreStdDev s;
          FoldBasedTasks := FoldBasedTasks s ++ tasks;
          SingleTaskTarget := SingleTaskTarget s |}.
Proof.
  revert s. induction tasks as [|task rest IH]; intros s Hnone; simpl.
  - rewrite app_nil_r. now destruct s.
  - unfold AddTask. unfold_result. rewrite bool_decide_true by exact Hnone.
    rewrite IH by exact Hnone. simpl. rewrite <- app_assoc. now destruct task.
Qed.

(** C9. On a searcher configured by calls that all returned: once
    [SetTarget] has been called, [AddTask] and [SetTarget] throw; once
    [AddTask] has been called, [SetTarget] throws; with no call at all,
    [Fit] throws at its first check. A sequence of [AddTask] calls alone is
    accepted and leaves the tasks in order; one [SetTarget] call alone is
    accepted and leaves the target. *)
Theorem task_modes_do_not_mix (options : TObliviousTreeLearnerOptions.t) :
  (forall cs s,
      calls (Create options) cs = Ok s ->
      ((exists target, CallSetTarget target ∈ cs) ->
         (forall learnTarget testTarget,
             AddTask s learnTarget testTarget
             = Exception [Str "We can't mix learn/test splits and full estimation"])
         /\ (forall target, SetTarget s target = Exception [Str "Target already was set"]))
      /\ ((exists learnTarget testTarget, CallAddTask learnTarget testTarget ∈ cs) ->
          forall target,
            SetTarget s target
            = Exception [Str "Can't mix foldBased and singleTask targets"])
      /\ (cs = [] ->
          forall (E : Externals) run fm, Fit s run fm = Exception []))
  /\ (forall tasks,
        calls (Create options) (AddTasks tasks)
        = Ok {| TreeConfig := options; RandomStrength := S754_zero false;
                ScoreStdDev := S754_zero false;
                FoldBasedTasks := tasks; SingleTaskTarget := None |})
  /\ (forall target,
        calls (Create options) [CallSetTarget target]
        = Ok {| TreeConfig := options; RandomStrength := S754_zero false;
                ScoreStdDev := S754_zero false;
                FoldBasedTasks := []; SingleTaskTarget := Some target |}).
Proof.
  split; [| split].
  - intros cs s Hcs.
    destruct (calls_Ok _ _ _ Hcs) as (_ & _ & Hset & Hadd).
    assert (Hnone : SingleTaskTarget s = None -> FoldBasedTasks s = [] -> cs = []).
    { intros Hs Hf. destruct cs as [|c rest]; [reflexivity | exfalso].
      destruct c as [l t' | target].
      - apply Hadd; [| exact Hf]. exists l, t'. apply list_elem_of_here.
      - apply Hset; [| exact Hs]. exists target. apply list_elem_of_here. }
    split; [| split].
    + intros Hex. specialize (Hset Hex). split.
      * intros l t'. unfold AddTask. unfold_result.
        now rewrite bool_decide_false by exact Hset.
      * intros target. unfold SetTarget. unfold_result.
        now rewrite bool_decide_false by exact Hset.
    + intros Hex target. specialize (Hadd Hex).
      destruct (calls_exclusive _ _ _ Hcs) as [Hs | Hf];
        [left; reflexivity | | contradiction].
      unfold SetTarget. unfold_result.
      rewrite bool_decide_true by exact Hs.
      rewrite bool_decide_false; [reflexivity |].
      intros Hlen. apply length_zero_iff_nil in Hlen. contradiction.
    + intros -> E run fm. simpl in Hcs. injection Hcs as <-. reflexivity.
  - intros tasks. now rewrite calls_AddTasks.
  - intros target. reflexivity.
Qed.

End TaskModes.

(** * Further properties *)

(** ** [TTargetClassifier]: order and edge cases *)

Section TargetClassifierOrder.

Import TTargetClassifier.

Lemma longest_prefix_below_take (target : double) (borders : list float) :
  longest_prefix_below target borders
  = take (length (longest_prefix_below target borders)) borders.
Proof.
  induction borders as [|b l IH]; simpl; [reflexivity |].
  destruct (Double.lt b target); simpl; [now rewrite <- IH | reflexivity].
Qed.

Lemma longest_prefix_below_stop (target : double) (borders : list float) (b : float) :
  borders !! length (longest_prefix_below target borders) = Some b ->
  Double.lt b target = false.
Proof.
  induction borders as [|b' l IH]; simpl; [discriminate |].
  destruct (Double.lt b' target) eqn:Hb; simpl.
  - exact IH.
  - intros [= ->]. exact Hb.
Qed.

Lemma longest_prefix_below_lookup (target : double) (borders : list float)
    (i : nat) (b : float) :
  borders !! i = Some b -> (i < length (longest_prefix_below target borders))%nat ->
  Double.lt b target = true.
Proof.
  intros Hi Hlt.
  pose proof (longest_prefix_below_all target borders) as Hall.
  rewrite longest_prefix_below_take in Hall.
  rewrite Forall_lookup in Hall. apply (Hall i).
  rewrite lookup_take_lt by exact Hlt. exact Hi.
Qed.

(** X1. [GetTargetClass] is monotone in the target: for every vector of
    borders, sorted or not, a target that is at most another one ([<=] of
    IEEE 754) gets a class that is at most the other's. *)
Theorem GetTargetClass_monotone (self : t) (target1 target2 : double) :
  Double.le target1 target2 = true ->
  GetTargetClass self target1 <= GetTargetClass self target2.
Proof.
  intros Hle. rewrite !GetTargetClass_length.
  set (p1 := longest_prefix_below target1 (visible self)).
  assert (Hall : Forall (fun b => Double.lt b target2 = true) (take (length p1) (visible self))).
  { unfold p1. rewrite <- longest_prefix_below_take.
    eapply Forall_impl; [apply longest_prefix_below_all |].
    intros b Hb. simpl in Hb. eapply Double_lt_le_trans; eassumption. }
  apply (longest_prefix_below_longest target2) in Hall.
  pose proof (prefix_length _ _ (longest_prefix_below_prefix target1 (visible self)))
    as Hp.
  rewrite length_take in Hall. fold p1 in Hp. lia.
Qed.

Lemma nondecreasing_not_below (target : double) (borders : list float) (b : float) :
  nondecreasing (b :: borders) = true -> Double.lt b target = false ->
  Forall (fun b' => Double.lt b' target = false) borders.
Proof.
  revert b. induction borders as [|b' l IH]; intros b Hs Hb; [constructor |].
  simpl in Hs. apply andb_true_iff in Hs as [Hle Hs].
  assert (Hb' : Double.lt b' target = false).
  { destruct (Double.lt b' target) eqn:E; [| reflexivity].
    rewrite (Double_le_lt_trans _ _ _ Hle E) in Hb. discriminate. }
  constructor; [exact Hb' |]. apply (IH b'); assumption.
Qed.

Lemma nondecreasing_tail (b : float) (borders : list float) :
  nondecreasing (b :: borders) = true -> nondecreasing borders = true.
Proof.
  destruct borders as [|b' l]; [reflexivity |].
  simpl. intros Hs. apply andb_true_iff in Hs as [_ Hs]. exact Hs.
Qed.

Lemma longest_prefix_below_sorted (target : double) (borders : list float) :
  nondecreasing borders = true ->
  forall (i : nat) (b : float), borders !! i = Some b ->
    (Double.lt b target = true <-> (i < length (longest_prefix_below target borders))%nat).
Proof.
  induction borders as [|b0 l IH]; intros Hs i b Hi; [discriminate |].
  simpl. destruct (Double.lt b0 target) eqn:Hb0.
  - destruct i as [|i]; simpl in *.
    + injection Hi as <-. split; [lia | intros _; exact Hb0].
    + rewrite (IH (nondecreasing_tail _ _ Hs) i b Hi). lia.
  - simpl. split; [| lia]. intros Hb. exfalso.
    destruct i as [|i]; simpl in Hi.
    + injection Hi as <-. congruence.
    + pose proof (nondecreasing_not_below target l b0 Hs Hb0) as Hall.
      rewrite Forall_lookup in Hall. specialize (Hall i b Hi). simpl in Hall. congruence.
Qed.

Lemma filter_below_length (target : double) (borders : list float) :
  nondecreasing borders = true ->
  length (List.filter (fun b => Double.lt b target) borders)
  = length (longest_prefix_below target borders).
Proof.
  induction borders as [|b0 l IH]; intros Hs; [reflexivity |].
  simpl. destruct (Double.lt b0 target) eqn:Hb0; simpl.
  - f_equal. apply IH. eapply nondecreasing_tail; eassumption.
  - pose proof (nondecreasing_not_below target l b0 Hs Hb0) as Hall.
    clear -Hall. induction Hall as [|x l Hx _ IH]; [reflexivity |].
    simpl. rewrite Hx. exact IH.
Qed.

(** X2. When the borders, at most 2^31 - 1 of them, are in non-decreasing
    order, a border is strictly below the target exactly when its index is
    below the class returned, and the class is the number of borders
    strictly below the target. *)
Theorem GetTargetClass_sorted_borders (self : t) (target : double) :
  Z.of_nat (length (Borders self)) <= 2 ^ 31 - 1 ->
  nondecreasing (Borders self) = true ->
  (forall (i : nat) (b : float), Borders self !! i = Some b ->
     (Double.lt b target = true <-> Z.of_nat i < GetTargetClass self target))
  /\ GetTargetClass self target
     = Z.of_nat (length (List.filter (fun b => Double.lt b target) (Borders self))).
Proof.
  intros Hsize Hs. rewrite GetTargetClass_length, (visible_small self Hsize). split.
  - intros i b Hi. rewrite (longest_prefix_below_sorted target _ Hs i b Hi). lia.
  - now rewrite filter_below_length.
Qed.

(** X3. Edge cases of [GetTargetClass]: a NaN target is in class 0 whatever
    the borders; without borders the class is 0; a border that is not
    strictly below the target (a NaN border, for one) bounds the class by
    its index; and, with at most 2^31 - 1 borders, the class is
    [Borders.ysize()] exactly when every border is strictly below the
    target, and the border at the index of the class returned, when there
    is one, is not strictly below the target. *)
Theorem GetTargetClass_edges (self : t) (target : double) :
  GetTargetClass self S754_nan = 0
  /\ (Borders self = [] -> GetTargetClass self target = 0)
  /\ (forall (i : nat) (b : float), Borders self !! i = Some b ->
        Double.lt b target = false -> GetTargetClass self target <= Z.of_nat i)
  /\ (Z.of_nat (length (Borders self)) <= 2 ^ 31 - 1 ->
      (GetTargetClass self target = ysize self
       <-> Forall (fun b => Double.lt b target = true) (Borders self))
      /\ (forall b : float,
            Borders self !! Z.to_nat (GetTargetClass self target) = Some b ->
            Double.lt b target = false)).
Proof.
  rewrite !GetTargetClass_length.
  split; [| split; [| split]].
  - destruct (visible self) as [|b l]; simpl; [reflexivity |].
    now rewrite Double_lt_nan_r.
  - intros Hnil. unfold visible. rewrite Hnil, take_nil. reflexivity.
  - intros i b Hi Hb.
    pose proof (prefix_length _ _ (longest_prefix_below_prefix target (visible self)))
      as Hlen.
    destruct (decide (i < length (longest_prefix_below target (visible self)))%nat)
      as [Hlt | Hge]; [| lia].
    assert (Hv : visible self !! i = Some b).
    { unfold visible in *. rewrite length_take in Hlen.
      rewrite lookup_take_lt by lia. exact Hi. }
    rewrite (longest_prefix_below_lookup target _ i b Hv Hlt) in Hb. discriminate.
  - intros Hsize. rewrite (visible_small self Hsize), (ysize_small self Hsize). split.
    + split.
      * intros Hlen. apply Nat2Z.inj in Hlen.
        pose proof (longest_prefix_below_all target (Borders self)) as Hall.
        rewrite longest_prefix_below_take, Hlen, take_ge in Hall by lia. exact Hall.
      * intros Hall.
        pose proof (longest_prefix_below_longest target (Borders self)
                      (length (Borders self))) as Hlong.
        rewrite take_ge in Hlong by lia. specialize (Hlong Hall).
        pose proof (prefix_length _ _ (longest_prefix_below_prefix target (Borders self))).
        lia.
    + intros b. rewrite Nat2Z.id. apply longest_prefix_below_stop.
Qed.

End TargetClassifierOrder.

(** ** [TTreeCtrDataSetVisitor]: the seeds of the devices are distinct *)

Section SeedsDistinct.

Import TTreeCtrDataSetVisitor.

Lemma mod_eq_divide (x y m : Z) : 0 < m -> x mod m = y mod m -> exists k, x - y = k * m.
Proof.
  intros Hm Heq.
  assert (Hz : (x - y) mod m = 0) by (rewrite Zminus_mod, Heq, Z.sub_diag; apply Zmod_0_l).
  apply Z.mod_divide in Hz; [| lia]. exact Hz.
Qed.

Lemma ui32_mul_664525_inj (i j : Z) :
  0 <= i < 2 ^ 32 -> 0 <= j < 2 ^ 32 ->
  Int.ui32 (664525 * i) = Int.ui32 (664525 * j) -> i = j.
Proof.
  intros Hi Hj Heq. unfold Int.ui32 in Heq.
  apply mod_eq_divide in Heq as [k Hk]; [| lia].
  (* 664525 is odd: 3050275077 is its inverse modulo 2^32 *)
  assert (Hinv : 3050275077 * 664525 = 471944 * 2 ^ 32 + 1) by reflexivity.
  assert (Hd : i - j = (3050275077 * k - 471944 * (i - j)) * 2 ^ 32) by lia.
  assert (Hb : - 2 ^ 32 < i - j < 2 ^ 32) by lia.
  destruct (Z.eq_dec (3050275077 * k - 471944 * (i - j)) 0) as [Hz | Hnz]; [lia |].
  exfalso. nia.
Qed.

Lemma DeviceSeed_inj (seed i j : Z) :
  0 <= i < 2 ^ 32 -> 0 <= j < 2 ^ 32 ->
  DeviceSeed seed i = DeviceSeed seed j -> i = j.
Proof.
  intros Hi Hj Heq. apply ui32_mul_664525_inj; [exact Hi | exact Hj |].
  unfold DeviceSeed, Int.ui64 in Heq.
  rewrite !Zplus_mod_idemp_l in Heq.
  apply mod_eq_divide in Heq as [k Hk]; [| lia].
  pose proof (Z.mod_pos_bound (664525 * i) (2 ^ 32) ltac:(lia)) as Bi.
  pose proof (Z.mod_pos_bound (664525 * j) (2 ^ 32) ltac:(lia)) as Bj.
  unfold Int.ui32 in *.
  destruct (Z.eq_dec k 0) as [Hz | Hnz]; [subst k; lia |].
  exfalso. nia.
Qed.

(** X9. The seeds [SetScoreStdDevAndSeed] gives to the devices are pairwise
    distinct (the multiplier 664525 is odd, so the 32-bit product is
    injective in the device index), for a visitor of at most 2^32 devices. *)
Theorem device_seeds_are_distinct (v : TTreeCtrDataSetVisitor.t) (scoreStdDev : double)
    (seed : Z) :
  Z.of_nat (length (Seeds v)) <= 2 ^ 32 ->
  NoDup (Seeds (SetScoreStdDevAndSeed v scoreStdDev seed))
  /\ forall (i j : nat) (x : Z),
       Seeds (SetScoreStdDevAndSeed v scoreStdDev seed) !! i = Some x ->
       Seeds (SetScoreStdDevAndSeed v scoreStdDev seed) !! j = Some x -> i = j.
Proof.
  intros Hlen.
  assert (Hinj : forall (i j : nat) (x : Z),
             Seeds (SetScoreStdDevAndSeed v scoreStdDev seed) !! i = Some x ->
             Seeds (SetScoreStdDevAndSeed v scoreStdDev seed) !! j = Some x -> i = j).
  { intros i j x Hi Hj.
    assert (Hl : length (Seeds (SetScoreStdDevAndSeed v scoreStdDev seed))
                 = length (Seeds v)) by apply SetSeeds_loop_length.
    pose proof (lookup_lt_Some _ _ _ Hi) as Hi'. pose proof (lookup_lt_Some _ _ _ Hj) as Hj'.
    rewrite Hl in Hi', Hj'.
    rewrite SetScoreStdDevAndSeed_seed in Hi, Hj by assumption.
    injection Hi as Hi. injection Hj as Hj.
    apply Nat2Z.inj. apply (DeviceSeed_inj seed); [lia | lia | congruence]. }
  split; [| exact Hinj]. apply NoDup_alt. exact Hinj.
Qed.

End SeedsDistinct.

(** ** [TTreeCtrDataSetVisitor]: the indices of the borders to cache *)

Section CacheIds.

Import TTreeCtrDataSetVisitor.

Lemma GetCtrsBordersToCacheIds_loop_sorted (v : TTreeCtrDataSetVisitor.t)
    (ctrs : list TCtr.t) (k : Z) (j j' : nat) (i i' : Z) :
  (j < j')%nat ->
  GetCtrsBordersToCacheIds_loop v ctrs k !! j = Some i ->
  GetCtrsBordersToCacheIds_loop v ctrs k !! j' = Some i' ->
  i < i'.
Proof.
  revert k j j'. induction ctrs as [|ctr rest IH]; intros k j j' Hlt Hj Hj';
    simpl in *; [discriminate |].
  destruct (IsNeedToCacheBorders v ctr).
  - destruct j' as [|j']; [lia |]. simpl in Hj'.
    destruct j as [|j]; simpl in Hj.
    + injection Hj as <-.
      apply list_elem_of_lookup_2 in Hj'.
      apply GetCtrsBordersToCacheIds_loop_elem in Hj' as (m & _ & -> & _). lia.
    + apply (IH (k + 1) j j'); [lia | assumption | assumption].
  - apply (IH (k + 1) j j'); assumption.
Qed.

Lemma GetCtrsBordersToCacheIds_loop_length (v : TTreeCtrDataSetVisitor.t)
    (ctrs : list TCtr.t) (k : Z) :
  (length (GetCtrsBordersToCacheIds_loop v ctrs k) <= length ctrs)%nat.
Proof.
  revert k. induction ctrs as [|ctr rest IH]; intros k; simpl; [lia |].
  destruct (IsNeedToCacheBorders v ctr); simpl; specialize (IH (k + 1)); lia.
Qed.

(** X7. [GetCtrsBordersToCacheIds] returns indices of CTRs of the data set in
    strictly increasing order: each is inside the vector of CTRs, none is
    repeated, there are at most as many as CTRs, and none without CTRs. *)
Theorem GetCtrsBordersToCacheIds_increasing (v : TTreeCtrDataSetVisitor.t)
    (ctrs : list TCtr.t) :
  let ids := GetCtrsBordersToCacheIds v ctrs in
  (forall (j j' : nat) (i i' : Z),
      (j < j')%nat -> ids !! j = Some i -> ids !! j' = Some i' -> i < i')
  /\ Forall (fun i => 0 <= i < Z.of_nat (length ctrs)) ids
  /\ NoDup ids
  /\ (length ids <= length ctrs)%nat
  /\ (ctrs = [] -> ids = []).
Proof.
  intros ids.
  assert (Hsorted : forall (j j' : nat) (i i' : Z),
             (j < j')%nat -> ids !! j = Some i -> ids !! j' = Some i' -> i < i').
  { intros j j' i i'. apply GetCtrsBordersToCacheIds_loop_sorted. }
  assert (Hrange : Forall (fun i => 0 <= i < Z.of_nat (length ctrs)) ids).
  { apply Forall_forall. intros i Hi.
    apply GetCtrsBordersToCacheIds_elem in Hi as (H0 & ctr & Hctr & _).
    apply lookup_lt_Some in Hctr. lia. }
  assert (Hnodup : NoDup ids).
  { apply NoDup_alt. intros j j' i Hj Hj'.
    destruct (Nat.lt_trichotomy j j') as [Hlt | [Heq | Hgt]]; [| exact Heq |].
    - pose proof (Hsorted j j' i i Hlt Hj Hj'). lia.
    - pose proof (Hsorted j' j i i Hgt Hj' Hj). lia. }
  split; [exact Hsorted |]. split; [exact Hrange |]. split; [exact Hnodup |]. split.
  - apply GetCtrsBordersToCacheIds_loop_length.
  - intros ->. reflexivity.
Qed.

End CacheIds.

(** ** [TTreeCtrDataSetVisitor]: what the cache of borders stores *)

Section CacheRoundTrip.

Import TBinarizedFeaturesManager TTreeCtrDataSetVisitor.

Lemma CacheCtrBorders_entry_new (fm : TBinarizedFeaturesManager.t)
    (ctr : TCtr.t) (borders : list float) :
  TBinarizedFeaturesManager.wf fm -> IsKnown fm ctr = false ->
  let fm' := CacheCtrBorders_entry fm (ctr, borders) in
  IsKnown fm' ctr = true /\ GetId fm' ctr = Some (Cursor fm)
  /\ GetBorders fm' (Cursor fm) = Some borders.
Proof.
  intros Hwf Hk fm'. subst fm'. unfold CacheCtrBorders_entry, Y_ASSERT. simpl.
  rewrite Hk. simpl.
  split; [| split].
  - apply IsKnown_true. rewrite KnownCtrs_AddCtr, elem_of_app.
    right. apply list_elem_of_here.
  - now apply GetId_AddCtr_new.
  - now apply GetBorders_AddCtr_new.
Qed.

Lemma CacheCtrBorders_stores (bordersMap : list (TCtr.t * list float))
    (fm : TBinarizedFeaturesManager.t) (ctr : TCtr.t) (borders : list float) :
  TBinarizedFeaturesManager.wf fm -> NoDup bordersMap.*1 ->
  (ctr, borders) ∈ bordersMap -> IsKnown fm ctr = false ->
  exists id, GetId (CacheCtrBorders fm bordersMap) ctr = Some id
             /\ GetBorders (CacheCtrBorders fm bordersMap) id = Some borders
             /\ Cursor fm <= id.
Proof.
  revert fm. induction bordersMap as [|[ctr0 borders0] rest IH];
    intros fm Hwf Hnd Hin Hk.
  - apply elem_of_nil in Hin. destruct Hin.
  - simpl in Hnd. apply NoDup_cons in Hnd as [Hnotin Hnd].
    unfold CacheCtrBorders. simpl foldl.
    fold (CacheCtrBorders (CacheCtrBorders_entry fm (ctr0, borders0)) rest).
    pose proof (CacheCtrBorders_entry_registers fm (ctr0, borders0)) as Hreg0.
    pose proof (CacheCtrBorders_registers rest (CacheCtrBorders_entry fm (ctr0, borders0)))
      as Hreg.
    destruct (registers_preserves _ _ Hreg0) as (_ & Hwf0 & _).
    specialize (Hwf0 Hwf).
    apply elem_of_cons in Hin as [Heq | Hin].
    + injection Heq as <- <-.
      destruct (CacheCtrBorders_entry_new fm ctr borders Hwf Hk) as (Hk1 & Hid1 & Hb1).
      destruct (registers_preserves _ _ Hreg) as (_ & _ & Hknown & Hborders & _).
      destruct (Hknown ctr Hk1) as [_ Hid]. exists (Cursor fm).
      split; [congruence |]. split; [now apply Hborders | lia].
    + assert (Hne : ctr <> ctr0).
      { intros ->. apply Hnotin. apply list_elem_of_fmap. exists (ctr0, borders).
        split; [reflexivity | exact Hin]. }
      assert (Hk0 : IsKnown (CacheCtrBorders_entry fm (ctr0, borders0)) ctr = false).
      { apply IsKnown_false. rewrite CacheCtrBorders_entry_KnownCtrs. simpl.
        apply IsKnown_false in Hk. tauto. }
      destruct (IH _ Hwf0 Hnd Hin Hk0) as (id & Hid & Hb & Hc).
      exists id. split; [exact Hid |]. split; [exact Hb |].
      assert (Cursor fm <= Cursor (CacheCtrBorders_entry fm (ctr0, borders0))); [| lia].
      unfold CacheCtrBorders_entry, Y_ASSERT. destruct (negb _); simpl; lia.
Qed.

(** X8. On the registry model of the Features Manager, [CacheCtrBorders]
    over a map of borders (one entry per CTR) makes every CTR of the map
    known; a CTR that was not known gets an id not below the old cursor
    under which the manager returns the borders of the map, and a CTR that
    was known keeps its id. *)
Theorem cached_borders_are_the_borders_read (fm : TBinarizedFeaturesManager.t)
    (bordersMap : list (TCtr.t * list float)) (ctr : TCtr.t) (borders : list float) :
  TBinarizedFeaturesManager.wf fm -> NoDup bordersMap.*1 ->
  (ctr, borders) ∈ bordersMap ->
  let fm' := CacheCtrBorders fm bordersMap in
  IsKnown fm' ctr = true
  /\ (IsKnown fm ctr = false ->
      exists id, GetId fm' ctr = Some id /\ GetBorders fm' id = Some borders
                 /\ Cursor fm <= id)
  /\ (IsKnown fm ctr = true -> GetId fm' ctr = GetId fm ctr).
Proof.
  intros Hwf Hnd Hin fm'. subst fm'. split; [| split].
  - apply IsKnown_true. rewrite CacheCtrBorders_KnownCtrs. right.
    apply list_elem_of_fmap. exists (ctr, borders). auto.
  - now apply CacheCtrBorders_stores.
  - intros Hk.
    destruct (registers_preserves _ _ (CacheCtrBorders_registers bordersMap fm))
      as (_ & _ & Hknown & _).
    apply (Hknown ctr Hk).
Qed.

End CacheRoundTrip.

(** ** [TTreeCtrDataSetVisitor]: the check of the bin, and bounds *)

Section VisitorErrors.

Import TBinarizedFeaturesManager TTreeCtrDataSetVisitor.

Context `{Externals}.

(** A strictly better candidate on a device of the visitor, by what is
    known of its CTR and where its bin lies. *)
Lemma UpdateBestSplit_improving (fm : TBinarizedFeaturesManager.t)
    (v : TTreeCtrDataSetVisitor.t) (ds : TTreeCtrDataSet.t) (n : Z)
    (p : TBestSplitProperties.t) (ctr : TCtr.t) :
  let dev := TTreeCtrDataSet.DeviceId ds in
  let featureId := TBestSplitProperties.FeatureId p in
  let binId := TBestSplitProperties.BinId p in
  let read := TTreeCtrDataSet.ReadBorders ds featureId in
  Double.lt (TBestSplitProperties.Score p) (BestScore v) = true ->
  TTreeCtrDataSet.GetCtr ds featureId = Ok ctr ->
  featureId < Z.of_nat (length (TTreeCtrDataSet.HostFeatures ds)) ->
  0 <= dev < Z.of_nat (length (BestSplits v)) ->
  length (BestBorders v) = length (BestSplits v) ->
  (IsKnown fm ctr = false -> Z.of_nat (length read) <= binId ->
   UpdateBestSplit fm v ds n p
   = Exception [Num (Z.of_nat (length read)); Str " "; Num featureId; Str " "; Num binId])
  /\ (IsKnown fm ctr = false -> binId < Z.of_nat (length read) ->
      exists v', UpdateBestSplit fm v ds n p = Ok v'
                 /\ BestBorders v' !! Z.to_nat dev = Some read)
  /\ (IsKnown fm ctr = true ->
      exists v', UpdateBestSplit fm v ds n p = Ok v'
                 /\ BestBin v' = binId /\ BestBorders v' = BestBorders v).
Proof.
  intros dev featureId binId read Hlt Hctr Hhost Hdev Hlen.
  assert (Hdev' : 0 <= dev < Z.of_nat (length (BestBorders v))) by (rewrite Hlen; exact Hdev).
  assert (Hfeature : 0 <= featureId).
  { unfold TTreeCtrDataSet.GetCtr in Hctr. apply at_Ok in Hctr. tauto. }
  destruct (at_in_range (TTreeCtrDataSet.HostFeatures ds) featureId ltac:(lia))
    as [hostFeature Hread].
  unfold UpdateBestSplit. rewrite Hlt. fold featureId binId dev. rewrite Hctr. simpl.
  rewrite (set_at_in_range (BestSplits v) dev _ Hdev). simpl.
  rewrite Hread. simpl.
  rewrite (set_at_in_range (<[_ := _]> (BestSplits v)) dev)
    by (rewrite length_insert; exact Hdev).
  simpl.
  split; [| split]; intros Hk; rewrite Hk; simpl.
  - intros Hbin. rewrite (set_at_in_range (BestBorders v) dev _ Hdev'). simpl.
    unfold_result. fold read.
    rewrite (bool_decide_eq_false_2 (binId < Z.of_nat (length read))) by lia.
    reflexivity.
  - intros Hbin. rewrite (set_at_in_range (BestBorders v) dev _ Hdev'). simpl.
    unfold_result. fold read.
    rewrite (bool_decide_eq_true_2 (binId < Z.of_nat (length read))) by lia.
    eexists. split; [reflexivity |]. simpl.
    apply list_lookup_insert_eq. lia.
  - eexists. split; [reflexivity |]. simpl. auto.
Qed.

(** X4. [UpdateBestSplit] on a strictly better candidate whose feature is a
    CTR of the data set with its host feature, on a device of the visitor. If the manager does not
    know the CTR and the bin is not below the number of borders read back,
    the call throws, the message being that number, the feature and the
    bin; if the bin is below it, the call returns and the borders read are
    in the slot of the device. If the manager knows the CTR, the call
    returns without reading borders and without any check of the bin. *)
Theorem UpdateBestSplit_checks_bin_of_new_ctr (fm : TBinarizedFeaturesManager.t)
    (v : TTreeCtrDataSetVisitor.t) (ds : TTreeCtrDataSet.t) (n : Z)
    (p : TBestSplitProperties.t) (ctr : TCtr.t) :
  let dev := TTreeCtrDataSet.DeviceId ds in
  let featureId := TBestSplitProperties.FeatureId p in
  let binId := TBestSplitProperties.BinId p in
  let read := TTreeCtrDataSet.ReadBorders ds featureId in
  Double.lt (TBestSplitProperties.Score p) (BestScore v) = true ->
  TTreeCtrDataSet.GetCtr ds featureId = Ok ctr ->
  featureId < Z.of_nat (length (TTreeCtrDataSet.HostFeatures ds)) ->
  0 <= dev < Z.of_nat (length (BestSplits v)) ->
  length (BestBorders v) = length (BestSplits v) ->
  (IsKnown fm ctr = false -> Z.of_nat (length read) <= binId ->
   UpdateBestSplit fm v ds n p
   = Exception [Num (Z.of_nat (length read)); Str " "; Num featureId; Str " "; Num binId])
  /\ (IsKnown fm ctr = false -> binId < Z.of_nat (length read) ->
      exists v', UpdateBestSplit fm v ds n p = Ok v'
                 /\ BestBorders v' !! Z.to_nat dev = Some read)
  /\ (IsKnown fm ctr = true ->
      exists v', UpdateBestSplit fm v ds n p = Ok v'
                 /\ BestBin v' = binId /\ BestBorders v' = BestBorders v).
Proof. apply UpdateBestSplit_improving. Qed.

Lemma TaskSeed_defined (v : TTreeCtrDataSetVisitor.t) (ds : TTreeCtrDataSet.t) :
  0 <= TTreeCtrDataSet.DeviceId ds < Z.of_nat (length (Seeds v)) ->
  exists taskSeed, TaskSeed v ds = Ok taskSeed.
Proof.
  intros Hdev. unfold TaskSeed.
  destruct (at_in_range (Seeds v) _ Hdev) as [seed ->]. simpl. eauto.
Qed.

(** A strictly better candidate that names a CTR of the data set with its
    host feature, on a device of the visitor, is taken or refused at the
    check of the bin. *)
Lemma UpdateBestSplit_defined (fm : TBinarizedFeaturesManager.t)
    (v : TTreeCtrDataSetVisitor.t) (ds : TTreeCtrDataSet.t) (n : Z)
    (c : TBestSplitProperties.t) :
  let dev := TTreeCtrDataSet.DeviceId ds in
  let read := TTreeCtrDataSet.ReadBorders ds (TBestSplitProperties.FeatureId c) in
  0 <= dev < Z.of_nat (length (BestSplits v)) ->
  length (BestBorders v) = length (BestSplits v) ->
  (Double.lt (TBestSplitProperties.Score c) (BestScore v) = true ->
   0 <= TBestSplitProperties.FeatureId c
     < Z.of_nat (length (TTreeCtrDataSet.Ctrs ds))
   /\ TBestSplitProperties.FeatureId c
      < Z.of_nat (length (TTreeCtrDataSet.HostFeatures ds))) ->
  (exists v', UpdateBestSplit fm v ds n c = Ok v')
  \/ (Z.of_nat (length read) <= TBestSplitProperties.BinId c
      /\ exists what, UpdateBestSplit fm v ds n c = Exception what).
Proof.
  intros dev read Hdev Hlen Hfeature. subst read.
  destruct (Double.lt (TBestSplitProperties.Score c) (BestScore v)) eqn:Hlt.
  - destruct (Hfeature eq_refl) as [Hctrs Hhost].
    destruct (at_in_range _ _ Hctrs) as [ctr Hctr].
    fold (TTreeCtrDataSet.GetCtr ds (TBestSplitProperties.FeatureId c)) in Hctr.
    destruct (UpdateBestSplit_improving fm v ds n c ctr Hlt Hctr Hhost Hdev Hlen)
      as (Hout & Hin & Hknown).
    destruct (IsKnown fm ctr) eqn:Hk.
    + destruct (Hknown eq_refl) as (v' & Hv' & _). left. eauto.
    + destruct (Z_lt_dec (TBestSplitProperties.BinId c)
                  (Z.of_nat (length (TTreeCtrDataSet.ReadBorders
                                       ds (TBestSplitProperties.FeatureId c)))))
        as [Hbin | Hbin].
      * destruct (Hin eq_refl Hbin) as (v' & Hv' & _). left. eauto.
      * right. split; [lia |]. rewrite (Hout eq_refl) by lia. eauto.
  - left. unfold UpdateBestSplit. rewrite Hlt. eauto.
Qed.

(** X5. [Accept] stays inside its vectors: when the device of the data set
    has a seed and a slot in the visitor's vectors, and a strictly better
    candidate names a CTR of the data set with its host feature, the call
    returns or throws, and never reads or writes outside a vector. *)
Theorem Accept_stays_in_bounds (fm : TBinarizedFeaturesManager.t)
    (v : TTreeCtrDataSetVisitor.t) (ds : TTreeCtrDataSet.t) (n : Z) :
  let dev := TTreeCtrDataSet.DeviceId ds in
  0 <= dev < Z.of_nat (length (Seeds v)) ->
  dev < Z.of_nat (length (BestSplits v)) ->
  length (BestBorders v) = length (BestSplits v) ->
  (forall taskSeed,
     let c := TTreeCtrDataSet.ScoreHelper ds (ScoreStdDev v) taskSeed in
     Double.lt (TBestSplitProperties.Score c) (BestScore v) = true ->
     0 <= TBestSplitProperties.FeatureId c
       < Z.of_nat (length (TTreeCtrDataSet.Ctrs ds))
     /\ TBestSplitProperties.FeatureId c
        < Z.of_nat (length (TTreeCtrDataSet.HostFeatures ds))) ->
  Accept fm v ds n <> Undefined.
Proof.
  intros dev Hseed Hdev Hlen Hfeature.
  unfold Accept.
  destruct (TaskSeed_defined v ds Hseed) as [taskSeed ->]. simpl.
  destruct (UpdateBestSplit_defined (Accept_cache fm v ds) v ds n
              (TTreeCtrDataSet.ScoreHelper ds (ScoreStdDev v) taskSeed)
              ltac:(fold dev; lia) Hlen (Hfeature taskSeed))
    as [(v' & ->) | (_ & what & ->)]; discriminate.
Qed.

(** A call of [Accept] in bounds whose candidate has its bin among the
    borders read back returns. *)
Lemma Accept_returns (fm : TBinarizedFeaturesManager.t)
    (v : TTreeCtrDataSetVisitor.t) (ds : TTreeCtrDataSet.t) (n : Z) :
  let dev := TTreeCtrDataSet.DeviceId ds in
  0 <= dev < Z.of_nat (length (Seeds v)) ->
  dev < Z.of_nat (length (BestSplits v)) ->
  length (BestBorders v) = length (BestSplits v) ->
  (forall taskSeed,
     let c := TTreeCtrDataSet.ScoreHelper ds (ScoreStdDev v) taskSeed in
     0 <= TBestSplitProperties.FeatureId c
       < Z.of_nat (length (TTreeCtrDataSet.Ctrs ds))
     /\ TBestSplitProperties.FeatureId c
        < Z.of_nat (length (TTreeCtrDataSet.HostFeatures ds))
     /\ TBestSplitProperties.BinId c
        < Z.of_nat (length (TTreeCtrDataSet.ReadBorders
                              ds (TBestSplitProperties.FeatureId c)))) ->
  exists v', Accept fm v ds n = Ok (v', Accept_cache fm v ds).
Proof.
  intros dev Hseed Hdev Hlen Hfeature.
  unfold Accept.
  destruct (TaskSeed_defined v ds Hseed) as [taskSeed ->]. simpl.
  destruct (Hfeature taskSeed) as (Hctrs & Hhost & Hbin). cbv zeta in Hctrs, Hhost, Hbin.
  destruct (UpdateBestSplit_defined (Accept_cache fm v ds) v ds n
              (TTreeCtrDataSet.ScoreHelper ds (ScoreStdDev v) taskSeed)
              ltac:(fold dev; lia) Hlen ltac:(auto))
    as [(v' & ->) | (Hout & _)]; [eauto | lia].
Qed.

End VisitorErrors.

(** ** [TObliviousTreeStructureSearcher]: the layout of the initial parts *)

Section InitialParts.

Import TObliviousTreeStructureSearcher.

Lemma ui32_ui32_add (a b : Z) : Int.ui32 (a + Int.ui32 b) = Int.ui32 (a + b).
Proof. unfold Int.ui32. apply Zplus_mod_idemp_r. Qed.

Lemma ui32_ui64 (a : Z) : Int.ui32 (Int.ui64 a) = Int.ui32 a.
Proof.
  unfold Int.ui32, Int.ui64.
  apply Z.mod_mod_divide. exists (2 ^ 32). reflexivity.
Qed.

Lemma ui32_small (a : Z) : 0 <= a < 2 ^ 32 -> Int.ui32 a = a.
Proof. intros Ha. unfold Int.ui32. now apply Z.mod_small. Qed.

(** Each part starts where the part before it ends. *)
Lemma parts_chain (tasks : list TOptimizationTask) (currentBin cursor : Z)
    (j : nat) (part next : TDataPartition) :
  let parts := WriteFoldBasedInitialBins_loop tasks currentBin cursor in
  parts !! j = Some part -> parts !! S j = Some next ->
  Offset next = Int.ui32 (Offset part + Size part).
Proof.
  revert currentBin cursor j.
  induction tasks as [|task rest IH]; intros currentBin cursor j parts Hj Hn;
    [discriminate |].
  subst parts. simpl in Hj, Hn.
  destruct j as [|[|j]]; simpl in Hj, Hn.
  - injection Hj as <-. injection Hn as <-. simpl. now rewrite ui32_ui32_add.
  - injection Hj as <-. simpl.
    destruct rest as [|task' rest']; [discriminate |].
    simpl in Hn. injection Hn as <-. simpl. now rewrite ui32_ui32_add.
  - eapply IH; eassumption.
Qed.

Lemma parts_head (tasks : list TOptimizationTask) (currentBin cursor : Z)
    (part : TDataPartition) :
  WriteFoldBasedInitialBins_loop tasks currentBin cursor !! 0%nat = Some part ->
  Offset part = cursor.
Proof. destruct tasks; [discriminate |]. simpl. now intros [= <-]. Qed.

Lemma parts_end (tasks : list TOptimizationTask) (currentBin cursor : Z) :
  foldl (fun cursor part => Int.ui32 (Offset part + Size part)) cursor
    (WriteFoldBasedInitialBins_loop tasks currentBin cursor)
  = foldl (fun cursor task =>
             Int.ui32 (Int.ui32 (cursor + IndicesSize (LearnTarget task))
                       + IndicesSize (TestTarget task)))
      cursor tasks.
Proof.
  revert currentBin cursor. induction tasks as [|task rest IH]; intros currentBin cursor;
    [reflexivity |].
  simpl. rewrite !ui32_ui32_add. apply IH.
Qed.

Lemma parts_exact (tasks : list TOptimizationTask) (currentBin cursor : Z) :
  0 <= cursor -> fits_ui32 tasks -> cursor + TasksSize tasks < 2 ^ 32 ->
  let parts := WriteFoldBasedInitialBins_loop tasks currentBin cursor in
  PartsSize parts = TasksSize tasks
  /\ (forall (j : nat) (part : TDataPartition), parts !! j = Some part ->
        Offset part = cursor + PartsSize (take j parts) /\ 0 <= Size part)
  /\ foldl (fun cursor task =>
              Int.ui32 (Int.ui32 (cursor + IndicesSize (LearnTarget task))
                        + IndicesSize (TestTarget task)))
       cursor tasks
     = cursor + TasksSize tasks.
Proof.
  revert currentBin cursor.
  induction tasks as [|task rest IH]; intros currentBin cursor Hc [Hpos Hsum] Hfit parts.
  - subst parts. simpl. split; [reflexivity |]. split; [intros j part Hj; discriminate | lia].
  - inversion Hpos as [|? ? [Hl Ht] Hrest]; subst.
    assert (Hr : 0 <= TasksSize rest).
    { clear -Hrest. induction Hrest as [|x l [? ?] _ IH']; simpl; lia. }
    simpl in Hsum, Hfit.
    assert (Hfits : fits_ui32 rest) by (split; [exact Hrest | lia]).
    set (learnSize := IndicesSize (LearnTarget task)) in *.
    set (testSize := IndicesSize (TestTarget task)) in *.
    assert (E1 : Int.ui32 learnSize = learnSize) by (apply ui32_small; lia).
    assert (E2 : Int.ui32 testSize = testSize) by (apply ui32_small; lia).
    assert (E3 : Int.ui32 (cursor + learnSize) = cursor + learnSize)
      by (apply ui32_small; lia).
    assert (E4 : Int.ui32 (cursor + learnSize + testSize) = cursor + learnSize + testSize)
      by (apply ui32_small; lia).
    subst parts. simpl. fold learnSize testSize. rewrite E1, E2, E3, E4.
    destruct (IH (Int.ui32 (currentBin + 2)) (cursor + learnSize + testSize)
                ltac:(lia) Hfits ltac:(lia)) as (IHsize & IHoff & IHend).
    split; [| split].
    + rewrite IHsize. lia.
    + intros j part Hj. destruct j as [|[|j]]; simpl in Hj.
      * injection Hj as <-. simpl. lia.
      * injection Hj as <-. simpl. lia.
      * destruct (IHoff j part Hj) as [Hoff Hsz]. simpl. lia.
    + rewrite IHend. lia.
Qed.

Lemma last_foldl {A B : Type} (f : B -> A -> B) (g : A -> B) (l : list A) (a : A) (b : B) :
  (forall b a, f b a = g a) -> last l = Some a -> foldl f b l = g a.
Proof.
  intros Hf Hl. destruct (last_Some l a) as [Hl' _].
  destruct (Hl' Hl) as [l' ->]. rewrite foldl_snoc. apply Hf.
Qed.

Lemma PartsSize_lookup (parts : list TDataPartition) (j : nat) (part : TDataPartition) :
  parts !! j = Some part -> Forall (fun p => 0 <= Size p) parts ->
  PartsSize (take j parts) + Size part <= PartsSize parts.
Proof.
  revert j. induction parts as [|p l IH]; intros j Hj Hall; [discriminate |].
  inversion Hall as [|? ? Hp Hl]; subst.
  destruct j as [|j]; simpl in *.
  - injection Hj as ->.
    assert (0 <= PartsSize l) by (clear -Hl; induction Hl; simpl; lia). lia.
  - specialize (IH j Hj Hl). lia.
Qed.

(** X10. The parts [WriteFoldBasedInitialBins] returns, two per task, are
    laid end to end: the first starts at 0, each next one starts where the
    one before ends (modulo 2^32, as the cursor is a [ui32]), and the last
    ends at [GetTotalIndicesSize()]. When the sizes add up to less than
    2^32, nothing wraps: every part starts at the sum of the sizes before
    it and lies inside the bins, and the sizes add up to
    [GetTotalIndicesSize()]. *)
Theorem initial_parts_are_contiguous (s : t) :
  let parts := WriteFoldBasedInitialBins s in
  length parts = (2 * length (FoldBasedTasks s))%nat
  /\ (forall part, parts !! 0%nat = Some part -> Offset part = 0)
  /\ (forall (j : nat) (part next : TDataPartition),
        parts !! j = Some part -> parts !! S j = Some next ->
        Offset next = Int.ui32 (Offset part + Size part))
  /\ (SingleTaskTarget s = None ->
      forall part, last parts = Some part ->
        Int.ui32 (Offset part + Size part) = GetTotalIndicesSize s)
  /\ (SingleTaskTarget s = None -> fits_ui32 (FoldBasedTasks s) ->
      GetTotalIndicesSize s = TasksSize (FoldBasedTasks s)
      /\ PartsSize parts = GetTotalIndicesSize s
      /\ forall (j : nat) (part : TDataPartition), parts !! j = Some part ->
           Offset part = PartsSize (take j parts)
           /\ 0 <= Size part
           /\ Offset part + Size part <= GetTotalIndicesSize s).
Proof.
  intros parts. subst parts. unfold WriteFoldBasedInitialBins.
  split; [apply WriteFoldBasedInitialBins_loop_length |].
  split; [apply parts_head |].
  split; [apply parts_chain |].
  split.
  - intros Hnone part Hlast. unfold GetTotalIndicesSize. rewrite Hnone.
    rewrite <- (parts_end (FoldBasedTasks s) 0 0).
    symmetry. eapply (last_foldl _ (fun part => Int.ui32 (Offset part + Size part)));
      [reflexivity | exact Hlast].
  - intros Hnone Hfits.
    destruct (parts_exact (FoldBasedTasks s) 0 0 ltac:(lia) Hfits
                ltac:(destruct Hfits; lia)) as (Hsize & Hoff & Hend).
    assert (Htotal : GetTotalIndicesSize s = TasksSize (FoldBasedTasks s)).
    { unfold GetTotalIndicesSize. rewrite Hnone, Hend. lia. }
    split; [exact Htotal |]. split; [congruence |].
    intros j part Hj. destruct (Hoff j part Hj) as [Ho Hs].
    split; [lia |]. split; [exact Hs |].
    rewrite Htotal, <- Hsize.
    assert (Hall : Forall (fun p => 0 <= Size p)
                     (WriteFoldBasedInitialBins_loop (FoldBasedTasks s) 0 0)).
    { apply Forall_lookup. intros i p Hi. apply (Hoff i p Hi). }
    pose proof (PartsSize_lookup _ j part Hj Hall). lia.
Qed.

End InitialParts.

(** ** [TObliviousTreeStructureSearcher]: slices, initial bins, [GetRandom] *)

Section TaskSlices.

Import TObliviousTreeStructureSearcher.

Lemma ui32_Size (cursor size : Z) :
  Int.ui32 (TSlice.Size (TSlice.mk cursor (Int.ui64 (cursor + size)))) = Int.ui32 size.
Proof.
  unfold TSlice.Size. simpl. rewrite ui32_ui64.
  unfold Int.ui32, Int.ui64.
  rewrite Zminus_mod, Z.mod_mod_divide by (exists (2 ^ 32); reflexivity).
  rewrite <- Zminus_mod. f_equal. lia.
Qed.

Lemma ui32_add_Size (c cursor size : Z) :
  Int.ui32 (c + TSlice.Size (TSlice.mk cursor (Int.ui64 (cursor + size))))
  = Int.ui32 (c + size).
Proof. rewrite <- ui32_ui32_add, ui32_Size, ui32_ui32_add. reflexivity. Qed.

(** The slices [ForeachOptimizationPartTask] hands to its callback. *)
Lemma Foreach_slices (tasks : list TOptimizationTask) (cursor : Z) (acc : list TSlice.t) :
  ForeachOptimizationPartTask_loop
    (fun learnSlice testSlice _ slices => slices ++ [learnSlice; testSlice])
    tasks cursor acc
  = acc ++ MakeTaskSlices_loop tasks cursor.
Proof.
  revert cursor acc. induction tasks as [|task rest IH]; intros cursor acc; simpl.
  - now rewrite app_nil_r.
  - rewrite IH, !ui32_ui64, <- app_assoc. reflexivity.
Qed.

Lemma slices_parts (tasks : list TOptimizationTask) (currentBin cursor : Z) :
  (fun slice => {| Offset := TSlice.Left slice; Size := Int.ui32 (TSlice.Size slice) |})
    <$> MakeTaskSlices_loop tasks cursor
  = WriteFoldBasedInitialBins_loop tasks currentBin cursor.
Proof.
  revert currentBin cursor. induction tasks as [|task rest IH]; intros currentBin cursor;
    [reflexivity |].
  simpl. rewrite !ui32_Size. f_equal. f_equal. apply IH.
Qed.

Lemma slices_length (tasks : list TOptimizationTask) (cursor : Z) :
  length (MakeTaskSlices_loop tasks cursor) = (2 * length tasks)%nat.
Proof.
  revert cursor. induction tasks as [|task rest IH]; intros cursor; simpl; [reflexivity |].
  rewrite IH. lia.
Qed.

Lemma slices_end (tasks : list TOptimizationTask) (cursor : Z) (slice : TSlice.t) :
  last (MakeTaskSlices_loop tasks cursor) = Some slice ->
  Int.ui32 (TSlice.Right slice)
  = foldl (fun cursor task =>
             Int.ui32 (Int.ui32 (cursor + IndicesSize (LearnTarget task))
                       + IndicesSize (TestTarget task)))
      cursor tasks.
Proof.
  revert cursor. induction tasks as [|task rest IH]; intros cursor Hlast; [discriminate |].
  simpl in Hlast. simpl foldl.
  destruct rest as [|task' rest'].
  - simpl in Hlast. injection Hlast as <-. simpl. now rewrite ui32_ui64.
  - apply IH. exact Hlast.
Qed.

(** X11. [MakeTaskSlices] returns two slices per task, the slices
    [ForeachOptimizationPartTask] hands to its callback; their left bounds
    and sizes are the offsets and sizes of the parts of
    [WriteFoldBasedInitialBins], and the right bound of the last one, which
    sizes the gradient buffers, is [GetTotalIndicesSize()] modulo 2^32. *)
Theorem MakeTaskSlices_are_the_parts (s : t) :
  let slices := MakeTaskSlices s in
  length slices = (2 * length (FoldBasedTasks s))%nat
  /\ ForeachOptimizationPartTask s
       (fun learnSlice testSlice _ slices => slices ++ [learnSlice; testSlice]) []
     = slices
  /\ (fun slice => {| Offset := TSlice.Left slice; Size := Int.ui32 (TSlice.Size slice) |})
       <$> slices
     = WriteFoldBasedInitialBins s
  /\ (SingleTaskTarget s = None ->
      forall slice, last slices = Some slice ->
        Int.ui32 (TSlice.Right slice) = GetTotalIndicesSize s).
Proof.
  intros slices. subst slices. unfold MakeTaskSlices.
  split; [apply slices_length |].
  split; [apply (Foreach_slices _ 0 []) |].
  split; [apply slices_parts |].
  intros Hnone slice Hlast. unfold GetTotalIndicesSize. rewrite Hnone.
  now apply slices_end.
Qed.

Lemma Foreach_loop_cons {A : Type}
    (func : TSlice.t -> TSlice.t -> TOptimizationTask -> A -> A)
    (task : TOptimizationTask) (rest : list TOptimizationTask) (cursor : Z) (acc : A) :
  ForeachOptimizationPartTask_loop func (task :: rest) cursor acc
  = let learnSize := IndicesSize (LearnTarget task) in
    let testSize := IndicesSize (TestTarget task) in
    let cursor1 := Int.ui32 (cursor + learnSize) in
    ForeachOptimizationPartTask_loop func rest (Int.ui32 (cursor1 + testSize))
      (func (TSlice.mk cursor (Int.ui64 (cursor + learnSize)))
            (TSlice.mk cursor1 (Int.ui64 (cursor1 + testSize))) task acc).
Proof. simpl. rewrite !ui32_ui64. reflexivity. Qed.

Lemma func_step (task : TOptimizationTask) (w : TInitialBins)
    (learnSize testSize : Z) :
  let cursor := PartsCursor w in
  let cursor1 := Int.ui32 (cursor + learnSize) in
  let learnSlice := TSlice.mk cursor (Int.ui64 (cursor + learnSize)) in
  let testSlice := TSlice.mk cursor1 (Int.ui64 (cursor1 + testSize)) in
  WriteFoldBasedInitialBins_func learnSlice testSlice task w
  = {| Fills := Fills w ++ [{| FillSlice := learnSlice; FillValue := CurrentBin w |};
                            {| FillSlice := testSlice;
                               FillValue := Int.ui32 (CurrentBin w + 1) |}];
       Parts := Parts w ++ [{| Offset := cursor; Size := Int.ui32 learnSize |};
                            {| Offset := cursor1; Size := Int.ui32 testSize |}];
       CurrentBin := Int.ui32 (CurrentBin w + 2);
       PartsCursor := Int.ui32 (cursor1 + testSize) |}.
Proof.
  intros cursor cursor1 learnSlice testSlice.
  unfold WriteFoldBasedInitialBins_func. fold cursor.
  unfold learnSlice, testSlice.
  rewrite !ui32_Size, !ui32_add_Size. fold cursor1.
  reflexivity.
Qed.

Lemma Foreach_fills (tasks : list TOptimizationTask) (w : TInitialBins) (bin : Z) :
  CurrentBin w = Int.ui32 bin ->
  let w' := ForeachOptimizationPartTask_loop WriteFoldBasedInitialBins_func tasks
              (PartsCursor w) w in
  Parts w' = Parts w ++ WriteFoldBasedInitialBins_loop tasks (CurrentBin w) (PartsCursor w)
  /\ FillSlice <$> Fills w'
     = (FillSlice <$> Fills w) ++ MakeTaskSlices_loop tasks (PartsCursor w)
  /\ FillValue <$> Fills w'
     = (FillValue <$> Fills w)
       ++ ((fun k => Int.ui32 (bin + k)) <$> seqZ 0 (2 * Z.of_nat (length tasks))).
Proof.
  revert w bin. induction tasks as [|task rest IH]; intros w bin Hbin w'.
  - subst w'. simpl. rewrite !app_nil_r. auto.
  - subst w'. rewrite Foreach_loop_cons. cbv zeta. rewrite func_step. cbv zeta.
    set (learnSize := IndicesSize (LearnTarget task)).
    set (testSize := IndicesSize (TestTarget task)).
    set (cursor := PartsCursor w).
    set (cursor1 := Int.ui32 (cursor + learnSize)).
    set (w1 := Build_TInitialBins _ _ _ _).
    assert (Hb1 : CurrentBin w1 = Int.ui32 (bin + 2)).
    { unfold w1. simpl. rewrite Hbin.
      rewrite (Z.add_comm (Int.ui32 bin) 2), ui32_ui32_add. f_equal. lia. }
    destruct (IH w1 (bin + 2) Hb1) as (IHp & IHs & IHv).
    change (PartsCursor w1) with (Int.ui32 (cursor1 + testSize)) in IHp, IHs, IHv.
    rewrite IHp, IHs, IHv. clear IHp IHs IHv.
    split; [| split].
    + unfold w1. simpl. rewrite <- app_assoc. reflexivity.
    + unfold w1. simpl. rewrite fmap_app, <- app_assoc. reflexivity.
    + assert (Hn : 2 * Z.of_nat (length (task :: rest))
                   = Z.succ (Z.succ (2 * Z.of_nat (length rest))))
        by (rewrite length_cons; lia).
      rewrite Hn. unfold w1. simpl Fills. rewrite fmap_app, <- app_assoc. f_equal.
      rewrite (seqZ_cons 0 (Z.succ (Z.succ _))) by lia.
      rewrite (seqZ_cons (Z.succ 0)) by lia. simpl.
      rewrite !Z.pred_succ. rewrite Hbin, Z.add_0_r.
      f_equal. f_equal.
      { rewrite (Z.add_comm (Int.ui32 bin) 1), ui32_ui32_add. f_equal. lia. }
      change (Z.succ (Z.succ 0)) with (2 + 0).
      change (list_fmap Z Z) with (@fmap list _ Z Z).
      rewrite <- (fmap_add_seqZ 2), <- list_fmap_compose.
      apply list_fmap_ext. intros i k _. simpl. f_equal. lia.
Qed.

(** X12. [WriteFoldBasedInitialBins] numbers the parts by the bins: the
    j-th fill of the bins writes the value j (as a [ui32]) into the slice
    whose left bound and size are the offset and the size of the j-th part
    returned; the slices filled are those of [MakeTaskSlices]. *)
Theorem initial_bins_number_the_parts (s : t) :
  let w := WriteFoldBasedInitialBins_fills s in
  Parts w = WriteFoldBasedInitialBins s
  /\ FillSlice <$> Fills w = MakeTaskSlices s
  /\ length (Fills w) = length (Parts w)
  /\ (forall (j : nat) (fill : TFill),
        Fills w !! j = Some fill ->
        FillValue fill = Int.ui32 (Z.of_nat j)
        /\ Parts w !! j
           = Some {| Offset := TSlice.Left (FillSlice fill);
                     Size := Int.ui32 (TSlice.Size (FillSlice fill)) |}).
Proof.
  intros w.
  destruct (Foreach_fills (FoldBasedTasks s)
              {| Fills := []; Parts := []; CurrentBin := 0; PartsCursor := 0 |} 0 eq_refl)
    as (Hparts & Hslices & Hvalues).
  simpl in Hparts, Hslices, Hvalues.
  fold (ForeachOptimizationPartTask s WriteFoldBasedInitialBins_func
          {| Fills := []; Parts := []; CurrentBin := 0; PartsCursor := 0 |})
    in Hparts, Hslices, Hvalues.
  fold (WriteFoldBasedInitialBins_fills s) in Hparts, Hslices, Hvalues. fold w in Hparts, Hslices, Hvalues.
  fold (WriteFoldBasedInitialBins s) in Hparts. fold (MakeTaskSlices s) in Hslices.
  assert (Hlen : length (Fills w) = length (Parts w)).
  { rewrite <- (length_fmap FillSlice), Hslices, Hparts.
    unfold MakeTaskSlices, WriteFoldBasedInitialBins.
    now rewrite slices_length, WriteFoldBasedInitialBins_loop_length. }
  split; [exact Hparts |]. split; [exact Hslices |]. split; [exact Hlen |].
  intros j fill Hj. split.
  - assert (Hv : (FillValue <$> Fills w) !! j = Some (FillValue fill))
      by (rewrite list_lookup_fmap, Hj; reflexivity).
    rewrite Hvalues, list_lookup_fmap in Hv.
    destruct (seqZ 0 (2 * Z.of_nat (length (FoldBasedTasks s))) !! j) as [k |] eqn:Hk;
      [| discriminate].
    apply lookup_seqZ in Hk as [-> _]. simpl in Hv. injection Hv as <-. f_equal.
  - rewrite Hparts. unfold WriteFoldBasedInitialBins.
    rewrite <- (slices_parts _ 0 0). fold (MakeTaskSlices s).
    rewrite <- Hslices, <- list_fmap_compose, list_lookup_fmap, Hj. reflexivity.
Qed.

(** X13. [GetRandom] is defined exactly when the check at the entry of [Fit]
    passes: with a single-task target it returns that target's generator,
    with fold-based tasks only the generator of the first learn target, and
    with neither it reads [FoldBasedTasks[0]] of an empty vector. *)
Theorem GetRandom_defined_iff (s : t) :
  ((exists target, GetRandom s = Ok target)
   <-> bool_decide (length (FoldBasedTasks s) <> 0%nat)
       || bool_decide (SingleTaskTarget s <> None) = true)
  /\ (forall target, SingleTaskTarget s = Some target -> GetRandom s = Ok target)
  /\ (forall task rest, SingleTaskTarget s = None -> FoldBasedTasks s = task :: rest ->
        GetRandom s = Ok (LearnTarget task))
  /\ (SingleTaskTarget s = None -> FoldBasedTasks s = [] -> GetRandom s = Undefined).
Proof.
  unfold GetRandom.
  destruct (SingleTaskTarget s) as [target |] eqn:Hs.
  - split; [| split; [| split]]; try discriminate.
    + split; [intros _ | eauto].
      rewrite (bool_decide_eq_true_2 (Some target <> None)) by discriminate.
      apply orb_true_r.
    + now intros ? [= ->].
  - destruct (FoldBasedTasks s) as [|task rest] eqn:Ht; simpl.
    + split; [| split; [| split]]; try discriminate; try reflexivity.
      split; [intros [? ?]; discriminate |].
      intros Hc. discriminate Hc.
    + split; [| split; [| split]]; try discriminate.
      * split; [intros _; reflexivity | eauto].
      * now intros ? ? _ [= -> ->].
Qed.

End TaskSlices.

(** ** [TObliviousTreeStructureSearcher]: what [Fit] does to the searcher *)

Section FitSearcher.

Import TBinarizedFeaturesManager TObliviousTreeStructureSearcher.

Context `{Externals}.

Lemma BuildTreeSearchTarget_Ok (s s' : t) (run : TRun) :
  BuildTreeSearchTarget s run = Ok s' ->
  TreeConfig s' = TreeConfig s /\ RandomStrength s' = RandomStrength s
  /\ FoldBasedTasks s' = FoldBasedTasks s /\ SingleTaskTarget s' = SingleTaskTarget s
  /\ ScoreStdDev s'
     = (if bool_decide (length (FoldBasedTasks s) <> 0%nat) && to_bool (RandomStrength s)
        then TargetScoreStdDev run else ScoreStdDev s)
  /\ (SingleTaskTarget s = None \/ FoldBasedTasks s = []).
Proof.
  unfold BuildTreeSearchTarget. intros Hb.
  destruct (bool_decide (length (FoldBasedTasks s) <> 0%nat)) eqn:Ht; simpl.
  - unfold_result.
    destruct (bool_decide (SingleTaskTarget s = None)) eqn:Hs; [| discriminate].
    apply bool_decide_eq_true in Hs.
    destruct (to_bool (RandomStrength s)); injection Hb as <-; simpl; auto 10.
  - unfold_result.
    destruct (bool_decide (SingleTaskTarget s <> None)); [| discriminate].
    apply bool_decide_eq_false in Ht.
    injection Hb as <-. repeat split; auto. right.
    destruct (FoldBasedTasks s); [reflexivity | simpl in Ht; exfalso; apply Ht; lia].
Qed.

(** What [Fit] runs when it returns. *)
Lemma Fit_unfold (s s' : t) (run : TRun) (fm : TBinarizedFeaturesManager.t)
    (st : TFitState) :
  Fit s run fm = Ok (s', st) ->
  exists subsets,
    BuildTreeSearchTarget s run = Ok s'
    /\ CreateSubsets s' (TObliviousTreeLearnerOptions.GetMaxDepth (TreeConfig s'))
       = Ok subsets
    /\ Fit_loop s' run (TOptimizationSubsets.FoldCount subsets)
         (Z.to_nat (TObliviousTreeLearnerOptions.GetMaxDepth (TreeConfig s'))) 0
         {| Result := {| TObliviousTreeStructure.Splits := [] |};
            Manager := fm; UpdaterSplits := []; SubsetsSplitCalls := 0; Log := [] |}
       = Ok st.
Proof.
  unfold Fit. intros Hf.
  destruct (CB_ENSURE _ _) as [[] | |]; simpl in Hf; try discriminate.
  destruct (BuildTreeSearchTarget s run) as [s1 | |] eqn:Hb; simpl in Hf;
    try discriminate.
  destruct (CreateSubsets s1 _) as [subsets | |] eqn:Hc; simpl in Hf; try discriminate.
  destruct (Fit_loop s1 run _ _ 0 _) as [st1 | |] eqn:Hloop; simpl in Hf;
    try discriminate.
  injection Hf as <- <-. exists subsets. auto.
Qed.

(** An iteration that returns, by the state it leaves. *)
Lemma Fit_iteration_steps (s : t) (run : TRun) (foldCount depth : Z)
    (st st' : TFitState) (c : TLoopControl) :
  Fit_iteration s run foldCount depth st = Ok (c, st') ->
  exists p bits fm,
    WinningSplit s run foldCount depth (Manager st) = Ok (p, bits, fm)
    /\ ((c = Break /\ st' = stopped depth st p fm)
        \/ (c = Next /\ st' = applied s depth st p bits fm
            /\ forall b, bits = Some b -> TSingleBuffer.Size b <> 0)).
Proof.
  intros Hi.
  destruct (WinningSplit s run foldCount depth (Manager st)) as [[[p bits] fm] | |] eqn:Hw;
    try (unfold Fit_iteration in Hi; rewrite Hw in Hi; discriminate).
  rewrite (Fit_iteration_cases _ _ _ _ _ _ _ _ Hw) in Hi.
  exists p, bits, fm. split; [reflexivity |].
  destruct (bool_decide (TBestSplitProperties.FeatureId p = NoFeature)); [discriminate |].
  destruct (SplitBorder fm (BinarySplitOf p)); simpl in Hi; try discriminate.
  destruct (TObliviousTreeStructure.HasSplit (Result st) (BinarySplitOf p)).
  - injection Hi as <- <-. left. auto.
  - right. destruct bits as [b |].
    + destruct (bool_decide (TSingleBuffer.Size b = 0)) eqn:Hz; [discriminate |].
      apply bool_decide_eq_false in Hz. injection Hi as <- <-.
      split; [reflexivity |]. split; [reflexivity |]. now intros ? [= <-].
    + injection Hi as <- <-. split; [reflexivity |]. split; [reflexivity |].
      discriminate.
Qed.

Lemma Fit_loop_updater (s : t) (run : TRun) (foldCount : Z) (n d : nat)
    (st st' : TFitState) :
  let maxDepth := TObliviousTreeLearnerOptions.GetMaxDepth (TreeConfig s) in
  let tree st := TObliviousTreeStructure.Splits (Result st) in
  let calls (len : nat) := Z.min (Z.of_nat len) (Z.max 0 (maxDepth - 1)) in
  (UpdaterSplits st).*1 = tree st ->
  (forall split bits, (split, Some bits) ∈ UpdaterSplits st -> TSingleBuffer.Size bits <> 0) ->
  length (tree st) = d ->
  (maxDepth < 2 ^ 32 -> Z.of_nat (d + n) = maxDepth ->
   SubsetsSplitCalls st = calls d) ->
  Fit_loop s run foldCount n (Z.of_nat d) st = Ok st' ->
  (UpdaterSplits st').*1 = tree st'
  /\ (forall split bits, (split, Some bits) ∈ UpdaterSplits st' ->
        TSingleBuffer.Size bits <> 0)
  /\ (maxDepth < 2 ^ 32 -> Z.of_nat (d + n) = maxDepth ->
      SubsetsSplitCalls st' = calls (length (tree st'))).
Proof.
  intros maxDepth tree calls. revert d st.
  induction n as [|n IH]; intros d st Hup Hbits Hlen Hcalls Hloop.
  - simpl in Hloop. injection Hloop as <-.
    split; [exact Hup |]. split; [exact Hbits |]. rewrite Hlen. exact Hcalls.
  - simpl in Hloop.
    destruct (Fit_iteration s run foldCount (Z.of_nat d) st) as [[c st1] | |] eqn:Hi;
      simpl in Hloop; try discriminate.
    destruct (Fit_iteration_steps _ _ _ _ _ _ _ Hi)
      as (p & bits & fm & Hw & [[-> ->] | (-> & -> & Hsize)]).
    + injection Hloop as <-. simpl.
      split; [exact Hup |]. split; [exact Hbits |].
      intros Hmax Hdn. unfold tree. simpl. fold (tree st). rewrite Hlen.
      rewrite (Hcalls Hmax Hdn). reflexivity.
    + replace (Z.of_nat d + 1) with (Z.of_nat (S d)) in Hloop by lia.
      replace (d + S n)%nat with (S d + n)%nat by lia.
      apply (IH (S d) (applied s (Z.of_nat d) st p bits fm)); [| | | | exact Hloop].
      * simpl. rewrite fmap_app, Hup. reflexivity.
      * simpl. intros split b Hin. apply elem_of_app in Hin as [Hin | Hin].
        -- eapply Hbits; eassumption.
        -- apply list_elem_of_singleton in Hin. injection Hin as _ Hb.
           apply Hsize. now symmetry.
      * unfold tree. simpl. fold (tree st). rewrite length_app, Hlen. simpl. lia.
      * intros Hmax Hdn. simpl.
        replace (S d + n)%nat with (d + S n)%nat in Hdn by lia.
        rewrite (Hcalls Hmax Hdn). fold maxDepth. unfold calls.
        assert (Hu : Int.ui32 (Z.of_nat d + 1) = Z.of_nat d + 1).
        { unfold Int.ui32. apply Z.mod_small. lia. }
        rewrite Hu.
        destruct (decide (Z.of_nat d + 1 = maxDepth)) as [He | Hne].
        -- rewrite bool_decide_false by tauto. lia.
        -- rewrite bool_decide_true by exact Hne. lia.
Qed.

(** X16. When [Fit] returns, the Tree Updater has been given exactly the
    splits of the tree, in order; a tree-CTR split was added with bits that
    are not empty; and [subsets.Split] has been called once for each split
    of the tree but the one at the last depth: min(splits, maxDepth - 1)
    times. *)
Theorem Fit_updater_follows_the_tree (s s' : t) (run : TRun)
    (fm : TBinarizedFeaturesManager.t) (st : TFitState) :
  Fit s run fm = Ok (s', st) ->
  let tree := TObliviousTreeStructure.Splits (Result st) in
  let maxDepth := TObliviousTreeLearnerOptions.GetMaxDepth (TreeConfig s) in
  (UpdaterSplits st).*1 = tree
  /\ (forall split bits, (split, Some bits) ∈ UpdaterSplits st ->
        TSingleBuffer.Size bits <> 0)
  /\ (maxDepth < 2 ^ 32 ->
      SubsetsSplitCalls st = Z.min (Z.of_nat (length tree)) (Z.max 0 (maxDepth - 1))).
Proof.
  intros Hf tree maxDepth.
  apply Fit_unfold in Hf as (subsets & Hb & _ & Hloop).
  apply BuildTreeSearchTarget_Ok in Hb as (Hcfg & _).
  pose proof (Fit_loop_updater s' run (TOptimizationSubsets.FoldCount subsets)
                (Z.to_nat (TObliviousTreeLearnerOptions.GetMaxDepth (TreeConfig s'))) 0
                {| Result := {| TObliviousTreeStructure.Splits := [] |};
                   Manager := fm; UpdaterSplits := []; SubsetsSplitCalls := 0;
                   Log := [] |} st eq_refl) as Hinv.
  cbv zeta in Hinv. rewrite Hcfg in Hinv, Hloop. fold maxDepth in Hinv, Hloop.
  destruct Hinv as (Hup & Hbits & Hcalls).
  - intros split bits Hin. apply elem_of_nil in Hin. destruct Hin.
  - reflexivity.
  - intros _ _. simpl. lia.
  - exact Hloop.
  - split; [exact Hup |]. split; [exact Hbits |].
    intros Hmax. destruct (Z_le_dec 0 maxDepth) as [Hpos | Hneg].
    + apply Hcalls; [exact Hmax | simpl; lia].
    + (* a negative bound: no iteration *)
      replace (Z.to_nat maxDepth) with 0%nat in Hloop by lia.
      simpl in Hloop. injection Hloop as <-. simpl. lia.
Qed.

(** X15. What [Fit] does to the searcher: it only changes [ScoreStdDev],
    and only with fold-based tasks and a random strength that is not a
    zero, to the level computed from the test gradients. In single-task
    mode, or with a random strength of +0 or -0, the level left by an
    earlier call is kept; a NaN strength counts as set. *)
Theorem Fit_noise_level (s s' : t) (run : TRun) (fm : TBinarizedFeaturesManager.t)
    (st : TFitState) :
  Fit s run fm = Ok (s', st) ->
  TreeConfig s' = TreeConfig s /\ RandomStrength s' = RandomStrength s
  /\ FoldBasedTasks s' = FoldBasedTasks s /\ SingleTaskTarget s' = SingleTaskTarget s
  /\ ScoreStdDev s'
     = (if bool_decide (length (FoldBasedTasks s) <> 0%nat) && to_bool (RandomStrength s)
        then TargetScoreStdDev run else ScoreStdDev s)
  /\ (SingleTaskTarget s <> None -> ScoreStdDev s' = ScoreStdDev s)
  /\ (forall sign, RandomStrength s = S754_zero sign -> ScoreStdDev s' = ScoreStdDev s)
  /\ (FoldBasedTasks s <> [] -> RandomStrength s = S754_nan ->
      ScoreStdDev s' = TargetScoreStdDev run).
Proof.
  intros Hf. apply Fit_unfold in Hf as (subsets & Hb & _ & _).
  apply BuildTreeSearchTarget_Ok in Hb as (Hcfg & Hrs & Htasks & Hsingle & Hsd & Hex).
  split; [exact Hcfg |]. split; [exact Hrs |]. split; [exact Htasks |].
  split; [exact Hsingle |]. split; [exact Hsd |]. split; [| split].
  - intros Hs. destruct Hex as [Hnone | Hnil]; [contradiction |].
    rewrite Hsd, Hnil. reflexivity.
  - intros sign Hzero. rewrite Hsd, Hzero. simpl. now rewrite andb_false_r.
  - intros Hne Hnan. rewrite Hsd, Hnan. simpl.
    rewrite bool_decide_true; [reflexivity |].
    destruct (FoldBasedTasks s); [contradiction | discriminate].
Qed.

Lemma CreateSubsets_no_exception (s : t) (maxDepth : Z) (what : TStringBuilder) :
  CreateSubsets s maxDepth <> Exception what.
Proof.
  rewrite CreateSubsets_eq. unfold shift_one.
  destruct (bool_decide _); discriminate.
Qed.

Lemma configured_modes (options : TObliviousTreeLearnerOptions.t) (cs : list TCall) (s : t) :
  calls (Create options) cs = Ok s -> cs <> [] ->
  (FoldBasedTasks s <> [] /\ SingleTaskTarget s = None)
  \/ (FoldBasedTasks s = [] /\ SingleTaskTarget s <> None).
Proof.
  intros Hcalls Hne.
  destruct (calls_Ok _ _ _ Hcalls) as (_ & _ & Hset & Hadd).
  pose proof (calls_exclusive _ _ _ Hcalls (or_introl eq_refl)) as Hex.
  destruct cs as [|c rest]; [contradiction |].
  destruct c as [learnTarget testTarget | target].
  - assert (Ht : FoldBasedTasks s <> [])
      by (apply Hadd; exists learnTarget, testTarget; apply list_elem_of_here).
    left. split; [exact Ht |]. destruct Hex as [Hs | Hnil]; [exact Hs | contradiction].
  - assert (Hs : SingleTaskTarget s <> None)
      by (apply Hset; exists target; apply list_elem_of_here).
    right. split; [| exact Hs]. destruct Hex as [Hnone | Hnil]; [contradiction | exact Hnil].
Qed.

(** X14. For a searcher configured by a non-empty sequence of [AddTask] and
    [SetTarget] calls that all returned, the checks on the modes never
    fire inside [Fit]: [BuildTreeSearchTarget] returns, [GetRandom] is
    defined, [CreateSubsets] throws nothing, and an exception of [Fit] is
    one raised in the loop over the depths. *)
Theorem configured_searcher_passes_the_mode_checks
    (options : TObliviousTreeLearnerOptions.t) (cs : list TCall) (s : t) (run : TRun) :
  calls (Create options) cs = Ok s -> cs <> [] ->
  (exists s', BuildTreeSearchTarget s run = Ok s')
  /\ (exists target, GetRandom s = Ok target)
  /\ (forall maxDepth what, CreateSubsets s maxDepth <> Exception what)
  /\ (forall fm what,
        Fit s run fm = Exception what ->
        exists s' subsets,
          BuildTreeSearchTarget s run = Ok s'
          /\ CreateSubsets s' (TObliviousTreeLearnerOptions.GetMaxDepth (TreeConfig s'))
             = Ok subsets
          /\ Fit_loop s' run (TOptimizationSubsets.FoldCount subsets)
               (Z.to_nat (TObliviousTreeLearnerOptions.GetMaxDepth (TreeConfig s'))) 0
               {| Result := {| TObliviousTreeStructure.Splits := [] |};
                  Manager := fm; UpdaterSplits := []; SubsetsSplitCalls := 0; Log := [] |}
             = Exception what).
Proof.
  intros Hcalls Hne.
  pose proof (configured_modes _ _ _ Hcalls Hne) as Hmode.
  assert (Hbuild : exists s', BuildTreeSearchTarget s run = Ok s').
  { unfold BuildTreeSearchTarget. unfold_result.
    destruct Hmode as [[Ht Hs] | [Ht Hs]].
    - rewrite bool_decide_true
        by (destruct (FoldBasedTasks s); [contradiction | discriminate]).
      rewrite (bool_decide_true _ Hs).
      destruct (to_bool (RandomStrength s)); eauto.
    - rewrite Ht. simpl. rewrite (bool_decide_true _ Hs). eauto. }
  assert (Hentry : bool_decide (length (FoldBasedTasks s) <> 0%nat)
                   || bool_decide (SingleTaskTarget s <> None) = true).
  { destruct Hmode as [[Ht Hs] | [Ht Hs]].
    - rewrite bool_decide_true
        by (destruct (FoldBasedTasks s); [contradiction | discriminate]).
      reflexivity.
    - rewrite (bool_decide_true _ Hs). apply orb_true_r. }
  split; [exact Hbuild |]. split; [| split].
  - unfold GetRandom. destruct Hmode as [[Ht Hs] | [Ht Hs]].
    + rewrite Hs. destruct (FoldBasedTasks s) as [|task rest]; [contradiction |].
      simpl. eauto.
    + destruct (SingleTaskTarget s) as [target |]; [eauto | contradiction].
  - intros maxDepth what. apply CreateSubsets_no_exception.
  - intros fm what Hf. destruct Hbuild as [s' Hb].
    unfold Fit in Hf. rewrite Hentry, Hb in Hf. simpl in Hf.
    destruct (CreateSubsets s' _) as [subsets | what' |] eqn:Hc; simpl in Hf;
      try discriminate.
    + exists s', subsets. split; [exact Hb |]. split; [exact Hc |].
      destruct (Fit_loop s' run _ _ 0 _) as [st | what' |]; simpl in Hf;
        try discriminate.
      now injection Hf as ->.
    + exfalso. exact (CreateSubsets_no_exception _ _ _ Hc).
Qed.

End FitSearcher.

(** ** [TObliviousTreeStructureSearcher]: [Fit] and the registry *)

Section FitRegistry.

Import TBinarizedFeaturesManager TObliviousTreeStructureSearcher.

Context `{Externals}.

Lemma GetId_Some_known (fm : TBinarizedFeaturesManager.t) (ctr : TCtr.t) (id : Z) :
  GetId fm ctr = Some id -> IsKnown fm ctr = true.
Proof.
  unfold GetId. intros Hid.
  destruct (List.find _ (Entries fm)) as [e |] eqn:Hfind; [| discriminate].
  apply List.find_some in Hfind as [Hin He].
  apply bool_decide_eq_true in He. apply IsKnown_true. unfold KnownCtrs.
  apply list_elem_of_fmap. exists e. split; [now symmetry |].
  now apply list_elem_of_In.
Qed.

Lemma Accept_registers (fm fm' : TBinarizedFeaturesManager.t)
    (v v' : TTreeCtrDataSetVisitor.t) (ds : TTreeCtrDataSet.t) (n : Z) :
  TTreeCtrDataSetVisitor.Accept fm v ds n = Ok (v', fm') -> registers fm fm'.
Proof.
  intros Ha. apply Accept_manager in Ha as ->. apply Accept_cache_registers.
Qed.

Lemma VisitPermutationDataSets_registers (dataSets : list TTreeCtrDataSet.t)
    (fm fm' : TBinarizedFeaturesManager.t) (v v' : TTreeCtrDataSetVisitor.t) (n : Z) :
  VisitPermutationDataSets fm v n dataSets = Ok (v', fm') -> registers fm fm'.
Proof.
  revert fm v. induction dataSets as [|ds rest IH]; intros fm v Hvisit; simpl in Hvisit.
  - injection Hvisit as <- <-. apply registers_none.
  - destruct (TTreeCtrDataSetVisitor.Accept fm v ds n) as [[v1 fm1] | |] eqn:Ha;
      simpl in Hvisit; try discriminate.
    eapply registers_trans; [eapply Accept_registers; eassumption |].
    eapply IH; eassumption.
Qed.

Lemma VisitPermutations_registers (permutations : list TPermutationVisit)
    (fm fm' : TBinarizedFeaturesManager.t) (v v' : TTreeCtrDataSetVisitor.t) :
  VisitPermutations fm v permutations = Ok (v', fm') -> registers fm fm'.
Proof.
  revert fm v. induction permutations as [|perm rest IH]; intros fm v Hvisit;
    simpl in Hvisit.
  - injection Hvisit as <- <-. apply registers_none.
  - destruct (VisitPermutationDataSets fm v _ _) as [[v1 fm1] | |] eqn:Hp;
      simpl in Hvisit; try discriminate.
    eapply registers_trans; [eapply VisitPermutationDataSets_registers; eassumption |].
    eapply IH; eassumption.
Qed.

Lemma CreateBestSplitProperties_registers (fm fm' : TBinarizedFeaturesManager.t)
    (v : TTreeCtrDataSetVisitor.t) (p : TBestSplitProperties.t) :
  TTreeCtrDataSetVisitor.CreateBestSplitProperties fm v = Ok (p, fm') ->
  registers fm fm'
  /\ GetId fm' (TTreeCtrDataSetVisitor.BestCtr v) = Some (TBestSplitProperties.FeatureId p).
Proof.
  intros Hc. apply CreateBestSplitProperties_Ok in Hc
    as (_ & _ & _ & Hid & [[_ ->] | (Hk & borders & _ & ->)]).
  - split; [apply registers_none | exact Hid].
  - split; [| exact Hid]. apply registers_add; [apply registers_none | exact Hk].
Qed.

Lemma WinningSplit_registers (s : t) (run : TRun) (foldCount depth : Z)
    (fm fm' : TBinarizedFeaturesManager.t) (p : TBestSplitProperties.t)
    (bits : option TSingleBuffer.t) :
  WinningSplit s run foldCount depth fm = Ok (p, bits, fm') ->
  registers fm fm'
  /\ (forall b, bits = Some b ->
        exists ctr, GetId fm' ctr = Some (TBestSplitProperties.FeatureId p))
  /\ (IsTreeCtrsEnabled fm = false -> fm' = fm /\ bits = None).
Proof.
  unfold WinningSplit, TreeCtrSplit. intros Hw.
  destruct (IsTreeCtrsEnabled fm) eqn:Hen.
  - destruct (bool_decide (UsedPermutations (AtDepth run depth) <> [])).
    + destruct (VisitPermutations fm _ _) as [[v1 fm1] | |] eqn:Hv; simpl in Hw;
        try discriminate.
      apply VisitPermutations_registers in Hv.
      destruct (TTreeCtrDataSetVisitor.HasSplit v1).
      * destruct (TTreeCtrDataSetVisitor.CreateBestSplitProperties fm1 v1)
          as [[p1 fm2] | |] eqn:Hc; simpl in Hw; try discriminate.
        destruct (TTreeCtrDataSetVisitor.GetBestSplitBits v1) as [b1 | |];
          simpl in Hw; try discriminate.
        injection Hw as <- <- <-.
        apply CreateBestSplitProperties_registers in Hc as [Hreg Hid].
        split; [eapply registers_trans; eassumption |].
        split; [eauto | discriminate].
      * injection Hw as <- <- <-. split; [exact Hv |]. split; discriminate.
    + injection Hw as <- <- <-. split; [apply registers_none |]. split; discriminate.
  - injection Hw as <- <- <-. split; [apply registers_none |]. split; [discriminate | auto].
Qed.

Lemma Fit_loop_registry (s : t) (run : TRun) (foldCount : Z) (n : nat) (depth : Z)
    (st st' : TFitState) :
  let registered (st : TFitState) :=
    forall split bits, (split, Some bits) ∈ UpdaterSplits st ->
      exists ctr, IsKnown (Manager st) ctr = true
                  /\ GetId (Manager st) ctr = Some (TBinarySplit.FeatureId split) in
  registered st ->
  Fit_loop s run foldCount n depth st = Ok st' ->
  registers (Manager st) (Manager st') /\ registered st'
  /\ (IsTreeCtrsEnabled (Manager st) = false ->
      (forall split bits, (split, bits) ∈ UpdaterSplits st -> bits = None) ->
      Manager st' = Manager st
      /\ forall split bits, (split, bits) ∈ UpdaterSplits st' -> bits = None).
Proof.
  intros registered. revert depth st.
  induction n as [|n IH]; intros depth st Hreg Hloop; simpl in Hloop.
  - injection Hloop as <-. split; [apply registers_none |]. split; [exact Hreg | auto].
  - destruct (Fit_iteration s run foldCount depth st) as [[c st1] | |] eqn:Hi;
      simpl in Hloop; try discriminate.
    destruct (Fit_iteration_steps _ _ _ _ _ _ _ Hi)
      as (p & bits & fm & Hw & Hstep).
    apply WinningSplit_registers in Hw as (Hregs & Hbits & Hoff).
    assert (Hkeep : forall split b, (split, Some b) ∈ UpdaterSplits st ->
              exists ctr, IsKnown fm ctr = true
                          /\ GetId fm ctr = Some (TBinarySplit.FeatureId split)).
    { intros split b Hin. destruct (Hreg split b Hin) as (ctr & Hk & Hid).
      destruct (registers_preserves _ _ Hregs) as (_ & _ & Hknown & _).
      destruct (Hknown ctr Hk) as [Hk' Hid']. exists ctr. split; [exact Hk' | congruence]. }
    destruct Hstep as [[-> ->] | (-> & -> & _)].
    + injection Hloop as <-. simpl. split; [exact Hregs |]. split; [exact Hkeep |].
      intros Hen Hnone. destruct (Hoff Hen) as [-> _]. auto.
    + assert (Hreg1 : registered (applied s depth st p bits fm)).
      { intros split b Hin. simpl in Hin |- *.
        apply elem_of_app in Hin as [Hin | Hin]; [eapply Hkeep; eassumption |].
        apply list_elem_of_singleton in Hin. injection Hin as -> Hb.
        destruct (Hbits b (eq_sym Hb)) as (ctr & Hid). exists ctr.
        split; [eapply GetId_Some_known; eassumption | exact Hid]. }
      destruct (IH _ _ Hreg1 Hloop) as (Hregs' & Hreg' & Hoff').
      simpl in Hregs', Hoff'.
      split; [eapply registers_trans; eassumption |]. split; [exact Hreg' |].
      intros Hen Hnone. destruct (Hoff Hen) as [-> ->].
      apply Hoff'; [exact Hen |].
      intros split b Hin. apply elem_of_app in Hin as [Hin | Hin];
        [eapply Hnone; eassumption |].
      apply list_elem_of_singleton in Hin. now injection Hin as _ ->.
Qed.

(** X17. On the registry model of the Features Manager, a run of [Fit] that
    returns only registers CTRs the manager did not know: a well-formed
    registry stays well-formed, known CTRs keep their ids, the setting of
    tree CTRs is unchanged, and the feature of every tree-CTR split of the
    tree is the id of a registered CTR. With tree CTRs disabled the manager
    is not touched and no split has bits. *)
Theorem Fit_extends_the_registry (s s' : t) (run : TRun)
    (fm : TBinarizedFeaturesManager.t) (st : TFitState) :
  Fit s run fm = Ok (s', st) ->
  registers fm (Manager st)
  /\ TreeCtrsEnabled (Manager st) = TreeCtrsEnabled fm
  /\ (TBinarizedFeaturesManager.wf fm -> TBinarizedFeaturesManager.wf (Manager st))
  /\ (forall ctr, IsKnown fm ctr = true ->
        IsKnown (Manager st) ctr = true /\ GetId (Manager st) ctr = GetId fm ctr)
  /\ (forall split bits, (split, Some bits) ∈ UpdaterSplits st ->
        exists ctr, IsKnown (Manager st) ctr = true
                    /\ GetId (Manager st) ctr = Some (TBinarySplit.FeatureId split))
  /\ (IsTreeCtrsEnabled fm = false ->
      Manager st = fm
      /\ forall split bits, (split, bits) ∈ UpdaterSplits st -> bits = None).
Proof.
  intros Hf. apply Fit_unfold in Hf as (subsets & _ & _ & Hloop).
  apply Fit_loop_registry in Hloop as (Hregs & Hreg & Hoff); simpl in *.
  - destruct (registers_preserves _ _ Hregs) as (_ & Hwf & Hknown & _ & Hen).
    split; [exact Hregs |]. split; [exact Hen |]. split; [exact Hwf |].
    split; [exact Hknown |]. split; [exact Hreg |].
    intros Hdis. apply Hoff; [exact Hdis |].
    intros split bits Hin. apply elem_of_nil in Hin. destruct Hin.
  - intros split bits Hin. apply elem_of_nil in Hin. destruct Hin.
Qed.

End FitRegistry.

(** * Sample runs *)

Section SampleRuns.

Import TObliviousTreeStructureSearcher.

(** The first depth of the sample run applies the tree-CTR split. *)
Lemma sample_depth_0 :
  Fit_iteration (H := Sample.externals) Sample.single_task Sample.run 1 0
    (Sample.start Sample.manager)
  = Ok (Next, Sample.after_depth_0).
Proof. vm_compute. reflexivity. Qed.

(** C1 as stated fails with three fold-based tasks and [maxDepth = 1]: the
    fold count is 6 and the claim's size is 12, but the table has a power
    of two of entries whatever [IntLog2] returns: 16 with the logarithm
    rounded up. *)
Lemma three_tasks_partitions :
  InitialFoldCount Sample.three_tasks = 6
  /\ (exists subsets,
        CreateSubsets (H := Sample.externals) Sample.three_tasks 1 = Ok subsets
        /\ TOptimizationSubsets.FoldCount subsets = 6
        /\ TOptimizationSubsets.PartitionsSize subsets = 16)
  /\ ~ (exists (E : Externals) subsets,
          CreateSubsets Sample.three_tasks 1 = Ok subsets
          /\ TOptimizationSubsets.PartitionsSize subsets
             = TOptimizationSubsets.FoldCount subsets * 2 ^ 1).
Proof.
  split; [reflexivity |]. split.
  - eexists. split; [vm_compute; reflexivity |]. split; reflexivity.
  - intros (E & subsets & Hc & Hsize).
    destruct (CreateSubsets_Ok _ _ _ Hc) as (Hcount & _ & Hlt & Hpow).
    rewrite Hcount, Hpow in Hsize.
    change (InitialFoldCount Sample.three_tasks) with 6 in *.
    set (n := Int.ui32 (IntLog2 6 + 1)) in *.
    destruct (decide (n <= 3)) as [Hle | Hgt].
    + pose proof (Z.pow_le_mono_r 2 n 3 ltac:(lia) Hle). lia.
    + pose proof (Z.pow_le_mono_r 2 4 n ltac:(lia) ltac:(lia)). lia.
Qed.

(** In single-task mode with [maxDepth = 3] the table has 8 entries, the
    fold count times [2^3]. *)
Lemma single_task_partitions :
  exists subsets,
    CreateSubsets (H := Sample.externals) Sample.single_task 3 = Ok subsets
    /\ TOptimizationSubsets.FoldCount subsets = 1
    /\ TOptimizationSubsets.PartitionsSize subsets = 2 ^ (0 + 3)
    /\ (TOptimizationSubsets.PartitionsSize subsets = 1 * 2 ^ 3 <-> 1 = 2 ^ 0).
Proof.
  apply (proj2 (CreateSubsets_partitions (H := Sample.externals) Sample.single_task 3));
    vm_compute; first [discriminate | reflexivity].
Defined.

(** The sample run stops at depth 1, on the split it applied at depth 0:
    the tree has one split, fewer than the three that [maxDepth] allows, and
    two iterations ran. *)
Lemma early_stop_in_sample_run :
  exists s' st,
    Fit (H := Sample.externals) Sample.single_task Sample.run Sample.manager
    = Ok (s', st)
    /\ length (TObliviousTreeStructure.Splits (Result st)) = 1%nat
    /\ (1 < 3)%nat
    /\ length (Log st) = 2%nat.
Proof.
  exists Sample.single_task, Sample.after_depth_1.
  assert (Hfit : Fit (H := Sample.externals) Sample.single_task Sample.run Sample.manager
                 = Ok (Sample.single_task, Sample.after_depth_1))
    by (vm_compute; reflexivity).
  split; [exact Hfit |].
  pose proof (proj2 (early_stop_on_duplicate_split (H := Sample.externals))
                _ _ _ _ _ Hfit) as Hrun.
  cbv zeta in Hrun. destruct Hrun as (_ & _ & _ & Hline).
  destruct (Hline 1%nat _ eq_refl) as (_ & Hstop & _).
  apply Hstop. simpl. apply list_elem_of_here.
Defined.

(** With no candidate at all the first iteration throws "best split is
    NaN". *)
Lemma no_candidate_is_fatal :
  Fit_iteration (H := Sample.externals) Sample.single_task Sample.empty_run 1 0
    (Sample.start Sample.manager)
  = Exception (NaN_message Sample.no_candidate).
Proof.
  apply (proj1 (proj1 (sentinel_split_is_fatal (H := Sample.externals)
                         Sample.single_task Sample.empty_run 1 0
                         (Sample.start Sample.manager) Sample.no_candidate None
                         Sample.manager eq_refl) eq_refl)).
Defined.

(** C3 as stated fails at depth 1 of the sample run: the winning split
    carries the feature id 10, not the sentinel, and it is not applied: the
    tree has it already, the loop stops, and the tree and the splits of the
    Tree Updater stay as they were. And a winning split on bin 7 of feature
    0, which has one border, is not applied either: the border its log line
    prints is read outside the borders. *)
Lemma duplicate_split_is_not_applied :
  (exists p bits st',
     WinningSplit (H := Sample.externals) Sample.single_task Sample.run 1 1
       (Manager Sample.after_depth_0)
     = Ok (p, bits, Manager Sample.after_depth_0)
     /\ TBestSplitProperties.FeatureId p = 10
     /\ TBestSplitProperties.FeatureId p <> NoFeature
     /\ Fit_iteration (H := Sample.externals) Sample.single_task Sample.run 1 1
          Sample.after_depth_0
        = Ok (Break, st')
     /\ Result st' = Result Sample.after_depth_0
     /\ UpdaterSplits st' = UpdaterSplits Sample.after_depth_0)
  /\ WinningSplit (H := Sample.externals) Sample.single_task Sample.far_border_run 1 0
       Sample.manager
     = Ok (TBestSplitProperties.mk 0 7 Sample.minus_one, None, Sample.manager)
  /\ Fit_iteration (H := Sample.externals) Sample.single_task Sample.far_border_run 1 0
       (Sample.start Sample.manager)
     = Undefined.
Proof.
  split; [| split; vm_compute; reflexivity].
  eexists _, _, _.
  split; [vm_compute; reflexivity |].
  split; [reflexivity |]. split; [vm_compute; discriminate |].
  split; [vm_compute; reflexivity |]. split; reflexivity.
Qed.

(** The visit of the sample data set improves on the static score: the
    visitor takes the candidate's score, on the data set's device. *)
Lemma sample_visit_improves :
  TTreeCtrDataSetVisitor.BestScore Sample.visited = Sample.minus_two
  /\ TTreeCtrDataSetVisitor.BestDevice Sample.visited = 1
  /\ TTreeCtrDataSetVisitor.HasSplit Sample.visited = true.
Proof.
  assert (Ha : TTreeCtrDataSetVisitor.Accept (H := Sample.externals) Sample.manager
                 Sample.seeded Sample.data_set 100
               = Ok (Sample.visited,
                     TTreeCtrDataSetVisitor.Accept_cache (H := Sample.externals)
                       Sample.manager Sample.seeded Sample.data_set))
    by (vm_compute; reflexivity).
  destruct (proj1 (proj2 (visitor_supersedes_iff_strictly_better (H := Sample.externals)))
              _ _ _ _ _ _ Ha) as (seed & _ & Hfacts).
  cbv zeta in Hfacts. destruct Hfacts as (_ & Hbetter & _).
  destruct (Hbetter eq_refl) as (Hscore & _ & _ & _ & _ & _ & Hsmall).
  destruct (Hsmall eq_refl) as [Hdev Hhas].
  split; [exact Hscore |]. split; [exact Hdev | exact Hhas].
Defined.

(** C4 as stated fails on the device 2^31: the candidate of the data set
    improves on the best score of the visitor, which takes its score, and
    [HasSplit] is false after the call as it was before, the device having
    no [int]. *)
Lemma improvement_on_device_2_31 :
  exists v' fm',
    TTreeCtrDataSetVisitor.Accept (H := Sample.externals) Sample.manager
      Sample.wide_visitor Sample.far_data_set 100 = Ok (v', fm')
    /\ TTreeCtrDataSetVisitor.HasSplit Sample.wide_visitor = false
    /\ TTreeCtrDataSetVisitor.BestScore v' = Sample.minus_two
    /\ Double.lt (TTreeCtrDataSetVisitor.BestScore v')
                 (TTreeCtrDataSetVisitor.BestScore Sample.wide_visitor) = true
    /\ TTreeCtrDataSetVisitor.BestDevice v' = - 2 ^ 31
    /\ TTreeCtrDataSetVisitor.HasSplit v' = false.
Proof.
  assert (Hlen : forall A (x : A),
             Z.of_nat (length (replicate (Z.to_nat (2 ^ 31 + 1)) x)) = 2 ^ 31 + 1)
    by (intros; rewrite length_replicate; apply Z2Nat.id; lia).
  destruct (Accept_returns (H := Sample.externals) Sample.manager Sample.wide_visitor
              Sample.far_data_set 100) as [v' Ha].
  - change (0 <= 2 ^ 31 < Z.of_nat (length (replicate (Z.to_nat (2 ^ 31 + 1)) 0))).
    rewrite Hlen. lia.
  - change (2 ^ 31 < Z.of_nat (length (replicate (Z.to_nat (2 ^ 31 + 1))
                                         TSingleBuffer.empty))).
    rewrite Hlen. lia.
  - change (length (replicate (Z.to_nat (2 ^ 31 + 1)) ([] : list float))
            = length (replicate (Z.to_nat (2 ^ 31 + 1)) TSingleBuffer.empty)).
    now rewrite !length_replicate.
  - intros taskSeed. lazy. repeat split; discriminate.
  - exists v', (TTreeCtrDataSetVisitor.Accept_cache (H := Sample.externals)
                  Sample.manager Sample.wide_visitor Sample.far_data_set).
    split; [exact Ha |]. split; [reflexivity |].
    destruct (Accept_step _ _ _ _ _ _ Ha) as (seed & _ & Hfacts).
    cbv zeta in Hfacts. destruct Hfacts as (_ & Hbetter & _).
    destruct (Hbetter eq_refl) as (Hscore & _ & Hdev & _ & _ & Hhas & _).
    split; [exact Hscore |]. split; [rewrite Hscore; reflexivity |].
    split; [exact Hdev | exact Hhas].
Qed.



(** C6 as stated fails for a tensor with a binary split: its one
    categorical feature is below the threshold 2, and its borders are not
    selected for caching. *)
Lemma tensor_with_split_is_not_cached :
  Z.of_nat (length (TFeatureTensor.CatFeatures (TCtr.FeatureTensor Sample.split_ctr)))
  < TObliviousTreeLearnerOptions.GetMaxCtrComplexityForBordersCaching
      (TTreeCtrDataSetVisitor.TreeConfig Sample.seeded)
  /\ TTreeCtrDataSetVisitor.GetCtrsBordersToCacheIds Sample.seeded [Sample.split_ctr] = []
  /\ TTreeCtrDataSetVisitor.Accept_cache (H := Sample.externals) Sample.manager
       Sample.seeded
       {| TTreeCtrDataSet.Ctrs := [Sample.split_ctr];
          TTreeCtrDataSet.HostFeatures := [0];
          TTreeCtrDataSet.DeviceId := 0;
          TTreeCtrDataSet.BaseTensorHash := 0;
          TTreeCtrDataSet.ReadBorders := fun _ => [Sample.one_half];
          TTreeCtrDataSet.ScoreHelper := fun _ _ => Sample.no_candidate |}
     = Sample.manager.
Proof. split; [| split]; vm_compute; reflexivity. Qed.

(** The class of 0.75 among the borders 0, 0.5 and 1 is 2, of 4 classes. *)
Lemma sample_target_class :
  TTargetClassifier.GetTargetClass Sample.classifier Sample.three_quarters = 2
  /\ TTargetClassifier.GetClassesCount Sample.classifier = Ok 4.
Proof.
  destruct (GetTargetClass_longest_prefix Sample.classifier Sample.three_quarters)
    as (_ & _ & Hsmall & Hcount).
  assert (Hthree : Z.of_nat (length (TTargetClassifier.Borders Sample.classifier)) = 3)
    by reflexivity.
  destruct (Hsmall ltac:(rewrite Hthree; lia)) as (Hclass & _).
  destruct (Hcount ltac:(rewrite Hthree; lia)) as (count & Hc & -> & _).
  split; [exact Hclass | exact Hc].
Defined.

(** C10 as stated fails for a vector of 2^31 borders: its size has no
    [int], the loop of [GetTargetClass] sees no border and returns 0, while
    every border is strictly below the target 0.75, and [GetClassesCount]
    is not the size plus one. *)
Lemma classes_of_2_31_borders :
  TTargetClassifier.GetTargetClass Sample.many_borders Sample.three_quarters = 0
  /\ Z.of_nat (length (TTargetClassifier.longest_prefix_below Sample.three_quarters
                         (TTargetClassifier.Borders Sample.many_borders))) = 2 ^ 31
  /\ Z.of_nat (length (TTargetClassifier.Borders Sample.many_borders)) = 2 ^ 31
  /\ TTargetClassifier.GetClassesCount Sample.many_borders = Ok (- 2 ^ 31 + 1).
Proof.
  assert (Hsize : Z.of_nat (length (TTargetClassifier.Borders Sample.many_borders))
                  = 2 ^ 31).
  { unfold Sample.many_borders, TTargetClassifier.Borders.
    rewrite length_replicate. apply Z2Nat.id. lia. }
  assert (Hysize : TTargetClassifier.ysize Sample.many_borders = - 2 ^ 31)
    by (unfold TTargetClassifier.ysize; rewrite Hsize; reflexivity).
  split; [| split; [| split]].
  - unfold TTargetClassifier.GetTargetClass.
    apply GetTargetClass_loop_stop.
    unfold TTargetClassifier.loop_condition. rewrite Hysize. reflexivity.
  - unfold Sample.many_borders, TTargetClassifier.Borders.
    rewrite longest_prefix_below_replicate by reflexivity.
    rewrite length_replicate. apply Z2Nat.id. lia.
  - exact Hsize.
  - unfold TTargetClassifier.GetClassesCount. rewrite Hysize. reflexivity.
Qed.

(** The visited sample visitor hands out its bits. *)
Lemma sample_extraction_succeeds :
  exists bits,
    TTreeCtrDataSetVisitor.GetBestSplitBits Sample.visited = Ok bits
    /\ TTreeCtrDataSetVisitor.BestSplits Sample.visited
       !! Z.to_nat (TTreeCtrDataSetVisitor.BestDevice Sample.visited) = Some bits.
Proof.
  apply (proj2 (proj2 (proj2 (EnsureHasBestProps_cases Sample.manager Sample.visited)))).
  - vm_compute. discriminate.
  - vm_compute. discriminate.
  - split; vm_compute; reflexivity.
Defined.

(** The task seed of the sample data set, on device 1, with base seed 5. *)
Lemma sample_task_seed :
  TTreeCtrDataSetVisitor.TaskSeed Sample.seeded Sample.data_set
  = Ok (Int.ui64 (TTreeCtrDataSetVisitor.DeviceSeed 5 1 + 17)).
Proof.
  apply (device_and_task_seeds
           (TTreeCtrDataSetVisitor.SetBestScore
              (TTreeCtrDataSetVisitor.Create 2 1 Sample.options) Sample.minus_one)
           (S754_zero false) 5 Sample.data_set).
  split; vm_compute; first [discriminate | reflexivity].
Defined.

(** After [SetTarget], [AddTask] throws. *)
Lemma add_task_after_set_target :
  AddTask Sample.single_task {| IndicesSize := 60 |} {| IndicesSize := 40 |}
  = Exception [Str "We can't mix learn/test splits and full estimation"].
Proof.
  destruct (proj1 (task_modes_do_not_mix Sample.options)
              [CallSetTarget {| IndicesSize := 100 |}] Sample.single_task eq_refl)
    as (Hset & _).
  apply Hset. exists {| IndicesSize := 100 |}. apply list_elem_of_here.
Defined.

End SampleRuns.

(** ** Sample runs of the further properties *)

Section FurtherSampleRuns.

Import TObliviousTreeStructureSearcher.

(** The sample run of [Fit]: depth 0 applies the tree-CTR split, depth 1
    chooses it again and the loop stops. *)
Lemma sample_fit :
  Fit (H := Sample.externals) Sample.single_task Sample.run Sample.manager
  = Ok (Sample.single_task, Sample.after_depth_1).
Proof. vm_compute. reflexivity. Qed.

(** The visit of depth 0 of the sample run. *)
Lemma sample_visit :
  VisitPermutations (H := Sample.externals) Sample.manager Sample.seeded
    (UsedPermutations Sample.depth_data)
  = Ok (Sample.visited, Manager Sample.after_depth_0).
Proof. vm_compute. reflexivity. Qed.

Lemma sample_classes_are_ordered :
  TTargetClassifier.GetTargetClass Sample.classifier (S754_zero false)
  <= TTargetClassifier.GetTargetClass Sample.classifier Sample.three_quarters.
Proof. apply GetTargetClass_monotone. reflexivity. Defined.

Lemma sample_class_counts_borders :
  TTargetClassifier.GetTargetClass Sample.classifier Sample.three_quarters
  = Z.of_nat (length (List.filter (fun b => Double.lt b Sample.three_quarters)
                        (TTargetClassifier.Borders Sample.classifier))).
Proof.
  assert (Hsize : Z.of_nat (length (TTargetClassifier.Borders Sample.classifier))
                  <= 2 ^ 31 - 1) by (simpl; lia).
  apply (proj2 (GetTargetClass_sorted_borders Sample.classifier Sample.three_quarters
                  Hsize eq_refl)).
Defined.

Lemma sample_class_is_bounded :
  TTargetClassifier.GetTargetClass Sample.classifier Sample.three_quarters <= 2.
Proof.
  apply (proj1 (proj2 (proj2
           (GetTargetClass_edges Sample.classifier Sample.three_quarters)))
           2%nat (S754_finite false 8388608 (-23)));
    reflexivity.
Defined.

Lemma far_bin_is_refused :
  TTreeCtrDataSetVisitor.UpdateBestSplit (H := Sample.externals) Sample.manager
    Sample.seeded Sample.data_set 100 Sample.far_bin
  = Exception [Num 1; Str " "; Num 0; Str " "; Num 5].
Proof.
  assert (Hdev : 0 <= TTreeCtrDataSet.DeviceId Sample.data_set
                 < Z.of_nat (length (TTreeCtrDataSetVisitor.BestSplits Sample.seeded)))
    by (simpl; lia).
  assert (Hhost : TBestSplitProperties.FeatureId Sample.far_bin
                  < Z.of_nat (length (TTreeCtrDataSet.HostFeatures Sample.data_set)))
    by (simpl; lia).
  apply (proj1 (UpdateBestSplit_checks_bin_of_new_ctr (H := Sample.externals)
                  Sample.manager Sample.seeded Sample.data_set 100 Sample.far_bin
                  Sample.plain_ctr eq_refl eq_refl Hhost Hdev eq_refl));
    [reflexivity | simpl; lia].
Defined.

Lemma sample_accept_is_defined :
  TTreeCtrDataSetVisitor.Accept (H := Sample.externals) Sample.manager Sample.seeded
    Sample.data_set 100
  <> Undefined.
Proof.
  apply Accept_stays_in_bounds.
  - simpl. lia.
  - simpl. lia.
  - reflexivity.
  - intros taskSeed c _. simpl. lia.
Defined.

Lemma sample_visit_keeps_the_minimum :
  TTreeCtrDataSetVisitor.Seeds Sample.visited = TTreeCtrDataSetVisitor.Seeds Sample.seeded
  /\ Double.lt (TTreeCtrDataSetVisitor.BestScore Sample.seeded)
           (TTreeCtrDataSetVisitor.BestScore Sample.visited) = false.
Proof.
  destruct (visit_keeps_the_best_candidate (H := Sample.externals) _ _ _ _ _ sample_visit)
    as (Hseeds & _ & _ & _ & Hbest).
  split; [exact Hseeds | exact Hbest].
Defined.

Lemma sample_borders_are_cached :
  exists id,
    TBinarizedFeaturesManager.GetId
      (TTreeCtrDataSetVisitor.CacheCtrBorders Sample.manager
         [(Sample.plain_ctr, [Sample.one_half])]) Sample.plain_ctr = Some id
    /\ TBinarizedFeaturesManager.GetBorders
         (TTreeCtrDataSetVisitor.CacheCtrBorders Sample.manager
            [(Sample.plain_ctr, [Sample.one_half])]) id = Some [Sample.one_half]
    /\ TBinarizedFeaturesManager.Cursor Sample.manager <= id.
Proof.
  apply (cached_borders_are_the_borders_read Sample.manager
           [(Sample.plain_ctr, [Sample.one_half])] Sample.plain_ctr [Sample.one_half]).
  - split; [constructor | split; constructor].
  - apply NoDup_singleton.
  - apply list_elem_of_here.
  - reflexivity.
Defined.

Lemma sample_seeds_are_distinct : NoDup (TTreeCtrDataSetVisitor.Seeds Sample.seeded).
Proof.
  apply (device_seeds_are_distinct
           (TTreeCtrDataSetVisitor.SetBestScore
              (TTreeCtrDataSetVisitor.Create 2 1 Sample.options) Sample.minus_one)
           (S754_zero false) 5).
  simpl. lia.
Defined.

Lemma three_tasks_parts_add_up :
  GetTotalIndicesSize Sample.three_tasks = TasksSize (FoldBasedTasks Sample.three_tasks)
  /\ PartsSize (WriteFoldBasedInitialBins Sample.three_tasks)
     = GetTotalIndicesSize Sample.three_tasks.
Proof.
  assert (Hfits : fits_ui32 (FoldBasedTasks Sample.three_tasks)).
  { split; [repeat constructor; simpl; lia | reflexivity]. }
  destruct (proj2 (proj2 (proj2 (proj2 (initial_parts_are_contiguous Sample.three_tasks))))
              eq_refl Hfits) as (Htotal & Hsize & _).
  split; [exact Htotal | exact Hsize].
Defined.

Lemma three_tasks_last_slice :
  Int.ui32 (TSlice.Right (TSlice.mk 260 300)) = GetTotalIndicesSize Sample.three_tasks.
Proof.
  apply (proj2 (proj2 (proj2 (MakeTaskSlices_are_the_parts Sample.three_tasks))) eq_refl).
  reflexivity.
Defined.

Lemma three_tasks_second_fill :
  Parts (WriteFoldBasedInitialBins_fills Sample.three_tasks) !! 1%nat
  = Some {| Offset := 60; Size := Int.ui32 (TSlice.Size (TSlice.mk 60 100)) |}.
Proof.
  apply (proj2 (proj2 (proj2 (proj2 (initial_bins_number_the_parts Sample.three_tasks)))
                  1%nat {| FillSlice := TSlice.mk 60 100; FillValue := 1 |} eq_refl)).
Defined.

Lemma single_task_random :
  GetRandom Sample.single_task = Ok {| IndicesSize := 100 |}.
Proof.
  apply (proj1 (proj2 (GetRandom_defined_iff Sample.single_task))). reflexivity.
Defined.

Lemma single_task_passes_the_checks :
  exists s', BuildTreeSearchTarget Sample.single_task Sample.run = Ok s'.
Proof.
  apply (configured_searcher_passes_the_mode_checks (H := Sample.externals) Sample.options
           [CallSetTarget {| IndicesSize := 100 |}] Sample.single_task Sample.run).
  - reflexivity.
  - discriminate.
Defined.

Lemma sample_fit_keeps_the_noise_level :
  exists s' st,
    Fit (H := Sample.externals) Sample.single_task Sample.run Sample.manager = Ok (s', st)
    /\ ScoreStdDev s' = ScoreStdDev Sample.single_task
    /\ RandomStrength s' = RandomStrength Sample.single_task.
Proof.
  exists Sample.single_task, Sample.after_depth_1.
  destruct (Fit_noise_level (H := Sample.externals) _ _ _ _ _ sample_fit)
    as (_ & Hstrength & _ & _ & _ & Hkeep & _).
  split; [exact sample_fit |]. split; [apply Hkeep; discriminate | exact Hstrength].
Defined.

Lemma sample_fit_updater :
  (UpdaterSplits Sample.after_depth_1).*1
  = TObliviousTreeStructure.Splits (Result Sample.after_depth_1)
  /\ SubsetsSplitCalls Sample.after_depth_1 = 1.
Proof.
  destruct (Fit_updater_follows_the_tree (H := Sample.externals) _ _ _ _ _ sample_fit)
    as (Hup & _ & Hcalls).
  split; [exact Hup | apply Hcalls; reflexivity].
Defined.

Lemma sample_fit_registers_the_split :
  exists ctr,
    TBinarizedFeaturesManager.IsKnown (Manager Sample.after_depth_1) ctr = true
    /\ TBinarizedFeaturesManager.GetId (Manager Sample.after_depth_1) ctr = Some 10.
Proof.
  destruct (Fit_extends_the_registry (H := Sample.externals) _ _ _ _ _ sample_fit)
    as (_ & _ & _ & _ & Hsplits & _).
  apply (Hsplits (TBinarySplit.mk 10 0 TakeGreater)
           (TSingleBuffer.mk 1 2 (Some (17, 0, 0)))).
  apply list_elem_of_here.
Defined.

End FurtherSampleRuns.
